(** * The webhook pipeline of github-app-saketh: gateway, adapters, queue loops

    A shallow embedding of the Go sources and the properties of the pipeline

      HTTP webhook -> WebhookHandler -> raw queue -> adapter.NormalizeEvent
                   -> normalized queue -> DeliverEvent -> Platform BE

    Conventions.
    - A Go [string] is a [string]; a [[]byte] is a [list byte];
      [[]byte(s)] is [list_byte_of_string s].
    - A Go [int] is a [Z]; the one addition the sources perform on ints is
      written with its 64-bit wrap-around ([int_add]).
    - [http.Header] is a [gmap string (list string)] keyed by canonical
      header names, as net/http stores it.
    - Calls that leave the process (the response writer, the AMQP channel,
      outbound HTTP, the clock, token issuance) are the constructors of [IO];
      a Go function that performs them is a [Prog], and [run] executes a
      [Prog] against a [World] that answers every call, returning the result
      together with the chronological trace of calls and answers.
    - [encoding/json] is the class [JSON]: one codec per Go type.
    - [log.Printf] calls, the publish mutex and context deadlines leave no
      mark in the model. *)

From Stdlib Require Import ZArith String Ascii List Bool Lia.
From Stdlib Require Import Init.Byte DecimalString.
From stdpp Require Import base option gmap strings list.

Import ListNotations.
Local Open Scope string_scope.
Local Open Scope list_scope.
Local Open Scope Z_scope.

(** ** Go values *)

Definition bytes := list byte.

Definition byte_to_Z (b : byte) : Z := Z.of_N (Byte.to_N b).

Definition byte_of_Z (z : Z) : byte :=
  match Byte.of_N (Z.to_N (z mod 256)) with
  | Some b => b
  | None => x00
  end.

(** [[]byte(s)] and [string(b)]. *)
Definition to_bytes (s : string) : bytes := list_byte_of_string s.
Definition of_bytes (b : bytes) : string := string_of_list_byte b.

(** Go's [int] on a 64-bit platform: [x + y] wraps around. *)
Definition int_wrap (z : Z) : Z := (z + 2 ^ 63) mod 2 ^ 64 - 2 ^ 63.
Definition int_add (x y : Z) : Z := int_wrap (x + y).
Definition is_int (z : Z) : Prop := - 2 ^ 63 <= z < 2 ^ 63.

(** [error] values: a message, possibly wrapping another error ([%w]). *)
Inductive error : Type :=
| errorString (msg : string)
| wrapError (msg : string) (inner : error).

(** A Go [(T, error)] pair whose error is checked before the value is used. *)
Definition result (A : Type) : Type := (A + error)%type.
Definition Ok {A} (a : A) : result A := inl a.
Definition Err {A} (e : error) : result A := inr e.

Definition is_ok {A} (r : result A) : bool :=
  match r with inl _ => true | inr _ => false end.

(** ** strings *)

Module strings.

Fixpoint HasPrefix (s prefix : string) : bool :=
  match prefix, s with
  | EmptyString, _ => true
  | String p prefix', String c s' => Ascii.eqb p c && HasPrefix s' prefix'
  | String _ _, EmptyString => false
  end.

(** [s[n:]] for [n] within the string. *)
Fixpoint drop (n : nat) (s : string) : string :=
  match n, s with
  | O, _ => s
  | S n', String _ s' => drop n' s'
  | S _, EmptyString => EmptyString
  end.

Definition lower_ascii (c : ascii) : ascii :=
  let n := N_of_ascii c in
  if ((65 <=? n) && (n <=? 90))%N then ascii_of_N (n + 32) else c.

(** [strings.ToLower] as it is on a string of ASCII bytes: 'A'..'Z' are
    folded, all else is kept. On other strings Go also folds the upper-case
    letters beyond ASCII and replaces invalid UTF-8, which this function
    does not: what is stated of a lower-cased string is stated of ASCII
    strings. The comparisons of mapBitbucketStatus come out the same on
    every string, since no letter of "added", "removed" or "renamed" is the
    lower case of a letter beyond ASCII. *)
Fixpoint ToLower (s : string) : string :=
  match s with
  | EmptyString => EmptyString
  | String c s' => String (lower_ascii c) (ToLower s')
  end.

(** [strings.SplitN(s, "/", 2)]: at most two pieces, cut at the first
    slash. *)
Fixpoint cut_slash (s : string) : option (string * string) :=
  match s with
  | EmptyString => None
  | String c s' =>
      if Ascii.eqb c "/" then Some (EmptyString, s')
      else match cut_slash s' with
           | Some (a, b) => Some (String c a, b)
           | None => None
           end
  end.

Definition SplitN2_slash (s : string) : list string :=
  match cut_slash s with
  | Some (a, b) => [a; b]
  | None => [s]
  end.

End strings.

(** ** crypto/sha256, crypto/hmac, encoding/hex *)

Module sha256.

(** The constants of FIPS 180-4: the first 32 bits of the fractional parts
    of the cube roots (for [K]) and square roots (for [init]) of the first
    primes. *)
Definition is_prime (n : Z) : bool :=
  forallb (fun d => negb (n mod d =? 0))
          (map Z.of_nat (seq 2 (Z.to_nat n - 2))).

Definition primes : list Z :=
  Eval vm_compute in filter is_prime (map Z.of_nat (seq 2 310)).

(** The integer cube root, one bit at a time from the top. *)
Definition cbrt (n : Z) : Z :=
  fold_left (fun r i => let r' := r + 2 ^ Z.of_nat i in
                        if r' ^ 3 <=? n then r' else r)
            (rev (seq 0 36)) 0.

Definition K : list Z :=
  Eval vm_compute in map (fun p => cbrt (p * 2 ^ 96) mod 2 ^ 32) primes.

Definition init : list Z :=
  Eval vm_compute in
    map (fun p => Z.sqrt (p * 2 ^ 64) mod 2 ^ 32) (firstn 8 primes).

Definition w32 (x : Z) : Z := x mod 2 ^ 32.
Definition add (x y : Z) : Z := w32 (x + y).
Definition rotr (n x : Z) : Z :=
  Z.lor (Z.shiftr x n) (w32 (Z.shiftl x (32 - n))).
Definition not32 (x : Z) : Z := Z.lxor x 0xffffffff.

Definition Ch (x y z : Z) := Z.lxor (Z.land x y) (Z.land (not32 x) z).
Definition Maj (x y z : Z) :=
  Z.lxor (Z.lxor (Z.land x y) (Z.land x z)) (Z.land y z).
Definition Sigma0 x := Z.lxor (Z.lxor (rotr 2 x) (rotr 13 x)) (rotr 22 x).
Definition Sigma1 x := Z.lxor (Z.lxor (rotr 6 x) (rotr 11 x)) (rotr 25 x).
Definition sigma0 x := Z.lxor (Z.lxor (rotr 7 x) (rotr 18 x)) (Z.shiftr x 3).
Definition sigma1 x := Z.lxor (Z.lxor (rotr 17 x) (rotr 19 x)) (Z.shiftr x 10).

(** Big-endian encodings. *)
Definition be_bytes (n : nat) (x : Z) : list Z :=
  map (fun i => Z.shiftr x (8 * Z.of_nat i) mod 256) (rev (seq 0 n)).

Fixpoint be_words (l : list Z) : list Z :=
  match l with
  | a :: b :: c :: d :: l' =>
      (Z.shiftl a 24 + Z.shiftl b 16 + Z.shiftl c 8 + d) :: be_words l'
  | _ => []
  end.

(** The message followed by 0x80, zeros up to 56 mod 64, and the bit
    length on eight bytes. *)
Definition pad (msg : list Z) : list Z :=
  let len := Z.of_nat (length msg) in
  let zeros := Z.to_nat ((55 - len) mod 64) in
  msg ++ [0x80] ++ repeat 0 zeros ++ be_bytes 8 (8 * len).

(** The message schedule, most recent word first. *)
Fixpoint schedule (n : nat) (w : list Z) : list Z :=
  match n with
  | O => w
  | S n' =>
      let x := add (add (sigma1 (nth 1 w 0)) (nth 6 w 0))
                   (add (sigma0 (nth 14 w 0)) (nth 15 w 0)) in
      schedule n' (x :: w)
  end.

Definition round (st : list Z) (kw : Z * Z) : list Z :=
  match st with
  | [a; b; c; d; e; f; g; h] =>
      let t1 := add (add (add h (Sigma1 e)) (add (Ch e f g) (fst kw))) (snd kw) in
      let t2 := add (Sigma0 a) (Maj a b c) in
      [add t1 t2; a; b; c; add d t1; e; f; g]
  | _ => st
  end.

Definition block (st : list Z) (blk : list Z) : list Z :=
  let w := rev (schedule 48 (rev blk)) in
  let st' := fold_left round (combine K w) st in
  map (fun p => add (fst p) (snd p)) (combine st st').

Fixpoint blocks (n : nat) (st : list Z) (ws : list Z) : list Z :=
  match n with
  | O => st
  | S n' => blocks n' (block st (firstn 16 ws)) (skipn 16 ws)
  end.

Definition Sum256 (msg : bytes) : bytes :=
  let ws := be_words (pad (map byte_to_Z msg)) in
  let st := blocks (length ws / 16) init ws in
  map byte_of_Z (flat_map (be_bytes 4) st).

Definition BlockSize : nat := 64.

End sha256.

Module hmac.

Definition xor_pad (c : Z) (key : bytes) : bytes :=
  map (fun b => byte_of_Z (Z.lxor (byte_to_Z b) c)) key.

(** [hmac.New(sha256.New, key)], [Write(msg)], [Sum(nil)]. *)
Definition SumSHA256 (key msg : bytes) : bytes :=
  let k := if (sha256.BlockSize <? length key)%nat
           then sha256.Sum256 key else key in
  let k := k ++ repeat x00 (sha256.BlockSize - length k) in
  sha256.Sum256 (xor_pad 0x5c k ++ sha256.Sum256 (xor_pad 0x36 k ++ msg)).

Fixpoint eq_bytes (x y : bytes) : bool :=
  match x, y with
  | [], [] => true
  | a :: x', b :: y' => Byte.eqb a b && eq_bytes x' y'
  | _, _ => false
  end.

(** [hmac.Equal]: constant time in Go; as a function, equality. *)
Definition Equal (x y : bytes) : bool := eq_bytes x y.

End hmac.

Module hex.

Definition digit (n : Z) : ascii :=
  ascii_of_N (Z.to_N (if n <? 10 then 48 + n else 87 + n)).

Fixpoint EncodeToString (b : bytes) : string :=
  match b with
  | [] => EmptyString
  | x :: b' =>
      let z := byte_to_Z x in
      String (digit (z / 16)) (String (digit (z mod 16)) (EncodeToString b'))
  end.

End hex.

(** ** fmt: [%d] *)

Module fmt.

Definition itoa (z : Z) : string :=
  DecimalString.NilZero.string_of_int (Z.to_int z).

End fmt.

(** ** The normalized schema *)

(** [type SCMPlatform string]. *)
Definition SCMPlatform : Type := string.

Definition PlatformGitHub : SCMPlatform := "github".
Definition PlatformBitbucket : SCMPlatform := "bitbucket".
Definition PlatformUnknown : SCMPlatform := "unknown".

Record NormalizedPR : Type := {
  Number : Z;
  Title : string;
  Description : string;
  Author : string;
  SourceBranch : string;
  TargetBranch : string;
  State : string;
  URL : string
}.

Record NormalizedRepository : Type := {
  Name : string;
  FullName : string;
  Owner : string;
  CloneURL : string;
  HTMLURL : string
}.

(** Status values: "added", "modified", "removed", "renamed". *)
Record NormalizedFile : Type := {
  Filename : string;
  Status : string;
  Additions : Z;
  Deletions : Z;
  Changes : Z;
  PreviousFilename : string
}.

(** [time.Time], as an instant on the clock. *)
Definition Time : Type := Z.

Record NormalizedEvent : Type := {
  Platform : SCMPlatform;
  EventType : string;
  Action : string;
  PR : NormalizedPR;
  Repository : NormalizedRepository;
  Files : list NormalizedFile;
  RawPayload : bytes;
  ReceivedAt : Time
}.

(** The four statuses of the common vocabulary. *)
Definition normalized_statuses : list string :=
  ["added"; "modified"; "removed"; "renamed"].

(** ** The queue client: messages and the broker's interface *)

Definition rawEventsQueue : string := "raw_webhook_events".
Definition normalizedEventsQueue : string := "normalized_pr_events".

Record RawWebhookMessage : Type := {
  msg_Platform : SCMPlatform;
  msg_EventType : string;
  msg_Payload : bytes
}.

(** [*amqp.Channel], by identity. *)
Definition Channel : Type := N.

(** [amqp.Publishing], the fields the sources set. *)
Record Publishing : Type := {
  ContentType : string;
  DeliveryMode : Z;
  pub_Body : bytes
}.

Definition amqp_Persistent : Z := 2.

(** [amqp.Delivery]: its tag on the consumer's channel and its body. *)
Record Delivery : Type := {
  DeliveryTag : N;
  d_Body : bytes
}.

(** [RabbitMQ]: one connection and the channel reserved for publishing. *)
Record RabbitMQ : Type := {
  pubCh : Channel
}.

(** ** net/http *)

Module http.

Definition StatusOK : Z := 200.
Definition StatusBadRequest : Z := 400.
Definition StatusUnauthorized : Z := 401.
Definition StatusInternalServerError : Z := 500.

(** [http.Header]: canonical key to the values received under it. *)
Definition Header : Type := gmap string (list string).

Definition is_lower (c : ascii) : bool :=
  let n := N_of_ascii c in ((97 <=? n) && (n <=? 122))%N.
Definition is_upper (c : ascii) : bool :=
  let n := N_of_ascii c in ((65 <=? n) && (n <=? 90))%N.
Definition is_digit (c : ascii) : bool :=
  let n := N_of_ascii c in ((48 <=? n) && (n <=? 57))%N.

(** The bytes of an RFC 7230 token. *)
Definition validHeaderFieldByte (c : ascii) : bool :=
  is_lower c || is_upper c || is_digit c
  || existsb (Ascii.eqb c)
       ["!"; "#"; "$"; "%"; "&"; "'"; "*"; "+"; "-"; "."; "^"; "_"; "`";
        "|"; "~"]%char.

Fixpoint all_valid (s : string) : bool :=
  match s with
  | EmptyString => true
  | String c s' => validHeaderFieldByte c && all_valid s'
  end.

Fixpoint canon (upper : bool) (s : string) : string :=
  match s with
  | EmptyString => EmptyString
  | String c s' =>
      let c' :=
        if upper && is_lower c then ascii_of_N (N_of_ascii c - 32)
        else if negb upper && is_upper c then ascii_of_N (N_of_ascii c + 32)
        else c in
      String c' (canon (Ascii.eqb c' "-") s')
  end.

(** [textproto.CanonicalMIMEHeaderKey]: a key that is not a token is
    returned as it is. *)
Definition CanonicalMIMEHeaderKey (s : string) : string :=
  if all_valid s then canon true s else s.

(** [Header.Get]: the first value under the canonical key, or "". *)
Definition Get (h : Header) (key : string) : string :=
  match h !! CanonicalMIMEHeaderKey key with
  | Some (v :: _) => v
  | _ => ""
  end.

(** [Header.Set]: the single value under the canonical key. *)
Definition HeaderSet (h : Header) (key value : string) : Header :=
  <[CanonicalMIMEHeaderKey key := [value]]> h.

(** An inbound request: its headers and what [io.ReadAll(r.Body)]
    returns. *)
Record Request : Type := {
  req_Header : Header;
  req_Body : result bytes
}.

(** An outbound request, as the sources build it. *)
Record ClientRequest : Type := {
  Method : string;
  req_URL : string;
  BasicAuth : option (string * string);
  Headers : list (string * string);
  ContentBody : option bytes;
  Timeout : option Z  (* seconds; [None] for a client without timeout *)
}.

(** A response: the status code and what [io.ReadAll(resp.Body)]
    returns. *)
Record Response : Type := {
  StatusCode : Z;
  resp_Body : bytes * option error
}.

End http.

(** [os.Getenv] over the process environment. *)
Definition Env : Type := gmap string string.

Definition Getenv (env : Env) (name : string) : string :=
  default "" (env !! name).

(** ** Calls that leave the process *)

Inductive IO : Type -> Type :=
(* http.ResponseWriter *)
| WriteHeader (statusCode : Z) : IO unit
| Write (data : bytes) : IO unit
(* amqp091-go *)
| ConnChannel : IO (result Channel)
| ChannelClose (ch : Channel) : IO unit
| ChannelConsume (ch : Channel) (queue consumer : string)
    (autoAck exclusive noLocal noWait : bool) : IO (result (list Delivery))
| PublishWithContext (ch : Channel) (exchange key : string)
    (mandatory immediate : bool) (msg : Publishing) : IO (option error)
| Ack (d : Delivery) (multiple : bool) : IO unit
| Nack (d : Delivery) (multiple requeue : bool) : IO unit
(* net/http client *)
| NewRequest (method url : string) : IO (option error)
| ClientDo (req : http.ClientRequest) : IO (result http.Response)
(* time.Now *)
| Now : IO Time
(* auth.go, the token issuance; each is one call, and the requests that
   getInstallationToken sends (the list of installations, then the POST
   for the token) are part of that call, not calls of their own *)
| generateJWT (appID privateKey : string) : IO (result string)
| getInstallationToken (jwtToken owner repo : string) : IO (result string)
(* entry of an adapter's GetPRFiles, recorded so that traces show the call *)
| EnterGetPRFiles (platform : SCMPlatform) (owner repo : string)
    (prNumber : Z) : IO unit.

(** A Go function body: it returns, or performs a call and continues with
    the answer. *)
Inductive Prog (A : Type) : Type :=
| Ret (a : A)
| Vis {X : Type} (e : IO X) (k : X -> Prog A).

Arguments Ret {A} a.
Arguments Vis {A X} e k.

Fixpoint bind {A B : Type} (m : Prog A) (f : A -> Prog B) : Prog B :=
  match m with
  | Ret a => f a
  | Vis e k => Vis e (fun x => bind (k x) f)
  end.

Definition call {X : Type} (e : IO X) : Prog X := Vis e Ret.

Declare Scope prog_scope.
Delimit Scope prog_scope with prog.
Notation "x <- m ;; k" := (bind m (fun x => k))
  (at level 100, m at next level, right associativity) : prog_scope.
Notation "m ;;; k" := (bind m (fun _ => k))
  (at level 100, right associativity) : prog_scope.
Local Open Scope prog_scope.

(** One call and its answer. *)
Inductive Event : Type :=
| Ev {X : Type} (e : IO X) (x : X).

Definition Trace : Type := list Event.

(** The world outside: given what has happened so far, the answer to the
    next call. *)
Definition World : Type := Trace -> forall X : Type, IO X -> X.

(** [run w h p]: run [p] in world [w] after history [h]; the result and the
    calls made, oldest first. *)
Fixpoint run {A : Type} (w : World) (h : Trace) (p : Prog A) : A * Trace :=
  match p with
  | Ret a => (a, [])
  | Vis e k =>
      let x := w h _ e in
      let '(a, t) := run w (h ++ [Ev e x]) (k x) in
      (a, Ev e x :: t)
  end.

Definition result_of {A} (w : World) (h : Trace) (p : Prog A) : A :=
  fst (run w h p).
Definition trace_of {A} (w : World) (h : Trace) (p : Prog A) : Trace :=
  snd (run w h p).

(** ** encoding/json *)

(** [json.Marshal] and [json.Unmarshal] at one Go type. *)
Class JSON (A : Type) : Type := {
  Marshal : A -> result bytes;
  Unmarshal : bytes -> result A
}.

(** ** The queue client: publishing *)

(** PublishRawEvent serialises msg as JSON and sends it to the raw events
    queue. *)
Definition PublishRawEvent {JRaw : JSON RawWebhookMessage}
    (mq : RabbitMQ) (msg : RawWebhookMessage) : Prog (option error) :=
  match Marshal msg with
  | inr err =>
      Ret (Some (wrapError "rabbitmq: failed to marshal raw event" err))
  | inl body =>
      r <- call (PublishWithContext (pubCh mq)
                   ""              (* default exchange *)
                   rawEventsQueue  (* routing key = queue name *)
                   false           (* mandatory *)
                   false           (* immediate *)
                   {| ContentType := "application/json";
                      DeliveryMode := amqp_Persistent;
                      pub_Body := body |}) ;;
      match r with
      | Some err =>
          Ret (Some (wrapError "rabbitmq: failed to publish raw event" err))
      | None => Ret None
      end
  end.

(** PublishNormalizedEvent serialises event as JSON and sends it to the
    normalized events queue. *)
Definition PublishNormalizedEvent {JEvent : JSON NormalizedEvent}
    (mq : RabbitMQ) (event : NormalizedEvent) : Prog (option error) :=
  match Marshal event with
  | inr err =>
      Ret (Some (wrapError "rabbitmq: failed to marshal normalized event" err))
  | inl body =>
      r <- call (PublishWithContext (pubCh mq)
                   "" normalizedEventsQueue false false
                   {| ContentType := "application/json";
                      DeliveryMode := amqp_Persistent;
                      pub_Body := body |}) ;;
      match r with
      | Some err =>
          Ret (Some (wrapError "rabbitmq: failed to publish normalized event" err))
      | None => Ret None
      end
  end.

(** ** The platform router *)

(** DetectPlatform inspects the webhook HTTP headers to determine which SCM
    provider sent the request. *)
Definition DetectPlatform (headers : http.Header) : SCMPlatform :=
  if negb (http.Get headers "X-GitHub-Event" =? "")%string then PlatformGitHub
  else if negb (http.Get headers "X-Event-Key" =? "")%string then PlatformBitbucket
  else PlatformUnknown.

(** ** The webhook gateway *)

Definition newline : string := String (ascii_of_N 10) EmptyString.

(** [http.Error]: the status code, then the message and a newline (the
    Content-Type headers it sets are not traced). *)
Definition http_Error (msg : string) (code : Z) : Prog unit :=
  call (WriteHeader code) ;;;
  call (Write (to_bytes (msg ++ newline))).

(** verifyWebhookSignature validates the HMAC-SHA256 signature attached to a
    webhook payload. *)
Definition verifyWebhookSignature
    (payload : bytes) (signature secret : string) : bool :=
  let signature :=
    if strings.HasPrefix signature "sha256=" then strings.drop 7 signature
    else signature in
  let expected := hex.EncodeToString (hmac.SumSHA256 (to_bytes secret) payload) in
  hmac.Equal (to_bytes expected) (to_bytes signature).

(** The signature the handler checks: X-Hub-Signature-256, or
    X-Hub-Signature when the former is empty. *)
Definition request_signature (r : http.Request) : string :=
  let signature := http.Get (http.req_Header r) "X-Hub-Signature-256" in
  if (signature =? "")%string
  then http.Get (http.req_Header r) "X-Hub-Signature"
  else signature.

(** The raw event-type string, from the header of the detected platform. *)
Definition request_eventType (r : http.Request) : string :=
  let platform := DetectPlatform (http.req_Header r) in
  let eventType := http.Get (http.req_Header r) "X-GitHub-Event" in
  if (platform =? PlatformBitbucket)%string
  then http.Get (http.req_Header r) "X-Event-Key"
  else eventType.

Definition isPREvent (eventType : string) : bool :=
  (eventType =? "pull_request")%string
  || strings.HasPrefix eventType "pullrequest:".

(** WebhookHandler, with the package-level [mq] (nil when the broker could
    not be reached at start-up) and the process environment as arguments. *)
Definition WebhookHandler {JRaw : JSON RawWebhookMessage}
    (env : Env) (mq : option RabbitMQ) (r : http.Request) : Prog unit :=
  (* Step 1: read body *)
  match http.req_Body r with
  | inr _ => http_Error "cannot read body" http.StatusInternalServerError
  | inl body =>
  (* Step 2: verify signature *)
  let webhookSecret := Getenv env "WEBHOOK_SECRET" in
  if (webhookSecret =? "")%string then
    http_Error "webhook secret not configured" http.StatusInternalServerError
  else
  let signature := request_signature r in
  if (signature =? "")%string then
    http_Error "signature missing" http.StatusBadRequest
  else
  if negb (verifyWebhookSignature body signature webhookSecret) then
    http_Error "invalid signature" http.StatusUnauthorized
  else
  (* Step 3: detect platform *)
  let platform := DetectPlatform (http.req_Header r) in
  let eventType := request_eventType r in
  (* Step 4: acknowledge immediately *)
  call (WriteHeader http.StatusOK) ;;;
  call (Write (to_bytes "received")) ;;;
  (* Step 5: skip non-PR events *)
  if negb (isPREvent eventType) then Ret tt
  else
  (* Step 6: publish raw event to the message queue *)
  match mq with
  | None => Ret tt
  | Some mq =>
      let msg := {| msg_Platform := platform;
                    msg_EventType := eventType;
                    msg_Payload := body |} in
      _ <- PublishRawEvent mq msg ;;
      Ret tt
  end
  end.

(** ** The queue client: consuming *)

(** [for d := range deliveries { ... }] over the deliveries that arrive
    before the channel closes. ConsumeRawEvents and ConsumeNormalizedEvents
    have the same loop, the one decoding a RawWebhookMessage and the other a
    NormalizedEvent: it is written once, for the type decoded. *)
Fixpoint range_deliveries {A : Type} {JA : JSON A}
    (handler : A -> Prog unit) (deliveries : list Delivery) : Prog unit :=
  match deliveries with
  | [] => Ret tt
  | d :: rest =>
      match Unmarshal (d_Body d) with
      | inr _ =>
          (* discard; requeue=false avoids poison-message loop *)
          call (Nack d false false) ;;;
          range_deliveries handler rest
      | inl msg =>
          handler msg ;;;
          call (Ack d false) ;;;
          range_deliveries handler rest
      end
  end.

(** What both consumers do on their queue: open a channel of their own,
    register with auto-ack disabled, run the loop, and close the channel
    (the deferred [ch.Close()]). *)
Definition consume_queue {A : Type} {JA : JSON A}
    (queue : string) (handler : A -> Prog unit) : Prog (option error) :=
  r <- call ConnChannel ;;
  match r with
  | inr err =>
      Ret (Some (wrapError
                   ("rabbitmq: failed to open consumer channel for " ++ queue) err))
  | inl ch =>
      r <- call (ChannelConsume ch
                   queue  (* queue *)
                   ""     (* consumer tag (auto-generated) *)
                   false  (* auto-ack disabled, we ack manually *)
                   false  (* exclusive *)
                   false  (* no-local *)
                   false  (* no-wait *)) ;;
      match r with
      | inr err =>
          call (ChannelClose ch) ;;;
          Ret (Some (wrapError
                       ("rabbitmq: failed to register consumer on " ++ queue) err))
      | inl deliveries =>
          range_deliveries handler deliveries ;;;
          call (ChannelClose ch) ;;;
          Ret None
      end
  end.

(** ConsumeRawEvents opens a dedicated channel, registers a consumer on the
    raw events queue, and calls handler for every delivery. *)
Definition ConsumeRawEvents {JRaw : JSON RawWebhookMessage}
    (mq : RabbitMQ) (handler : RawWebhookMessage -> Prog unit)
  : Prog (option error) :=
  consume_queue rawEventsQueue handler.

(** ConsumeNormalizedEvents mirrors ConsumeRawEvents on the normalized
    events queue. *)
Definition ConsumeNormalizedEvents {JEvent : JSON NormalizedEvent}
    (mq : RabbitMQ) (handler : NormalizedEvent -> Prog unit)
  : Prog (option error) :=
  consume_queue normalizedEventsQueue handler.

(** ** The unified event bus *)

(** [client.Post(url, "application/json", bytes.NewReader(body))] on a client
    with a timeout of ten seconds. *)
Definition post_json (url : string) (body : bytes) : http.ClientRequest :=
  {| http.Method := "POST";
     http.req_URL := url;
     http.BasicAuth := None;
     http.Headers := [("Content-Type", "application/json")];
     http.ContentBody := Some body;
     http.Timeout := Some 10 |}.

(** DeliverEvent sends a normalized event to the Platform BE via HTTP POST.
    - No URL: log the event and return (dev mode).
    - HTTP 4xx/5xx: the status code and response body as an error.
    - Network error: return the error. *)
Definition DeliverEvent {JEvent : JSON NormalizedEvent}
    (event : NormalizedEvent) (url : string) : Prog (option error) :=
  if (url =? "")%string then Ret None
  else
  match Marshal event with
  | inr err => Ret (Some (wrapError "event_bus: failed to marshal event" err))
  | inl body =>
      r <- call (ClientDo (post_json url body)) ;;
      match r with
      | inr err =>
          Ret (Some (wrapError
                       ("event_bus: failed to reach Platform BE at " ++ url) err))
      | inl resp =>
          let respBody := fst (http.resp_Body resp) in
          if http.StatusCode resp >=? 400 then
            Ret (Some (errorString
                         ("event_bus: Platform BE returned error "
                          ++ fmt.itoa (http.StatusCode resp) ++ " for " ++ url
                          ++ ": " ++ of_bytes respBody)))
          else Ret None
      end
  end.

(** The handler StartEventBusConsumer registers: deliver, and on failure
    only log. *)
Definition eventBusHandler {JEvent : JSON NormalizedEvent}
    (platformBEURL : string) (event : NormalizedEvent) : Prog unit :=
  _ <- DeliverEvent event platformBEURL ;;
  Ret tt.

(** StartEventBusConsumer; the returned error is the one [log.Fatalf]
    reports. *)
Definition StartEventBusConsumer {JEvent : JSON NormalizedEvent}
    (env : Env) (mq : RabbitMQ) : Prog (option error) :=
  let platformBEURL := Getenv env "PLATFORM_BE_URL" in
  ConsumeNormalizedEvents mq (eventBusHandler platformBEURL).

(** ** auth.go, pullrequest.go: what the GitHub adapter reuses *)

(** makeAuthenticatedRequest, for a request without body. The status code
    is not looked at; the body is whatever [io.ReadAll] returns. *)
Definition makeAuthenticatedRequest (token method url : string)
  : Prog (result bytes) :=
  e <- call (NewRequest method url) ;;
  match e with
  | Some err => Ret (Err err)
  | None =>
      r <- call (ClientDo
                   {| http.Method := method;
                      http.req_URL := url;
                      http.BasicAuth := None;
                      http.Headers :=
                        [("Authorization", ("token " ++ token)%string);
                         ("Accept", "application/vnd.github.v3+json");
                         ("User-Agent", "GitHub-App")];
                      http.ContentBody := None;
                      http.Timeout := None |}) ;;
      match r with
      | inr err => Ret (Err err)
      | inl resp =>
          match http.resp_Body resp with
          | (_, Some err) => Ret (Err err)
          | (body, None) => Ret (Ok body)
          end
      end
  end.

(** PRFile represents a file changed in a pull request. *)
Record PRFile : Type := {
  f_Filename : string;
  f_Status : string;  (* "added", "removed", "modified", "renamed" *)
  f_Additions : Z;
  f_Deletions : Z;
  f_Changes : Z;
  f_PreviousFilename : string  (* only set when status = "renamed" *)
}.

(** [map[string]interface{}], each value as [%v] prints it. *)
Definition JSONObject : Type := gmap string string.

(** getPRChangedFiles fetches the list of files changed in a pull request. *)
Definition getPRChangedFiles {JObject : JSON JSONObject} {JFiles : JSON (list PRFile)}
    (token owner repo : string) (prNumber : Z) : Prog (result (list PRFile)) :=
  let url := ("https://api.github.com/repos/" ++ owner ++ "/" ++ repo
              ++ "/pulls/" ++ fmt.itoa prNumber ++ "/files")%string in
  r <- makeAuthenticatedRequest token "GET" url ;;
  match r with
  | inr err => Ret (Err (wrapError "failed to fetch PR files" err))
  | inl body =>
      (* Check for API error response *)
      let apiError :=
        match Unmarshal (A := JSONObject) body with
        | inl apiErr => apiErr !! "message"
        | inr _ => None
        end in
      match apiError with
      | Some msg => Ret (Err (errorString ("GitHub API error: " ++ msg)))
      | None =>
          match Unmarshal (A := list PRFile) body with
          | inr err => Ret (Err (wrapError "failed to parse PR files" err))
          | inl files => Ret (Ok files)
          end
      end
  end.

(** ** The GitHub adapter *)

Module gh.

Record PullRequest : Type := {
  pr_Number : Z;
  pr_Title : string;
  pr_Body : string;
  pr_State : string;
  pr_HTMLURL : string;
  pr_User_Login : string;
  pr_Head_Ref : string;
  pr_Base_Ref : string
}.

Record Repo : Type := {
  repo_Name : string;
  repo_FullName : string;
  repo_HTMLURL : string;
  repo_CloneURL : string;
  repo_Owner_Login : string
}.

(** ghWebhookPayload is the GitHub-specific webhook JSON structure. *)
Record WebhookPayload : Type := {
  p_Action : string;
  p_Number : Z;
  p_PullRequest : PullRequest;
  p_Repository : Repo
}.

End gh.

(** isFileEnrichableAction returns true for PR actions where fetching
    changed files makes sense (opened, synchronize, reopened). *)
Definition isFileEnrichableAction (action : string) : bool :=
  if (action =? "opened")%string then true
  else if (action =? "synchronize")%string then true
  else if (action =? "reopened")%string then true
  else false.

Module GitHubAdapter.

Record t : Type := {
  appID : string;
  privateKey : string
}.

(** token generates a short-lived installation access token for the given
    repo. *)
Definition token (g : t) (owner repo : string) : Prog (result string) :=
  r <- call (generateJWT (appID g) (privateKey g)) ;;
  match r with
  | inr err =>
      Ret (Err (wrapError "GitHub adapter: failed to generate JWT" err))
  | inl jwtToken =>
      r <- call (getInstallationToken jwtToken owner repo) ;;
      match r with
      | inr err =>
          Ret (Err (wrapError
                      "GitHub adapter: failed to get installation token" err))
      | inl tok => Ret (Ok tok)
      end
  end.

Definition normalizeFile (f : PRFile) : NormalizedFile :=
  {| Filename := f_Filename f;
     Status := f_Status f;
     Additions := f_Additions f;
     Deletions := f_Deletions f;
     Changes := f_Changes f;
     PreviousFilename := f_PreviousFilename f |}.

Definition GetPRFiles {JObject : JSON JSONObject} {JFiles : JSON (list PRFile)}
    (g : t) (owner repo : string) (prNumber : Z)
  : Prog (result (list NormalizedFile)) :=
  call (EnterGetPRFiles PlatformGitHub owner repo prNumber) ;;;
  r <- token g owner repo ;;
  match r with
  | inr err => Ret (Err err)
  | inl tok =>
      (* Reuse the existing GitHub-specific fetcher from pullrequest.go. *)
      r <- getPRChangedFiles tok owner repo prNumber ;;
      match r with
      | inr err => Ret (Err (wrapError "GitHub adapter: GetPRFiles failed" err))
      | inl rawFiles => Ret (Ok (map normalizeFile rawFiles))
      end
  end.

(** NormalizeEvent parses the raw GitHub webhook payload, maps it to a
    NormalizedEvent, and enriches it with changed files for actionable PR
    events. *)
Definition NormalizeEvent
    {JGh : JSON gh.WebhookPayload} {JObject : JSON JSONObject} {JFiles : JSON (list PRFile)}
    (g : t) (eventType : string) (payload : bytes)
  : Prog (result NormalizedEvent) :=
  match Unmarshal (A := gh.WebhookPayload) payload with
  | inr err =>
      Ret (Err (wrapError "GitHub adapter: failed to parse webhook payload" err))
  | inl p =>
      let pr := gh.p_PullRequest p in
      let repo := gh.p_Repository p in
      now <- call Now ;;
      let event (files : list NormalizedFile) :=
        {| Platform := PlatformGitHub;
           EventType := "pull_request." ++ gh.p_Action p;
           Action := gh.p_Action p;
           PR := {| Number := gh.pr_Number pr;
                    Title := gh.pr_Title pr;
                    Description := gh.pr_Body pr;
                    Author := gh.pr_User_Login pr;
                    SourceBranch := gh.pr_Head_Ref pr;
                    TargetBranch := gh.pr_Base_Ref pr;
                    State := gh.pr_State pr;
                    URL := gh.pr_HTMLURL pr |};
           Repository := {| Name := gh.repo_Name repo;
                            FullName := gh.repo_FullName repo;
                            Owner := gh.repo_Owner_Login repo;
                            CloneURL := gh.repo_CloneURL repo;
                            HTMLURL := gh.repo_HTMLURL repo |};
           Files := files;
           RawPayload := payload;
           ReceivedAt := now |} in
      (* Fetch changed files for events that mutate the PR's commit set. *)
      if negb (gh.pr_Number pr =? 0) && isFileEnrichableAction (gh.p_Action p)
      then
        r <- GetPRFiles g (gh.repo_Owner_Login repo) (gh.repo_Name repo)
               (gh.pr_Number pr) ;;
        match r with
        | inr _ => Ret (Ok (event []))
        | inl files => Ret (Ok (event files))
        end
      else Ret (Ok (event []))
  end.

Definition Platform (g : t) : SCMPlatform := PlatformGitHub.

End GitHubAdapter.

(** ** The Bitbucket adapter *)

Module bb.

(** One entry of the diffstat response; [New] and [Old] are pointers to a
    struct with a path, nil when the side is absent. *)
Record DiffstatValue : Type := {
  v_Status : string;  (* "added", "removed", "modified", "renamed" *)
  v_LinesAdded : Z;
  v_LinesRemoved : Z;
  v_New : option string;
  v_Old : option string
}.

Record DiffstatResponse : Type := {
  Values : list DiffstatValue
}.

Record PullRequest : Type := {
  pr_ID : Z;
  pr_Title : string;
  pr_Description : string;
  pr_State : string;
  pr_Author_Nickname : string;
  pr_Author_DisplayName : string;
  pr_Source_Branch_Name : string;
  pr_Destination_Branch_Name : string;
  pr_Links_HTML_Href : string
}.

Record CloneLink : Type := {
  link_Href : string;
  link_Name : string  (* "https" or "ssh" *)
}.

Record Repo : Type := {
  repo_Name : string;
  repo_FullName : string;  (* "workspace/repo-slug" *)
  repo_Owner_Nickname : string;
  repo_Owner_DisplayName : string;
  repo_Links_HTML_Href : string;
  repo_Links_Clone : list CloneLink
}.

(** bbWebhookPayload is the Bitbucket-specific webhook JSON structure. *)
Record WebhookPayload : Type := {
  p_PullRequest : PullRequest;
  p_Repository : Repo
}.

End bb.

(** mapBitbucketStatus normalises Bitbucket file-change status strings to
    the common vocabulary shared across all adapters. *)
Definition mapBitbucketStatus (status : string) : string :=
  let s := strings.ToLower status in
  if (s =? "added")%string then "added"
  else if (s =? "removed")%string then "removed"
  else if (s =? "modified")%string then "modified"
  else if (s =? "renamed")%string then "renamed"
  else "modified".

(** mapBitbucketEventKey converts a Bitbucket X-Event-Key value into the
    normalised (eventType, action) pair used by NormalizedEvent. *)
Definition mapBitbucketEventKey (key : string) : string * string :=
  if (key =? "pullrequest:created")%string then ("pull_request.opened", "opened")
  else if (key =? "pullrequest:updated")%string then ("pull_request.updated", "synchronize")
  else if (key =? "pullrequest:fulfilled")%string then ("pull_request.closed", "closed")
  else if (key =? "pullrequest:rejected")%string then ("pull_request.closed", "closed")
  else ("pull_request.unknown", "unknown").

Module BitbucketAdapter.

Record t : Type := {
  username : string;
  appPassword : string;
  baseURL : string
}.

(** request makes an authenticated GET request to the Bitbucket API. *)
Definition request (b : t) (url : string) : Prog (result bytes) :=
  e <- call (NewRequest "GET" url) ;;
  match e with
  | Some err => Ret (Err err)
  | None =>
      r <- call (ClientDo
                   {| http.Method := "GET";
                      http.req_URL := url;
                      http.BasicAuth := Some (username b, appPassword b);
                      http.Headers := [("Accept", "application/json")];
                      http.ContentBody := None;
                      http.Timeout := None |}) ;;
      match r with
      | inr err => Ret (Err err)
      | inl resp =>
          match http.resp_Body resp with
          | (_, Some err) => Ret (Err err)
          | (body, None) =>
              if http.StatusCode resp >=? 400 then
                Ret (Err (errorString
                            ("Bitbucket API " ++ fmt.itoa (http.StatusCode resp)
                             ++ ": " ++ of_bytes body)))
              else Ret (Ok body)
          end
      end
  end.

(** The body of the loop over [diffstat.Values]. *)
Definition normalizeFile (v : bb.DiffstatValue) : NormalizedFile :=
  {| Status := mapBitbucketStatus (bb.v_Status v);
     Additions := bb.v_LinesAdded v;
     Deletions := bb.v_LinesRemoved v;
     Changes := int_add (bb.v_LinesAdded v) (bb.v_LinesRemoved v);
     Filename := match bb.v_New v with
                 | Some path => path
                 | None => ""
                 end;
     PreviousFilename :=
       match bb.v_Old v with
       | Some path =>
           if (strings.ToLower (bb.v_Status v) =? "renamed")%string
           then path else ""
       | None => ""
       end |}.

Definition GetPRFiles {JDiffstat : JSON bb.DiffstatResponse}
    (b : t) (owner repo : string) (prNumber : Z)
  : Prog (result (list NormalizedFile)) :=
  call (EnterGetPRFiles PlatformBitbucket owner repo prNumber) ;;;
  let url := (baseURL b ++ "/repositories/" ++ owner ++ "/" ++ repo
              ++ "/pullrequests/" ++ fmt.itoa prNumber ++ "/diffstat")%string in
  r <- request b url ;;
  match r with
  | inr err => Ret (Err (wrapError "Bitbucket adapter: GetPRFiles failed" err))
  | inl body =>
      match Unmarshal (A := bb.DiffstatResponse) body with
      | inr err =>
          Ret (Err (wrapError
                      "Bitbucket adapter: failed to parse diffstat response" err))
      | inl diffstat => Ret (Ok (map normalizeFile (bb.Values diffstat)))
      end
  end.

(** Prefer HTTPS clone URL. *)
Fixpoint httpsCloneURL (links : list bb.CloneLink) : string :=
  match links with
  | [] => ""
  | link :: rest =>
      if (bb.link_Name link =? "https")%string then bb.link_Href link
      else httpsCloneURL rest
  end.

(** NormalizeEvent parses the raw Bitbucket webhook payload, maps it to a
    NormalizedEvent, and enriches it with changed files for actionable PR
    events. *)
Definition NormalizeEvent
    {JBb : JSON bb.WebhookPayload} {JDiffstat : JSON bb.DiffstatResponse}
    (b : t) (eventType : string) (payload : bytes)
  : Prog (result NormalizedEvent) :=
  match Unmarshal (A := bb.WebhookPayload) payload with
  | inr err =>
      Ret (Err (wrapError
                  "Bitbucket adapter: failed to parse webhook payload" err))
  | inl p =>
      let '(normalizedType, action) := mapBitbucketEventKey eventType in
      let pr := bb.p_PullRequest p in
      let repo := bb.p_Repository p in
      (* Bitbucket full_name is "workspace/repo-slug"; split to get owner. *)
      let parts := strings.SplitN2_slash (bb.repo_FullName repo) in
      let '(owner, repoName) :=
        match parts with
        | [a; b] => (a, b)
        | _ => ("", bb.repo_Name repo)
        end in
      let cloneURL := httpsCloneURL (bb.repo_Links_Clone repo) in
      now <- call Now ;;
      let event (files : list NormalizedFile) :=
        {| Platform := PlatformBitbucket;
           EventType := normalizedType;
           Action := action;
           PR := {| Number := bb.pr_ID pr;
                    Title := bb.pr_Title pr;
                    Description := bb.pr_Description pr;
                    Author := bb.pr_Author_Nickname pr;
                    SourceBranch := bb.pr_Source_Branch_Name pr;
                    TargetBranch := bb.pr_Destination_Branch_Name pr;
                    State := strings.ToLower (bb.pr_State pr);
                    URL := bb.pr_Links_HTML_Href pr |};
           Repository := {| Name := repoName;
                            FullName := bb.repo_FullName repo;
                            Owner := owner;
                            CloneURL := cloneURL;
                            HTMLURL := bb.repo_Links_HTML_Href repo |};
           Files := files;
           RawPayload := payload;
           ReceivedAt := now |} in
      (* Fetch changed files for opened / updated events. *)
      if negb (bb.pr_ID pr =? 0)
         && ((action =? "opened")%string || (action =? "synchronize")%string)
      then
        r <- GetPRFiles b owner repoName (bb.pr_ID pr) ;;
        match r with
        | inr _ => Ret (Ok (event []))
        | inl files => Ret (Ok (event files))
        end
      else Ret (Ok (event []))
  end.

Definition Platform (b : t) : SCMPlatform := PlatformBitbucket.

End BitbucketAdapter.

(** The actions for which each adapter fetches the changed files. *)
Definition enrichable_actions (platform : SCMPlatform) : list string :=
  if (platform =? PlatformGitHub)%string
  then ["opened"; "synchronize"; "reopened"]
  else if (platform =? PlatformBitbucket)%string
  then ["opened"; "synchronize"]
  else [].

(** ** The SCMAdapter interface *)

(** A value of interface type SCMAdapter: one of the two implementations. *)
Inductive SCMAdapter : Type :=
| GitHub (g : GitHubAdapter.t)
| Bitbucket (b : BitbucketAdapter.t).

(** The codecs the adapters rely on. *)
Class AdapterJSON : Type := {
  #[global] json_ghWebhookPayload :: JSON gh.WebhookPayload;
  #[global] json_JSONObject :: JSON JSONObject;
  #[global] json_PRFiles :: JSON (list PRFile);
  #[global] json_bbWebhookPayload :: JSON bb.WebhookPayload;
  #[global] json_bbDiffstatResponse :: JSON bb.DiffstatResponse
}.

Module Adapter.

Definition GetPRFiles {JAdapter : AdapterJSON}
    (a : SCMAdapter) (owner repo : string) (prNumber : Z)
  : Prog (result (list NormalizedFile)) :=
  match a with
  | GitHub g => GitHubAdapter.GetPRFiles g owner repo prNumber
  | Bitbucket b => BitbucketAdapter.GetPRFiles b owner repo prNumber
  end.

Definition NormalizeEvent {JAdapter : AdapterJSON}
    (a : SCMAdapter) (eventType : string) (payload : bytes)
  : Prog (result NormalizedEvent) :=
  match a with
  | GitHub g => GitHubAdapter.NormalizeEvent g eventType payload
  | Bitbucket b => BitbucketAdapter.NormalizeEvent b eventType payload
  end.

Definition Platform (a : SCMAdapter) : SCMPlatform :=
  match a with
  | GitHub g => GitHubAdapter.Platform g
  | Bitbucket b => BitbucketAdapter.Platform b
  end.

End Adapter.

(** NewGitHubAdapter creates a GitHubAdapter from environment credentials. *)
Definition NewGitHubAdapter (env : Env) : result GitHubAdapter.t :=
  let appID := Getenv env "GITHUB_APP_ID" in
  let privateKey := Getenv env "GITHUB_PRIVATE_KEY" in
  if (appID =? "")%string || (privateKey =? "")%string then
    Err (errorString
           "GitHub adapter: GITHUB_APP_ID and GITHUB_PRIVATE_KEY must be set")
  else Ok {| GitHubAdapter.appID := appID;
             GitHubAdapter.privateKey := privateKey |}.

(** NewBitbucketAdapter creates a BitbucketAdapter from environment
    credentials. *)
Definition NewBitbucketAdapter (env : Env) : result BitbucketAdapter.t :=
  let username := Getenv env "BITBUCKET_USERNAME" in
  let appPassword := Getenv env "BITBUCKET_APP_PASSWORD" in
  if (username =? "")%string || (appPassword =? "")%string then
    Err (errorString
           "Bitbucket adapter: BITBUCKET_USERNAME and BITBUCKET_APP_PASSWORD must be set")
  else Ok {| BitbucketAdapter.username := username;
             BitbucketAdapter.appPassword := appPassword;
             BitbucketAdapter.baseURL := "https://api.bitbucket.org/2.0" |}.

(** NewSCMAdapter returns the SCMAdapter implementation for the detected
    platform. *)
Definition NewSCMAdapter (env : Env) (platform : SCMPlatform)
  : result SCMAdapter :=
  if (platform =? PlatformGitHub)%string then
    match NewGitHubAdapter env with
    | inl g => Ok (GitHub g)
    | inr err => Err err
    end
  else if (platform =? PlatformBitbucket)%string then
    match NewBitbucketAdapter env with
    | inl b => Ok (Bitbucket b)
    | inr err => Err err
    end
  else Err (errorString ("unsupported SCM platform: " ++ platform)).

(** ** The normalization consumer *)

(** processRawEvent handles a single RawWebhookMessage through the SCM
    Adapter pipeline. *)
Definition processRawEvent {JAdapter : AdapterJSON} {JEvent : JSON NormalizedEvent}
    (env : Env) (mq : RabbitMQ) (msg : RawWebhookMessage) : Prog unit :=
  match NewSCMAdapter env (msg_Platform msg) with
  | inr _ => Ret tt
  | inl adapter =>
      r <- Adapter.NormalizeEvent adapter (msg_EventType msg) (msg_Payload msg) ;;
      match r with
      | inr _ => Ret tt
      | inl event =>
          _ <- PublishNormalizedEvent mq event ;;
          Ret tt
      end
  end.

Definition StartConsumer {JAdapter : AdapterJSON} {JEvent : JSON NormalizedEvent} {JRaw : JSON RawWebhookMessage}
    (env : Env) (mq : RabbitMQ) : Prog (option error) :=
  ConsumeRawEvents mq (processRawEvent env mq).

(** ** A program logic for [Prog] *)

(** [satisfies E Q p]: whatever the world answers, every call [p] makes
    (with its answer) is in [E], and the value [p] returns is in [Q]. *)
Inductive satisfies {A : Type} (E : forall X : Type, IO X -> X -> Prop)
    (Q : A -> Prop) : Prog A -> Prop :=
| sat_Ret (a : A) : Q a -> satisfies E Q (Ret a)
| sat_Vis (X : Type) (e : IO X) (k : X -> Prog A) :
    (forall x : X, E X e x) ->
    (forall x : X, satisfies E Q (k x)) ->
    satisfies E Q (Vis e k).

Definition event_in (E : forall X : Type, IO X -> X -> Prop) (ev : Event) : Prop :=
  match ev with Ev e x => E _ e x end.

(** Calls other than the entry of GetPRFiles. *)
Definition not_enter (X : Type) (e : IO X) (_ : X) : Prop :=
  match e with
  | EnterGetPRFiles _ _ _ _ => False
  | _ => True
  end.

(** ** Reading traces *)

(** The status codes written to the response, in order. *)
Definition statuses (t : Trace) : list Z :=
  omap (fun ev => match ev with
                  | Ev e _ => match e with
                              | WriteHeader c => Some c
                              | _ => None
                              end
                  end) t.

(** The chunks written to the response body, in order. *)
Definition bodies (t : Trace) : list bytes :=
  omap (fun ev => match ev with
                  | Ev e _ => match e with
                              | Write data => Some data
                              | _ => None
                              end
                  end) t.

(** A publish call: the routing key, the message, and the broker's answer. *)
Definition publish_call (ev : Event) : option (string * Publishing * option error) :=
  match ev with
  | Ev e x =>
      match e in IO X return X -> option (string * Publishing * option error) with
      | PublishWithContext _ _ key _ _ msg => fun r => Some (key, msg, r)
      | _ => fun _ => None
      end x
  end.

Definition publish_calls (t : Trace) : list (string * Publishing * option error) :=
  omap publish_call t.

(** The message bodies the broker accepted on [queue]. *)
Definition queued (queue : string) (t : Trace) : list bytes :=
  omap (fun c => match c with
                 | (key, msg, None) =>
                     if (key =? queue)%string then Some (pub_Body msg) else None
                 | (_, _, Some _) => None
                 end) (publish_calls t).

(** The GetPRFiles calls entered. *)
Definition enrichment_calls (t : Trace) : list (SCMPlatform * string * string * Z) :=
  omap (fun ev => match ev with
                  | Ev e _ => match e with
                              | EnterGetPRFiles p owner repo n => Some (p, owner, repo, n)
                              | _ => None
                              end
                  end) t.

(** The acknowledgements sent: [inl d] for Ack, [inr (d, requeue)] for
    Nack. *)
Definition acknowledgements (t : Trace) : list (Delivery + Delivery * bool) :=
  omap (fun ev => match ev with
                  | Ev e _ => match e with
                              | Ack d _ => Some (inl d)
                              | Nack d _ requeue => Some (inr (d, requeue))
                              | _ => None
                              end
                  end) t.

(** ** What the properties speak of *)

(** The digest the gateway expects for a body under a secret. *)
Definition expected_signature (secret : string) (body : bytes) : string :=
  hex.EncodeToString (hmac.SumSHA256 (to_bytes secret) body).

(** A supplied signature matches: the hex digest, bare or after "sha256=". *)
Definition signature_matches (body : bytes) (signature secret : string) : Prop :=
  signature = expected_signature secret body
  \/ signature = ("sha256=" ++ expected_signature secret body)%string.

(** The message the gateway builds for a request with body [body]. *)
Definition raw_message (r : http.Request) (body : bytes) : RawWebhookMessage :=
  {| msg_Platform := DetectPlatform (http.req_Header r);
     msg_EventType := request_eventType r;
     msg_Payload := body |}.

(** Exactly one message is on the raw queue, and its payload is [body]. *)
Definition published_once {JRaw : JSON RawWebhookMessage}
    (t : Trace) (body : bytes) : Prop :=
  exists (m : RawWebhookMessage) (payload : bytes),
    msg_Payload m = body /\ Marshal m = Ok payload
    /\ queued rawEventsQueue t = [payload].

(** The header map has an entry under the (canonical) name. *)
Definition contains_header (h : http.Header) (name : string) : Prop :=
  is_Some (h !! http.CanonicalMIMEHeaderKey name).

(** The header map has a non-empty first value under the name. *)
Definition sends_header (h : http.Header) (name : string) : Prop :=
  exists v vs, h !! http.CanonicalMIMEHeaderKey name = Some (v :: vs) /\ v <> "".

(** The owner and repository name the Bitbucket adapter derives from a
    payload: the two sides of "workspace/repo-slug", or no owner and the
    repository's name when there is no slash. *)
Definition bb_owner_repo (repo : bb.Repo) : string * string :=
  match strings.SplitN2_slash (bb.repo_FullName repo) with
  | [a; b] => (a, b)
  | _ => ("", bb.repo_Name repo)
  end.

(** The registration a consumer makes on [queue] over channel [ch]. *)
Definition consume_call (ch : Channel) (queue : string)
  : IO (result (list Delivery)) :=
  ChannelConsume ch queue "" false false false false.

(** What a consumer's loop does with delivery [d] after history [h]: reject
    it without requeue when its body does not decode, else run the handler
    and then acknowledge. *)
Definition delivery_steps {A : Type} {JA : JSON A} (w : World) (h : Trace)
    (handler : A -> Prog unit) (d : Delivery) : Trace :=
  match Unmarshal (d_Body d) with
  | inr _ => [Ev (Nack d false false) tt]
  | inl msg => trace_of w h (handler msg) ++ [Ev (Ack d false) tt]
  end.

(** Membership in the common vocabulary. *)
Definition is_normalized_status (s : string) : bool :=
  existsb (String.eqb s) normalized_statuses.

(** A projection of the event a call returned, if it returned one. *)
Definition on_event {B : Type} (f : NormalizedEvent -> B)
    (r : result NormalizedEvent) : option B :=
  match r with
  | inl ev => Some (f ev)
  | inr _ => None
  end.

(** The payload parses against the adapter's webhook schema. *)
Definition payload_parses {JAdapter : AdapterJSON} (a : SCMAdapter) (payload : bytes) : bool :=
  match a with
  | GitHub _ => is_ok (Unmarshal (A := gh.WebhookPayload) payload)
  | Bitbucket _ => is_ok (Unmarshal (A := bb.WebhookPayload) payload)
  end.

(** What NormalizeEvent reads of a webhook before it decides on the
    enrichment: the mapped action (the payload's "action" for GitHub, the
    action mapBitbucketEventKey gives for the X-Event-Key for Bitbucket),
    the number of the pull request, and the owner and the name of the
    repository. *)
Record Subject : Type := {
  sub_action : string;
  sub_number : Z;
  sub_owner : string;
  sub_repo : string
}.

(** The subject of a webhook, when its payload parses against the adapter's
    schema. *)
Definition webhook_subject {JAdapter : AdapterJSON}
    (a : SCMAdapter) (eventType : string) (payload : bytes) : option Subject :=
  match a with
  | GitHub _ =>
      match Unmarshal (A := gh.WebhookPayload) payload with
      | inr _ => None
      | inl p =>
          Some {| sub_action := gh.p_Action p;
                  sub_number := gh.pr_Number (gh.p_PullRequest p);
                  sub_owner := gh.repo_Owner_Login (gh.p_Repository p);
                  sub_repo := gh.repo_Name (gh.p_Repository p) |}
      end
  | Bitbucket _ =>
      match Unmarshal (A := bb.WebhookPayload) payload with
      | inr _ => None
      | inl p =>
          Some {| sub_action := snd (mapBitbucketEventKey eventType);
                  sub_number := bb.pr_ID (bb.p_PullRequest p);
                  sub_owner := fst (bb_owner_repo (bb.p_Repository p));
                  sub_repo := snd (bb_owner_repo (bb.p_Repository p)) |}
      end
  end.

(** ** Sample inputs *)

Module sample.

(** A stand-in for encoding/json on RawWebhookMessage: platform and event
    type on a line each, then the payload; the body "poison" does not
    decode. *)
Definition json_raw : JSON RawWebhookMessage := {|
  Marshal m :=
    Ok (to_bytes (msg_Platform m ++ newline ++ msg_EventType m ++ newline)
        ++ msg_Payload m);
  Unmarshal b :=
    if hmac.eq_bytes b (to_bytes "poison")
    then Err (errorString "invalid character 'p' looking for beginning of value")
    else Ok {| msg_Platform := PlatformGitHub;
               msg_EventType := "pull_request";
               msg_Payload := b |}
|}.

Definition secret : string := "s3cret".
Definition body : bytes := to_bytes "{}".
Definition digest : string :=
  "adbde1ce40c89c14215687d5d762a47df6dfaefcfad61e2e86718ffc8498571b".

Definition env : Env := {[ "WEBHOOK_SECRET" := secret ]}.
Definition mq : RabbitMQ := {| pubCh := 1%N |}.

(** A signed GitHub delivery of event [event]. *)
Definition github_request (event signature : string) : http.Request :=
  {| http.req_Header :=
       http.HeaderSet (http.HeaderSet ∅ "X-GitHub-Event" event)
         "X-Hub-Signature-256" signature;
     http.req_Body := Ok body |}.

(** Headers with both provider signals, and the same with an empty
    X-GitHub-Event. *)
Definition both_headers : http.Header :=
  http.HeaderSet (http.HeaderSet ∅ "X-GitHub-Event" "pull_request")
    "X-Event-Key" "pullrequest:created".
Definition empty_github_header : http.Header :=
  http.HeaderSet (http.HeaderSet ∅ "X-GitHub-Event" "")
    "X-Event-Key" "pullrequest:created".

(** Deliveries of a pull-request event with the signature in GitHub's
    format, of a push event with the bare digest, and of a pull-request event
    with a forged signature. *)
Definition pr_request : http.Request :=
  github_request "pull_request" ("sha256=" ++ digest).
Definition push_request : http.Request := github_request "push" digest.
Definition forged_request : http.Request :=
  github_request "pull_request" "sha256=00".

(** The message published for [pr_request]. *)
Definition pr_publishing : Publishing :=
  {| ContentType := "application/json";
     DeliveryMode := amqp_Persistent;
     pub_Body := to_bytes ("github" ++ newline ++ "pull_request" ++ newline ++ "{}") |}.

(** A stand-in for encoding/json on NormalizedEvent: the raw payload is the
    encoding; the body "poison" does not decode. *)
Definition json_event : JSON NormalizedEvent := {|
  Marshal ev := Ok (RawPayload ev);
  Unmarshal b :=
    if hmac.eq_bytes b (to_bytes "poison")
    then Err (errorString "invalid character 'p' looking for beginning of value")
    else Ok {| Platform := PlatformGitHub;
               EventType := "pull_request.opened";
               Action := "opened";
               PR := {| Number := 42; Title := "Add parser"; Description := "";
                        Author := "octocat"; SourceBranch := "parser";
                        TargetBranch := "main"; State := "open";
                        URL := "https://github.com/acme/app/pull/42" |};
               Repository := {| Name := "app"; FullName := "acme/app";
                                Owner := "acme";
                                CloneURL := "https://github.com/acme/app.git";
                                HTMLURL := "https://github.com/acme/app" |};
               Files := [];
               RawPayload := b;
               ReceivedAt := 0 |}
|}.

(** The event [json_event] decodes from the body "{}". *)
Definition event : NormalizedEvent :=
  match Unmarshal (JSON := json_event) body with
  | inl ev => ev
  | inr _ => {| Platform := ""; EventType := ""; Action := "";
                PR := {| Number := 0; Title := ""; Description := "";
                         Author := ""; SourceBranch := ""; TargetBranch := "";
                         State := ""; URL := "" |};
                Repository := {| Name := ""; FullName := ""; Owner := "";
                                 CloneURL := ""; HTMLURL := "" |};
                Files := []; RawPayload := []; ReceivedAt := 0 |}
  end.

Definition sink : string := "http://platform-be.local/events".

Definition delivery : Delivery := {| DeliveryTag := 7%N; d_Body := body |}.
Definition poison : Delivery := {| DeliveryTag := 6%N; d_Body := to_bytes "poison" |}.

(** The three files of a pull request: one modified (+10/-2), one removed
    (+0/-5), one renamed. *)
Definition pr_files : list PRFile :=
  [ {| f_Filename := "parser.go"; f_Status := "modified"; f_Additions := 10;
       f_Deletions := 2; f_Changes := 12; f_PreviousFilename := "" |};
    {| f_Filename := "old.go"; f_Status := "removed"; f_Additions := 0;
       f_Deletions := 5; f_Changes := 5; f_PreviousFilename := "" |};
    {| f_Filename := "lexer.go"; f_Status := "renamed"; f_Additions := 0;
       f_Deletions := 0; f_Changes := 0; f_PreviousFilename := "scan.go" |} ].

(** An entry as the GitHub API reports a copied file, with a change count
    that is not the sum of its additions and deletions. *)
Definition copied_file : PRFile :=
  {| f_Filename := "b.go"; f_Status := "copied"; f_Additions := 3;
     f_Deletions := 1; f_Changes := 7; f_PreviousFilename := "a.go" |}.

(** A Bitbucket diffstat: a modified file, and a renamed file. *)
Definition diffstat : bb.DiffstatResponse :=
  {| bb.Values :=
       [ {| bb.v_Status := "modified"; bb.v_LinesAdded := 10;
            bb.v_LinesRemoved := 2; bb.v_New := Some "parser.go";
            bb.v_Old := Some "parser.go" |};
         {| bb.v_Status := "renamed"; bb.v_LinesAdded := 0;
            bb.v_LinesRemoved := 0; bb.v_New := Some "lexer.go";
            bb.v_Old := Some "scan.go" |} ] |}.

(** A renamed entry whose old side is absent. *)
Definition renamed_without_old : bb.DiffstatResponse :=
  {| bb.Values :=
       [ {| bb.v_Status := "renamed"; bb.v_LinesAdded := 0;
            bb.v_LinesRemoved := 0; bb.v_New := Some "lexer.go";
            bb.v_Old := None |} ] |}.

Definition gh_payload (action : string) : gh.WebhookPayload :=
  {| gh.p_Action := action;
     gh.p_Number := 42;
     gh.p_PullRequest :=
       {| gh.pr_Number := 42; gh.pr_Title := "Add parser"; gh.pr_Body := "";
          gh.pr_State := "open";
          gh.pr_HTMLURL := "https://github.com/acme/app/pull/42";
          gh.pr_User_Login := "octocat"; gh.pr_Head_Ref := "parser";
          gh.pr_Base_Ref := "main" |};
     gh.p_Repository :=
       {| gh.repo_Name := "app"; gh.repo_FullName := "acme/app";
          gh.repo_HTMLURL := "https://github.com/acme/app";
          gh.repo_CloneURL := "https://github.com/acme/app.git";
          gh.repo_Owner_Login := "acme" |} |}.

Definition bb_payload : bb.WebhookPayload :=
  {| bb.p_PullRequest :=
       {| bb.pr_ID := 42; bb.pr_Title := "Add parser"; bb.pr_Description := "";
          bb.pr_State := "OPEN"; bb.pr_Author_Nickname := "alice";
          bb.pr_Author_DisplayName := "Alice";
          bb.pr_Source_Branch_Name := "parser";
          bb.pr_Destination_Branch_Name := "main";
          bb.pr_Links_HTML_Href :=
            "https://bitbucket.org/acme/app/pull-requests/42" |};
     bb.p_Repository :=
       {| bb.repo_Name := "app"; bb.repo_FullName := "acme/app";
          bb.repo_Owner_Nickname := "acme"; bb.repo_Owner_DisplayName := "Acme";
          bb.repo_Links_HTML_Href := "https://bitbucket.org/acme/app";
          bb.repo_Links_Clone :=
            [ {| bb.link_Href := "git@bitbucket.org:acme/app.git";
                 bb.link_Name := "ssh" |};
              {| bb.link_Href := "https://bitbucket.org/acme/app.git";
                 bb.link_Name := "https" |} ] |} |}.

(** The normalized event expected for [gh_payload action]. *)
Definition github_event (action : string) (files : list NormalizedFile)
    (raw : bytes) : NormalizedEvent :=
  {| Platform := PlatformGitHub;
     EventType := "pull_request." ++ action;
     Action := action;
     PR := {| Number := 42; Title := "Add parser"; Description := "";
              Author := "octocat"; SourceBranch := "parser";
              TargetBranch := "main"; State := "open";
              URL := "https://github.com/acme/app/pull/42" |};
     Repository := {| Name := "app"; FullName := "acme/app"; Owner := "acme";
                      CloneURL := "https://github.com/acme/app.git";
                      HTMLURL := "https://github.com/acme/app" |};
     Files := files;
     RawPayload := raw;
     ReceivedAt := 0 |}.

(** [pr_files] in the normalized schema. *)
Definition normalized_pr_files : list NormalizedFile :=
  [ {| Filename := "parser.go"; Status := "modified"; Additions := 10;
       Deletions := 2; Changes := 12; PreviousFilename := "" |};
    {| Filename := "old.go"; Status := "removed"; Additions := 0;
       Deletions := 5; Changes := 5; PreviousFilename := "" |};
    {| Filename := "lexer.go"; Status := "renamed"; Additions := 0;
       Deletions := 0; Changes := 0; PreviousFilename := "scan.go" |} ].

(** [diffstat] in the normalized schema. *)
Definition normalized_diffstat : list NormalizedFile :=
  [ {| Filename := "parser.go"; Status := "modified"; Additions := 10;
       Deletions := 2; Changes := 12; PreviousFilename := "" |};
    {| Filename := "lexer.go"; Status := "renamed"; Additions := 0;
       Deletions := 0; Changes := 0; PreviousFilename := "scan.go" |} ].

(** What the adapters return for [copied_file] and for
    [renamed_without_old]. *)
Definition normalized_copied_file : NormalizedFile :=
  {| Filename := "b.go"; Status := "copied"; Additions := 3; Deletions := 1;
     Changes := 7; PreviousFilename := "a.go" |}.

Definition normalized_renamed_without_old : NormalizedFile :=
  {| Filename := "lexer.go"; Status := "renamed"; Additions := 0;
     Deletions := 0; Changes := 0; PreviousFilename := "" |}.

(** Stand-ins for encoding/json on the adapters' types. A GitHub webhook
    payload is its action; a Bitbucket one is always [bb_payload]; the body
    "poison" decodes to nothing. API responses are told apart by their
    body. *)
Definition decode {A : Type} (table : list (string * A)) (otherwise : A)
    (b : bytes) : result A :=
  if hmac.eq_bytes b (to_bytes "poison")
  then Err (errorString "invalid character 'p' looking for beginning of value")
  else Ok (match find (fun entry => (fst entry =? of_bytes b)%string) table with
           | Some entry => snd entry
           | None => otherwise
           end).

Definition json_adapter : AdapterJSON := {|
  json_ghWebhookPayload :=
    {| Marshal p := Ok (to_bytes (gh.p_Action p));
       Unmarshal b :=
         if hmac.eq_bytes b (to_bytes "poison")
         then Err (errorString "unexpected end of JSON input")
         else Ok (gh_payload (of_bytes b)) |};
  json_JSONObject :=
    {| Marshal _ := Ok [];
       Unmarshal _ :=
         Err (errorString "json: cannot unmarshal array into Go value of type map[string]interface {}") |};
  json_PRFiles :=
    {| Marshal _ := Ok [];
       Unmarshal := decode [("copied", [copied_file])] pr_files |};
  json_bbWebhookPayload :=
    {| Marshal _ := Ok [];
       Unmarshal := decode [] bb_payload |};
  json_bbDiffstatResponse :=
    {| Marshal _ := Ok [];
       Unmarshal := decode [("renamed", renamed_without_old)] diffstat |}
|}.

Definition github : SCMAdapter :=
  GitHub {| GitHubAdapter.appID := "12345"; GitHubAdapter.privateKey := "key" |}.

Definition bitbucket : SCMAdapter :=
  Bitbucket {| BitbucketAdapter.username := "bot";
               BitbucketAdapter.appPassword := "app-password";
               BitbucketAdapter.baseURL := "https://api.bitbucket.org/2.0" |}.

(** A world in which every call succeeds: the broker accepts, HTTP peers
    answer [status] with body [response], the clock reads 0. *)
Definition world_with (status : Z) (response : bytes)
    (deliveries : list Delivery) : World :=
  fun _ X e =>
    match e in IO X return X with
    | WriteHeader _ => tt
    | Write _ => tt
    | ConnChannel => Ok 2%N
    | ChannelClose _ => tt
    | ChannelConsume _ _ _ _ _ _ _ => Ok deliveries
    | PublishWithContext _ _ _ _ _ _ => None
    | Ack _ _ => tt
    | Nack _ _ _ => tt
    | NewRequest _ _ => None
    | ClientDo _ =>
        Ok {| http.StatusCode := status; http.resp_Body := (response, None) |}
    | Now => 0
    | generateJWT _ _ => Ok "jwt"
    | getInstallationToken _ _ _ => Ok "token"
    | EnterGetPRFiles _ _ _ _ => tt
    end.

Definition world (status : Z) (deliveries : list Delivery) : World :=
  world_with status [] deliveries.

(** A world in which no outbound HTTP call gets through. *)
Definition offline : World :=
  fun h X e =>
    match e in IO X return X with
    | ClientDo _ => Err (errorString "dial tcp: connection refused")
    | e' => world 200 [] h _ e'
    end.

End sample.

(** ** Tactics *)

(** Calls without a return value are answered [tt]. *)
Ltac unit_answers w :=
  repeat match goal with
         | |- context [w ?h unit ?e] => destruct (w h unit e)
         end.

(** Steps of a proof of [satisfies]: split binds, enter calls, and case on
    what is matched. *)
Ltac sat_step :=
  match goal with
  | |- satisfies _ _ (Ret _) => apply sat_Ret
  | |- satisfies _ _ (bind (call _) _) => apply sat_Vis; [intros ? | intros ?]
  | |- satisfies _ _ (match ?x with _ => _ end) => destruct x eqn:?
  | |- satisfies _ _ (if ?x then _ else _) => destruct x eqn:?
  | |- not_enter _ _ _ => exact I
  end.
(** * More of the code: queue client, adapters, endpoints *)

From Stdlib Require DecimalPos.

(** ** GetPRDetails of the two adapters *)

(** ghPRResponse is the subset of the GitHub PR API response we care
    about. *)
Record ghPRResponse : Type := {
  ghpr_Number : Z;
  ghpr_Title : string;
  ghpr_Body : string;
  ghpr_State : string;
  ghpr_HTMLURL : string;
  ghpr_User_Login : string;
  ghpr_Head_Ref : string;
  ghpr_Base_Ref : string
}.

(** bbPRResponse is the subset of Bitbucket's pull request response the
    adapter reads. *)
Record bbPRResponse : Type := {
  bbpr_ID : Z;
  bbpr_Title : string;
  bbpr_Description : string;
  bbpr_State : string;
  bbpr_Author_Nickname : string;
  bbpr_Author_DisplayName : string;
  bbpr_Source_Branch_Name : string;
  bbpr_Destination_Branch_Name : string;
  bbpr_Links_HTML_Href : string
}.

(** The codecs GetPRDetails relies on. *)
Class DetailsJSON : Type := {
  #[global] json_ghPRResponse :: JSON ghPRResponse;
  #[global] json_bbPRResponse :: JSON bbPRResponse
}.

(** GetPRDetails of the GitHub adapter: the pull request, from the API. *)
Definition GitHubAdapter_GetPRDetails {JPR : JSON ghPRResponse}
    (g : GitHubAdapter.t) (owner repo : string) (prNumber : Z)
  : Prog (result NormalizedPR) :=
  r <- GitHubAdapter.token g owner repo ;;
  match r with
  | inr err => Ret (Err err)
  | inl tok =>
      let url := ("https://api.github.com/repos/" ++ owner ++ "/" ++ repo
                  ++ "/pulls/" ++ fmt.itoa prNumber)%string in
      r <- makeAuthenticatedRequest tok "GET" url ;;
      match r with
      | inr err =>
          Ret (Err (wrapError "GitHub adapter: GetPRDetails request failed" err))
      | inl body =>
          match Unmarshal (A := ghPRResponse) body with
          | inr err =>
              Ret (Err (wrapError "GitHub adapter: failed to parse PR response"
                          err))
          | inl pr =>
              Ret (Ok {| Number := ghpr_Number pr;
                         Title := ghpr_Title pr;
                         Description := ghpr_Body pr;
                         Author := ghpr_User_Login pr;
                         SourceBranch := ghpr_Head_Ref pr;
                         TargetBranch := ghpr_Base_Ref pr;
                         State := ghpr_State pr;
                         URL := ghpr_HTMLURL pr |})
          end
      end
  end.

(** GetPRDetails of the Bitbucket adapter. *)
Definition BitbucketAdapter_GetPRDetails {JPR : JSON bbPRResponse}
    (b : BitbucketAdapter.t) (owner repo : string) (prNumber : Z)
  : Prog (result NormalizedPR) :=
  let url := (BitbucketAdapter.baseURL b ++ "/repositories/" ++ owner ++ "/"
              ++ repo ++ "/pullrequests/" ++ fmt.itoa prNumber)%string in
  r <- BitbucketAdapter.request b url ;;
  match r with
  | inr err => Ret (Err (wrapError "Bitbucket adapter: GetPRDetails failed" err))
  | inl body =>
      match Unmarshal (A := bbPRResponse) body with
      | inr err =>
          Ret (Err (wrapError "Bitbucket adapter: failed to parse PR response"
                      err))
      | inl pr =>
          Ret (Ok {| Number := bbpr_ID pr;
                     Title := bbpr_Title pr;
                     Description := bbpr_Description pr;
                     Author := bbpr_Author_Nickname pr;
                     SourceBranch := bbpr_Source_Branch_Name pr;
                     TargetBranch := bbpr_Destination_Branch_Name pr;
                     State := strings.ToLower (bbpr_State pr);
                     URL := bbpr_Links_HTML_Href pr |})
      end
  end.

(** GetPRDetails through the SCMAdapter interface. *)
Definition Adapter_GetPRDetails {JDetails : DetailsJSON}
    (a : SCMAdapter) (owner repo : string) (prNumber : Z)
  : Prog (result NormalizedPR) :=
  match a with
  | GitHub g => GitHubAdapter_GetPRDetails g owner repo prNumber
  | Bitbucket b => BitbucketAdapter_GetPRDetails b owner repo prNumber
  end.

(** The requests GetPRDetails makes. *)
Definition github_pr_request (token owner repo : string) (prNumber : Z)
  : http.ClientRequest :=
  {| http.Method := "GET";
     http.req_URL := "https://api.github.com/repos/" ++ owner ++ "/" ++ repo
                     ++ "/pulls/" ++ fmt.itoa prNumber;
     http.BasicAuth := None;
     http.Headers := [("Authorization", ("token " ++ token)%string);
                      ("Accept", "application/vnd.github.v3+json");
                      ("User-Agent", "GitHub-App")];
     http.ContentBody := None;
     http.Timeout := None |}.

Definition bitbucket_pr_request (b : BitbucketAdapter.t) (owner repo : string)
    (prNumber : Z) : http.ClientRequest :=
  {| http.Method := "GET";
     http.req_URL := BitbucketAdapter.baseURL b ++ "/repositories/" ++ owner
                     ++ "/" ++ repo ++ "/pullrequests/" ++ fmt.itoa prNumber;
     http.BasicAuth := Some (BitbucketAdapter.username b,
                             BitbucketAdapter.appPassword b);
     http.Headers := [("Accept", "application/json")];
     http.ContentBody := None;
     http.Timeout := None |}.

(** An API response and the pull request object of a webhook payload that
    say the same, member by member. *)
Definition gh_same_pull_request (r : ghPRResponse) (p : gh.PullRequest) : Prop :=
  ghpr_Number r = gh.pr_Number p
  /\ ghpr_Title r = gh.pr_Title p
  /\ ghpr_Body r = gh.pr_Body p
  /\ ghpr_State r = gh.pr_State p
  /\ ghpr_HTMLURL r = gh.pr_HTMLURL p
  /\ ghpr_User_Login r = gh.pr_User_Login p
  /\ ghpr_Head_Ref r = gh.pr_Head_Ref p
  /\ ghpr_Base_Ref r = gh.pr_Base_Ref p.

Definition bb_same_pull_request (r : bbPRResponse) (p : bb.PullRequest) : Prop :=
  bbpr_ID r = bb.pr_ID p
  /\ bbpr_Title r = bb.pr_Title p
  /\ bbpr_Description r = bb.pr_Description p
  /\ bbpr_State r = bb.pr_State p
  /\ bbpr_Author_Nickname r = bb.pr_Author_Nickname p
  /\ bbpr_Author_DisplayName r = bb.pr_Author_DisplayName p
  /\ bbpr_Source_Branch_Name r = bb.pr_Source_Branch_Name p
  /\ bbpr_Destination_Branch_Name r = bb.pr_Destination_Branch_Name p
  /\ bbpr_Links_HTML_Href r = bb.pr_Links_HTML_Href p.

(** ** strconv, net/url, and the text of an error *)

(** [err.Error()]: [fmt.Errorf("msg: %w", inner)] prints the message, a
    colon and the inner error. *)
Fixpoint error_text (e : error) : string :=
  match e with
  | errorString msg => msg
  | wrapError msg inner => msg ++ ": " ++ error_text inner
  end.

Definition in_int (z : Z) : bool := (- 2 ^ 63 <=? z) && (z <? 2 ^ 63).

Module strconv.

Definition digit (c : ascii) : option Z :=
  let n := N_of_ascii c in
  if ((48 <=? n) && (n <=? 57))%N then Some (Z.of_N n - 48) else None.

(** The value of a string of decimal digits, after [acc]. *)
Fixpoint digits (acc : Z) (s : string) : option Z :=
  match s with
  | EmptyString => Some acc
  | String c s' =>
      match digit c with
      | Some d => digits (10 * acc + d) s'
      | None => None
      end
  end.

Definition ErrSyntax : error := errorString "invalid syntax".
Definition ErrRange : error := errorString "value out of range".

(** [strconv.Atoi]: an optional sign, then one or more decimal digits, of
    a value that fits an int. The error names the function and the input
    (whose quoting is left out here) and wraps ErrSyntax or ErrRange. *)
Definition Atoi (s : string) : result Z :=
  let failed (why : error) : result Z :=
    Err (wrapError ("strconv.Atoi: parsing " ++ s) why) in
  let '(negative, body) :=
    match s with
    | String c rest =>
        if Ascii.eqb c "+" then (false, rest)
        else if Ascii.eqb c "-" then (true, rest)
        else (false, s)
    | EmptyString => (false, s)
    end in
  match body with
  | EmptyString => failed ErrSyntax
  | _ =>
      match digits 0 body with
      | None => failed ErrSyntax
      | Some n =>
          let v := if negative : bool then - n else n in
          if in_int v then Ok v else failed ErrRange
      end
  end.

End strconv.

Module url.

(** [url.Values], the parsed query of a request. *)
Definition Values : Type := gmap string (list string).

(** [Values.Get]: the first value under the key, as it is written. *)
Definition Get (v : Values) (key : string) : string :=
  match v !! key with
  | Some (x :: _) => x
  | _ => ""
  end.

End url.

(** ** pullrequest.go: the endpoint for the changed files of a PR *)

(** The object GetPRFilesHandler encodes as its answer. *)
Record PRFilesSummary : Type := {
  s_status : string;
  s_owner : string;
  s_repo : string;
  s_pr_number : Z;
  s_total_files : Z;
  s_total_additions : Z;
  s_total_deletions : Z;
  s_total_changes : Z;
  s_filenames : list string;
  s_files : list PRFile
}.

(** [json.NewEncoder(w).Encode(v)]: the encoding and a newline in one
    write, or nothing when [v] does not encode. *)
Definition Encode {A : Type} {JA : JSON A} (v : A) : Prog unit :=
  match Marshal v with
  | inr _ => Ret tt
  | inl data => call (Write (data ++ to_bytes newline))
  end.

(** [total += f.X] over the files, in Go's int. *)
Definition total (field : PRFile -> Z) (files : list PRFile) : Z :=
  fold_left (fun acc f => int_add acc (field f)) files 0.

(** GetPRFilesHandler is an HTTP endpoint to retrieve changed files in a
    PR; [query] is [r.URL.Query()]. As with [http.Error], the Content-Type
    header set before the status is not traced. *)
Definition GetPRFilesHandler
    {JObject : JSON JSONObject} {JFiles : JSON (list PRFile)}
    {JSummary : JSON PRFilesSummary}
    (env : Env) (query : url.Values) : Prog unit :=
  let owner := url.Get query "owner" in
  let repo := url.Get query "repo" in
  let prNumberStr := url.Get query "pr" in
  if (owner =? "")%string || (repo =? "")%string || (prNumberStr =? "")%string
  then http_Error "owner, repo and pr parameters are required"
         http.StatusBadRequest
  else
  match strconv.Atoi prNumberStr with
  | inr _ => http_Error "pr must be a valid number" http.StatusBadRequest
  | inl prNumber =>
      (* Authenticate with GitHub *)
      let appID := Getenv env "GITHUB_APP_ID" in
      let privateKey := Getenv env "GITHUB_PRIVATE_KEY" in
      if (appID =? "")%string || (privateKey =? "")%string
      then http_Error "GitHub App credentials not configured"
             http.StatusInternalServerError
      else
      (* Step 1: Generate JWT *)
      r <- call (generateJWT appID privateKey) ;;
      match r with
      | inr _ =>
          http_Error "Failed to generate JWT" http.StatusInternalServerError
      | inl jwtToken =>
          (* Step 2: Get installation token *)
          r <- call (getInstallationToken jwtToken owner repo) ;;
          match r with
          | inr _ =>
              http_Error "Failed to get installation token"
                http.StatusInternalServerError
          | inl installationToken =>
              (* Step 3: Fetch changed files *)
              r <- getPRChangedFiles installationToken owner repo prNumber ;;
              match r with
              | inr err =>
                  http_Error (error_text err) http.StatusInternalServerError
              | inl files =>
                  call (WriteHeader http.StatusOK) ;;;
                  Encode
                    {| s_status := "success";
                       s_owner := owner;
                       s_repo := repo;
                       s_pr_number := prNumber;
                       s_total_files := Z.of_nat (length files);
                       s_total_additions := total f_Additions files;
                       s_total_deletions := total f_Deletions files;
                       s_total_changes := total f_Changes files;
                       s_filenames := map f_Filename files;
                       s_files := files |}
              end
          end
      end
  end.

(** The exact sum of a field over the files. *)
Definition sum_of (field : PRFile -> Z) (files : list PRFile) : Z :=
  fold_right Z.add 0 (map field files).

(** ** repository.go: the file tree of a repository *)

(** RepositoryContent represents a file or folder in a GitHub repository. *)
Record RepositoryContent : Type := {
  c_Name : string;
  c_Path : string;
  c_Type : string;  (* "file" or "dir" *)
  c_Size : Z;
  c_URL : string;
  c_DownloadURL : string
}.

(** FileTreeResult holds the results of the file tree retrieval. *)
Record FileTreeResult : Type := {
  TotalFiles : Z;
  TotalDirs : Z;
  tree_Files : list string;
  tree_Dirs : list string;
  AllPaths : list string
}.

(** The loop over the items of one listing; [descend] is the recursive call
    on a sub-directory, which returns nothing when the depth allowed is used
    up, and whose error is only logged. The result is the one record all
    calls append to. *)
Fixpoint range_contents
    (descend : string -> FileTreeResult
               -> Prog (option (option error * FileTreeResult)))
    (contents : list RepositoryContent) (result : FileTreeResult)
  : Prog (option FileTreeResult) :=
  match contents with
  | [] => Ret (Some result)
  | item :: rest =>
      let result :=
        {| TotalFiles := TotalFiles result;
           TotalDirs := TotalDirs result;
           tree_Files := tree_Files result;
           tree_Dirs := tree_Dirs result;
           AllPaths := AllPaths result ++ [c_Path item] |} in
      if (c_Type item =? "dir")%string then
        let result :=
          {| TotalFiles := TotalFiles result;
             TotalDirs := int_add (TotalDirs result) 1;
             tree_Files := tree_Files result;
             tree_Dirs := tree_Dirs result ++ [c_Path item];
             AllPaths := AllPaths result |} in
        (* Recursively get contents of subdirectory *)
        r <- descend (c_Path item) result ;;
        match r with
        | None => Ret None
        | Some (_, result) => range_contents descend rest result
        end
      else if (c_Type item =? "file")%string then
        range_contents descend rest
          {| TotalFiles := int_add (TotalFiles result) 1;
             TotalDirs := TotalDirs result;
             tree_Files := tree_Files result ++ [c_Path item];
             tree_Dirs := tree_Dirs result;
             AllPaths := AllPaths result |}
      else range_contents descend rest result
  end.

(** getRepositoryFileTree recursively retrieves all files from a GitHub
    repository. The recursion follows what the API answers and need not end;
    [depth] bounds the nesting of calls, and the function returns nothing
    when that bound is reached. Otherwise it returns the error and the
    result record as the calls left it. *)
Fixpoint getRepositoryFileTree {JContents : JSON (list RepositoryContent)}
    (depth : nat) (token owner repo path : string) (result : FileTreeResult)
  : Prog (option (option error * FileTreeResult)) :=
  match depth with
  | O => Ret None
  | S depth' =>
      let url := ("https://api.github.com/repos/" ++ owner ++ "/" ++ repo
                  ++ "/contents/" ++ path)%string in
      r <- makeAuthenticatedRequest token "GET" url ;;
      match r with
      | inr err => Ret (Some (Some err, result))
      | inl body =>
          match Unmarshal (A := list RepositoryContent) body with
          | inr err => Ret (Some (Some err, result))
          | inl contents =>
              r <- range_contents
                     (getRepositoryFileTree depth' token owner repo)
                     contents result ;;
              match r with
              | None => Ret None
              | Some result => Ret (Some (None, result))
              end
          end
      end
  end.

(** [sort.Strings], by its result: the ascending rearrangement, which for
    strings is the same whatever the algorithm. *)
Fixpoint insert_sorted (s : string) (l : list string) : list string :=
  match l with
  | [] => [s]
  | x :: l' => if String.leb s x then s :: l else x :: insert_sorted s l'
  end.

Definition sort_Strings (l : list string) : list string :=
  fold_right insert_sorted [] l.

(** The object GetRepositoryFilesHandler encodes as its answer. *)
Record RepositoryFilesSummary : Type := {
  rs_status : string;
  rs_message : string;
  rs_owner : string;
  rs_repo : string;
  rs_total_files : Z;
  rs_total_directories : Z;
  rs_total_items : Z;
  rs_files : list string;
  rs_directories : list string
}.

(** GetRepositoryFilesHandler retrieves and lists all files in a GitHub
    repository; [query] is [r.URL.Query()]. It returns nothing when the
    retrieval of the tree used up [depth]. *)
Definition GetRepositoryFilesHandler
    {JContents : JSON (list RepositoryContent)}
    {JSummary : JSON RepositoryFilesSummary}
    (depth : nat) (env : Env) (query : url.Values) : Prog (option unit) :=
  let owner := url.Get query "owner" in
  let repo := url.Get query "repo" in
  if (owner =? "")%string || (repo =? "")%string
  then http_Error "owner and repo parameters are required"
         http.StatusBadRequest ;;; Ret (Some tt)
  else
  (* Get GitHub App credentials *)
  let appID := Getenv env "GITHUB_APP_ID" in
  let privateKey := Getenv env "GITHUB_PRIVATE_KEY" in
  if (appID =? "")%string
  then http_Error "GITHUB_APP_ID not configured"
         http.StatusInternalServerError ;;; Ret (Some tt)
  else if (privateKey =? "")%string
  then http_Error "GITHUB_PRIVATE_KEY not configured"
         http.StatusInternalServerError ;;; Ret (Some tt)
  else
  (* Step 1: Generate JWT token *)
  r <- call (generateJWT appID privateKey) ;;
  match r with
  | inr _ =>
      http_Error "Failed to generate JWT" http.StatusInternalServerError ;;;
      Ret (Some tt)
  | inl jwtToken =>
      (* Step 2: Get installation token *)
      r <- call (getInstallationToken jwtToken owner repo) ;;
      match r with
      | inr _ =>
          http_Error "Failed to get installation token"
            http.StatusInternalServerError ;;;
          Ret (Some tt)
      | inl installationToken =>
          (* Step 3: Retrieve file tree *)
          r <- getRepositoryFileTree depth installationToken owner repo ""
                 {| TotalFiles := 0; TotalDirs := 0; tree_Files := [];
                    tree_Dirs := []; AllPaths := [] |} ;;
          match r with
          | None => Ret None
          | Some (Some _, _) =>
              http_Error "Failed to retrieve file tree"
                http.StatusInternalServerError ;;;
              Ret (Some tt)
          | Some (None, result) =>
              (* Sort results for consistent output *)
              let files := sort_Strings (tree_Files result) in
              let dirs := sort_Strings (tree_Dirs result) in
              call (WriteHeader http.StatusOK) ;;;
              Encode
                {| rs_status := "success";
                   rs_message := "Repository file tree retrieved successfully";
                   rs_owner := owner;
                   rs_repo := repo;
                   rs_total_files := TotalFiles result;
                   rs_total_directories := TotalDirs result;
                   rs_total_items :=
                     int_add (TotalFiles result) (TotalDirs result);
                   rs_files := files;
                   rs_directories := dirs |} ;;;
              Ret (Some tt)
          end
      end
  end.

(** ** More ways to read traces *)

(** The outbound HTTP requests sent by the code modelled here, in order.
    The requests of the token issuance are inside [getInstallationToken]
    and appear under [tokens_issued], as one call. *)
Definition http_calls (t : Trace) : list http.ClientRequest :=
  omap (fun ev => match ev with
                  | Ev e _ => match e with
                              | ClientDo req => Some req
                              | _ => None
                              end
                  end) t.

(** The channels closed, in order. *)
Definition closes (t : Trace) : list Channel :=
  omap (fun ev => match ev with
                  | Ev e _ => match e with
                              | ChannelClose ch => Some ch
                              | _ => None
                              end
                  end) t.

(** The status the gateway answers a request with. *)
Definition gateway_status (env : Env) (r : http.Request) : Z :=
  match http.req_Body r with
  | inr _ => http.StatusInternalServerError
  | inl body =>
      if (Getenv env "WEBHOOK_SECRET" =? "")%string
      then http.StatusInternalServerError
      else if (request_signature r =? "")%string then http.StatusBadRequest
      else if verifyWebhookSignature body (request_signature r)
                (Getenv env "WEBHOOK_SECRET")
      then http.StatusOK
      else http.StatusUnauthorized
  end.

(** The HTTP exchanges of a trace: each request with what came back. *)
Definition http_exchange (ev : Event)
  : option (http.ClientRequest * result http.Response) :=
  match ev with
  | Ev e x =>
      match e in IO X
            return X -> option (http.ClientRequest * result http.Response) with
      | ClientDo req => fun r => Some (req, r)
      | _ => fun _ => None
      end x
  end.

Definition http_exchanges (t : Trace)
  : list (http.ClientRequest * result http.Response) :=
  omap http_exchange t.

(** The steps of the token issuance: the JWTs signed, and the installation
    tokens asked for, each with its outcome. *)
Definition jwts_signed (t : Trace) : list (string * string * result string) :=
  omap (fun ev =>
          match ev with
          | Ev e x =>
              match e in IO X return X -> option (string * string * result string) with
              | generateJWT appID privateKey => fun r => Some (appID, privateKey, r)
              | _ => fun _ => None
              end x
          end) t.

Definition tokens_issued (t : Trace)
  : list (string * string * string * result string) :=
  omap (fun ev =>
          match ev with
          | Ev e x =>
              match e in IO X
                    return X -> option (string * string * string * result string) with
              | getInstallationToken jwtToken owner repo =>
                  fun r => Some (jwtToken, owner, repo, r)
              | _ => fun _ => None
              end x
          end) t.

(** The "message" member of a response body that is a JSON object, which
    the GitHub API sets on an error. *)
Definition api_message {JObject : JSON JSONObject} (body : bytes) : option string :=
  match Unmarshal (A := JSONObject) body with
  | inl apiErr => apiErr !! "message"
  | inr _ => None
  end.

(** The requests the adapters make for the files of a pull request. *)
Definition github_files_request (token owner repo : string) (prNumber : Z)
  : http.ClientRequest :=
  {| http.Method := "GET";
     http.req_URL := "https://api.github.com/repos/" ++ owner ++ "/" ++ repo
                     ++ "/pulls/" ++ fmt.itoa prNumber ++ "/files";
     http.BasicAuth := None;
     http.Headers := [("Authorization", ("token " ++ token)%string);
                      ("Accept", "application/vnd.github.v3+json");
                      ("User-Agent", "GitHub-App")];
     http.ContentBody := None;
     http.Timeout := None |}.

Definition bitbucket_files_request (b : BitbucketAdapter.t) (owner repo : string)
    (prNumber : Z) : http.ClientRequest :=
  {| http.Method := "GET";
     http.req_URL := BitbucketAdapter.baseURL b ++ "/repositories/" ++ owner
                     ++ "/" ++ repo ++ "/pullrequests/" ++ fmt.itoa prNumber
                     ++ "/diffstat";
     http.BasicAuth := Some (BitbucketAdapter.username b,
                             BitbucketAdapter.appPassword b);
     http.Headers := [("Accept", "application/json")];
     http.ContentBody := None;
     http.Timeout := None |}.

(** The string has a slash. *)
Definition contains_slash (s : string) : bool :=
  existsb (Ascii.eqb "/") (list_ascii_of_string s).

(** ** A logic of results with their traces *)

(** [yields P p]: whatever the world answers, the calls [p] makes and the
    value it returns are related by [P]. *)
Inductive yields {A : Type} (P : Trace -> A -> Prop) : Prog A -> Prop :=
| yields_Ret (a : A) : P [] a -> yields P (Ret a)
| yields_Vis (X : Type) (e : IO X) (k : X -> Prog A) :
    (forall x : X, yields (fun t a => P (Ev e x :: t) a) (k x)) ->
    yields P (Vis e k).

(** The counters of a result are the lengths of its lists, as ints. *)
Definition counted (r : FileTreeResult) : Prop :=
  TotalFiles r = int_wrap (Z.of_nat (length (tree_Files r)))
  /\ TotalDirs r = int_wrap (Z.of_nat (length (tree_Dirs r))).

(** [r'] is [r] with paths appended, the new files and the new directories
    being among the new paths, in their order. *)
Definition grown (r r' : FileTreeResult) : Prop :=
  exists paths files dirs : list string,
    AllPaths r' = AllPaths r ++ paths
    /\ tree_Files r' = tree_Files r ++ files
    /\ tree_Dirs r' = tree_Dirs r ++ dirs
    /\ sublist files paths
    /\ sublist dirs paths
    /\ (length files + length dirs <= length paths)%nat.

(** What one call of getRepositoryFileTree on [r] leaves, when it returns:
    a grown result whose counters are right if they were; the result
    untouched, after at most one request, when it returns an error; and no
    more requests than one and one for each directory added. *)
Definition listed (r : FileTreeResult) (t : Trace)
    (out : option (option error * FileTreeResult)) : Prop :=
  match out with
  | None => True
  | Some (e, r') =>
      grown r r'
      /\ (counted r -> counted r')
      /\ (e <> None -> r' = r /\ (length (http_calls t) <= 1)%nat)
      /\ (length (http_calls t)
          <= 1 + (length (tree_Dirs r') - length (tree_Dirs r)))%nat
  end.

(** The same for the loop over one listing. *)
Definition ranged (r : FileTreeResult) (t : Trace) (out : option FileTreeResult)
  : Prop :=
  match out with
  | None => True
  | Some r' =>
      grown r r'
      /\ (counted r -> counted r')
      /\ (length (http_calls t)
          <= length (tree_Dirs r') - length (tree_Dirs r))%nat
  end.

(** Ascending, each element with the next. *)
Fixpoint ascending (l : list string) : Prop :=
  match l with
  | x :: (y :: _) as l' => String.leb x y = true /\ ascending l'
  | _ => True
  end.

(** ** Classes of calls *)

(** The calls an adapter makes: the clock, token issuance, outbound HTTP. *)
Definition adapter_call (X : Type) (e : IO X) (_ : X) : Prop :=
  match e with
  | Now | EnterGetPRFiles _ _ _ _ | generateJWT _ _
  | getInstallationToken _ _ _ | NewRequest _ _ | ClientDo _ => True
  | _ => False
  end.

(** A publish of a persistent JSON message on channel [ch], through the
    default exchange, routed to [queue]. *)
Definition persistent_publish (ch : Channel) (queue : string)
    (X : Type) (e : IO X) (_ : X) : Prop :=
  match e with
  | PublishWithContext ch' exchange key mandatory immediate msg =>
      ch' = ch /\ exchange = "" /\ key = queue
      /\ mandatory = false /\ immediate = false
      /\ ContentType msg = "application/json"
      /\ DeliveryMode msg = amqp_Persistent
  | _ => False
  end.

(** Calls that are neither acknowledgements nor channel operations: what a
    handler may do without disturbing the loop that runs it. *)
Definition leaves_deliveries (X : Type) (e : IO X) (_ : X) : Prop :=
  match e with
  | Ack _ _ | Nack _ _ _ | ConnChannel | ChannelClose _
  | ChannelConsume _ _ _ _ _ _ _ => False
  | _ => True
  end.

(** How a consumer settles delivery [d]: acknowledged when its body decodes
    at type [A], rejected without requeue otherwise. *)
(** An adapter call that only reads from the provider: any HTTP request
    among them is a GET without body. *)
Definition reading_call (X : Type) (e : IO X) (x : X) : Prop :=
  adapter_call X e x
  /\ match e with
     | ClientDo req => http.Method req = "GET" /\ http.ContentBody req = None
     | _ => True
     end.

(** Building a request and sending it as a GET without body. *)
Definition request_call (X : Type) (e : IO X) (_ : X) : Prop :=
  match e with
  | NewRequest _ _ => True
  | ClientDo req => http.Method req = "GET" /\ http.ContentBody req = None
  | _ => False
  end.

Definition settled (A : Type) {JA : JSON A} (d : Delivery)
  : Delivery + Delivery * bool :=
  if is_ok (Unmarshal (A := A) (d_Body d)) then inl d else inr (d, false).

(** The calls of a consumption loop itself: opening, registering, closing,
    and settling deliveries. *)
Definition loop_call (X : Type) (e : IO X) (_ : X) : Prop :=
  match e with
  | Ack _ _ | Nack _ _ _ | ConnChannel | ChannelClose _
  | ChannelConsume _ _ _ _ _ _ _ => True
  | _ => False
  end.

(** What the normalization consumer may call: its loop, the adapters'
    calls, and publishes of persistent messages to the normalized queue. *)
Definition normalization_call (mq : RabbitMQ) (X : Type) (e : IO X) (x : X)
  : Prop :=
  loop_call X e x \/ adapter_call X e x
  \/ persistent_publish (pubCh mq) normalizedEventsQueue X e x.

(** The call is an outbound HTTP request of the code modelled here. The
    requests that the token issuance sends are inside the call
    [getInstallationToken] and are not among these. *)
Definition is_http_call (X : Type) (e : IO X) : bool :=
  match e with
  | ClientDo _ => true
  | _ => false
  end.

(** The call signs a JWT. *)
Definition is_jwt_call (X : Type) (e : IO X) : bool :=
  match e with
  | generateJWT _ _ => true
  | _ => false
  end.

(** The call asks for an installation token. *)
Definition is_token_call (X : Type) (e : IO X) : bool :=
  match e with
  | getInstallationToken _ _ _ => true
  | _ => false
  end.

(** The number of calls of a class in a trace. *)
Definition count_calls (c : forall X : Type, IO X -> bool) (t : Trace) : nat :=
  length (List.filter (fun ev => match ev with Ev e _ => c _ e end) t).

(** [call_budget c n p]: whatever the world answers, [p] makes at most [n]
    calls of the class [c]. *)
Inductive call_budget {A : Type} (c : forall X : Type, IO X -> bool)
  : nat -> Prog A -> Prop :=
| budget_Ret (n : nat) (a : A) : call_budget c n (Ret a)
| budget_Do (n : nat) (X : Type) (e : IO X) (k : X -> Prog A) :
    c X e = true ->
    (forall x, call_budget c n (k x)) ->
    call_budget c (S n) (Vis e k)
| budget_Vis (n : nat) (X : Type) (e : IO X) (k : X -> Prog A) :
    c X e = false ->
    (forall x, call_budget c n (k x)) ->
    call_budget c n (Vis e k).

(** The string holds ASCII bytes only. On such a string Go's
    strings.ToLower is the folding of 'A'..'Z' that [strings.ToLower]
    models. *)
Definition only_ascii (s : string) : bool :=
  forallb (fun c => (N_of_ascii c <? 128)%N) (list_ascii_of_string s).

(** ** More sample inputs *)

Module cases.

(** An environment with the gateway's secret, the credentials of both
    providers and a sink. *)
Definition env : Env :=
  {[ "WEBHOOK_SECRET" := sample.secret;
     "GITHUB_APP_ID" := "12345";
     "GITHUB_PRIVATE_KEY" := "key";
     "BITBUCKET_USERNAME" := "bot";
     "BITBUCKET_APP_PASSWORD" := "app-password";
     "PLATFORM_BE_URL" := sample.sink ]}.

(** The bytes up to the first line feed, and those after it. *)
Fixpoint cut_line (b : bytes) : option (bytes * bytes) :=
  match b with
  | [] => None
  | x :: rest =>
      if hmac.eq_bytes [x] (to_bytes newline) then Some ([], rest)
      else match cut_line rest with
           | Some (line, after) => Some (x :: line, after)
           | None => None
           end
  end.

(** A stand-in for encoding/json on RawWebhookMessage that decodes what it
    encodes: platform and event type on a line each, then the payload. *)
Definition json_raw : JSON RawWebhookMessage := {|
  Marshal m :=
    Ok (to_bytes (msg_Platform m ++ newline ++ msg_EventType m ++ newline)
        ++ msg_Payload m);
  Unmarshal b :=
    match cut_line b with
    | None => Err (errorString "unexpected end of JSON input")
    | Some (platform, after) =>
        match cut_line after with
        | None => Err (errorString "unexpected end of JSON input")
        | Some (eventType, payload) =>
            Ok {| msg_Platform := of_bytes platform;
                  msg_EventType := of_bytes eventType;
                  msg_Payload := payload |}
        end
    end
|}.

(** What the gateway queues for [sample.pr_request], and its delivery. *)
Definition queued_pr : bytes :=
  to_bytes ("github" ++ newline ++ "pull_request" ++ newline ++ "{}").

Definition raw_delivery : Delivery :=
  {| DeliveryTag := 1%N; d_Body := queued_pr |}.

(** The Bitbucket adapter of [sample.bitbucket], and the event it returns
    for a merged pull request. *)
Definition bitbucket_adapter : BitbucketAdapter.t :=
  {| BitbucketAdapter.username := "bot";
     BitbucketAdapter.appPassword := "app-password";
     BitbucketAdapter.baseURL := "https://api.bitbucket.org/2.0" |}.

Definition merged : NormalizedEvent :=
  match result_of (sample.world 200 []) []
          (BitbucketAdapter.NormalizeEvent
             (JBb := @json_bbWebhookPayload sample.json_adapter)
             (JDiffstat := @json_bbDiffstatResponse sample.json_adapter)
             bitbucket_adapter "pullrequest:fulfilled" sample.body) with
  | inl ev => ev
  | inr _ => sample.event
  end.

(** Stand-ins for encoding/json on the pull request responses: whatever
    the body, the pull request of [sample.gh_payload] or of
    [sample.bb_payload]. *)
Definition json_details : DetailsJSON := {|
  json_ghPRResponse :=
    {| Marshal _ := Ok [];
       Unmarshal _ :=
         Ok {| ghpr_Number := 42; ghpr_Title := "Add parser"; ghpr_Body := "";
               ghpr_State := "open";
               ghpr_HTMLURL := "https://github.com/acme/app/pull/42";
               ghpr_User_Login := "octocat"; ghpr_Head_Ref := "parser";
               ghpr_Base_Ref := "main" |} |};
  json_bbPRResponse :=
    {| Marshal _ := Ok [];
       Unmarshal _ :=
         Ok {| bbpr_ID := 42; bbpr_Title := "Add parser";
               bbpr_Description := ""; bbpr_State := "OPEN";
               bbpr_Author_Nickname := "alice";
               bbpr_Author_DisplayName := "Alice";
               bbpr_Source_Branch_Name := "parser";
               bbpr_Destination_Branch_Name := "main";
               bbpr_Links_HTML_Href :=
                 "https://bitbucket.org/acme/app/pull-requests/42" |} |}
|}.

(** A stand-in for encoding/json on the endpoint's answer: the counts. *)
Definition json_summary : JSON PRFilesSummary := {|
  Marshal s :=
    Ok (to_bytes (fmt.itoa (s_total_files s) ++ " files, +"
                  ++ fmt.itoa (s_total_additions s) ++ " -"
                  ++ fmt.itoa (s_total_deletions s)));
  Unmarshal _ := Err (errorString "unexpected end of JSON input")
|}.

(** The query [owner=acme&repo=app&pr=42]. *)
Definition pr_query : url.Values :=
  {[ "owner" := ["acme"]; "repo" := ["app"]; "pr" := ["42"] ]}.

(** A repository with a directory, a file and a link at its root, and
    one file in the directory. The world answers a request with its URL, and
    the stand-in for encoding/json decodes a listing from that. *)
Definition entry (path type : string) : RepositoryContent :=
  {| c_Name := path; c_Path := path; c_Type := type; c_Size := 0;
     c_URL := ""; c_DownloadURL := "" |}.

Definition json_contents : JSON (list RepositoryContent) := {|
  Marshal _ := Ok [];
  Unmarshal :=
    sample.decode
      [("https://api.github.com/repos/acme/app/contents/",
        [entry "src" "dir"; entry "README.md" "file"; entry "latest" "symlink"]);
       ("https://api.github.com/repos/acme/app/contents/src",
        [entry "src/main.go" "file"])]
      []
|}.

Definition listing_world : World :=
  fun h X e =>
    match e in IO X return X with
    | ClientDo req =>
        Ok {| http.StatusCode := 200;
              http.resp_Body := (to_bytes (http.req_URL req), None) |}
    | e' => sample.world 200 [] h _ e'
    end.

Definition empty_tree : FileTreeResult :=
  {| TotalFiles := 0; TotalDirs := 0; tree_Files := []; tree_Dirs := [];
     AllPaths := [] |}.

Definition listed_tree : FileTreeResult :=
  {| TotalFiles := 2; TotalDirs := 1;
     tree_Files := ["src/main.go"; "README.md"];
     tree_Dirs := ["src"];
     AllPaths := ["src"; "src/main.go"; "README.md"; "latest"] |}.

(** A stand-in for encoding/json on the answer of the repository
    endpoint: the sorted files, one per line. *)
Definition json_repository : JSON RepositoryFilesSummary := {|
  Marshal s := Ok (to_bytes (foldr (fun f acc => f ++ newline ++ acc)%string
                               "" (rs_files s)));
  Unmarshal _ := Err (errorString "unexpected end of JSON input")
|}.

(** The query [owner=acme&repo=app]. *)
Definition repo_query : url.Values :=
  {[ "owner" := ["acme"]; "repo" := ["app"] ]}.

End cases.

(** The calls of one run of processRawEvent. *)
Definition processing_call (mq : RabbitMQ) (X : Type) (e : IO X) (x : X) : Prop :=
  adapter_call X e x
  \/ persistent_publish (pubCh mq) normalizedEventsQueue X e x.

(** What a consumer of [queue] sends back for the deliveries of one run:
    nothing when the channel or the registration fails, and else one answer
    per delivery, in the order of arrival. *)
Definition settlements (A : Type) {JA : JSON A} (w : World) (h : Trace)
    (queue : string) : list (Delivery + Delivery * bool) :=
  match w h _ ConnChannel with
  | inr _ => []
  | inl ch =>
      match w (h ++ [Ev ConnChannel (inl ch)]) _ (consume_call ch queue) with
      | inr _ => []
      | inl ds => map (settled A) ds
      end
  end.

(** The channels a consumer opens in one run. *)
Definition opened (w : World) (h : Trace) : list Channel :=
  match w h _ ConnChannel with
  | inr _ => []
  | inl ch => [ch]
  end.

(** ** More tactics *)

(** What a program waits for: the scrutinee of the case distinction at its
    head, below any number of binds. *)
Ltac scrutinee p :=
  lazymatch p with
  | bind ?m _ => scrutinee m
  | match ?x with _ => _ end => x
  end.

(** Walk through a program, one call or case at a time. *)
Ltac sat_walk :=
  repeat (cbn [bind call];
          match goal with
          | |- satisfies _ _ (Ret _) => apply sat_Ret
          | |- satisfies _ _ (Vis _ _) => apply sat_Vis; intros ?
          | |- satisfies _ _ ?p => let x := scrutinee p in destruct x eqn:?
          end).

(** The deliveries acknowledged positively, in order. *)
Definition acknowledged (t : Trace) : list Delivery :=
  omap (fun a => match a with
                 | inl d => Some d
                 | inr _ => None
                 end) (acknowledgements t).

(** The deliveries a consumer of [queue] receives in one run. *)
Definition deliveries_of (w : World) (h : Trace) (queue : string)
  : list Delivery :=
  match w h _ ConnChannel with
  | inr _ => []
  | inl ch =>
      match w (h ++ [Ev ConnChannel (inl ch)]) _ (consume_call ch queue) with
      | inr _ => []
      | inl ds => ds
      end
  end.

(** The request the event bus makes for one delivery, if any. *)
Definition post_of {JEvent : JSON NormalizedEvent} (url : string) (d : Delivery)
  : option http.ClientRequest :=
  if (url =? "")%string then None
  else match Unmarshal (A := NormalizedEvent) (d_Body d) with
       | inr _ => None
       | inl event =>
           match Marshal event with
           | inr _ => None
           | inl body => Some (post_json url body)
           end
       end.

(** Run a program against a world, one answer at a time. *)
Ltac run_walk w :=
  repeat (cbn [bind call run fst snd Ok Err];
          match goal with
          | |- context [run _ _ ?p] => let x := scrutinee p in destruct x eqn:?
          | |- context [w ?h unit ?e] => destruct (w h unit e)
          end).

(** Count the calls of a class along every path of a program. *)
Ltac budget_walk :=
  repeat (cbn [bind call];
          match goal with
          | |- call_budget _ _ (Ret _) => apply budget_Ret
          | |- call_budget _ _ (Vis _ _) =>
              first [ apply budget_Vis; [reflexivity | intros ?]
                    | apply budget_Do; [reflexivity | intros ?] ]
          | |- call_budget _ _ ?p => let x := scrutinee p in destruct x eqn:?
          end).

(** Open NormalizeEvent down to the calls it makes. *)
Ltac adapter_paths :=
  cbn [Adapter.NormalizeEvent];
  unfold GitHubAdapter.NormalizeEvent, GitHubAdapter.GetPRFiles,
    GitHubAdapter.token, getPRChangedFiles, makeAuthenticatedRequest,
    BitbucketAdapter.NormalizeEvent, BitbucketAdapter.GetPRFiles,
    BitbucketAdapter.request.

(** * Properties *)

(** ** Test vectors for the library models *)

Example sha256_abc :
  hex.EncodeToString (sha256.Sum256 (to_bytes "abc"))
  = "ba7816bf8f01cfea414140de5dae2223b00361a396177a9cb410ff61f20015ad".
Proof. vm_compute. reflexivity. Qed.

Example hmac_rfc4231_case2 :
  hex.EncodeToString
    (hmac.SumSHA256 (to_bytes "Jefe") (to_bytes "what do ya want for nothing?"))
  = "5bdcc146bf60754e6a042426089575c75a003f089d2739839dec58b964ec3843".
Proof. vm_compute. reflexivity. Qed.

Example canonical_keys :
  map http.CanonicalMIMEHeaderKey
      ["X-GitHub-Event"; "X-Event-Key"; "X-Hub-Signature-256"; "x-hub-signature"]
  = ["X-Github-Event"; "X-Event-Key"; "X-Hub-Signature-256"; "X-Hub-Signature"].
Proof. reflexivity. Qed.

(** ** Running programs *)

Lemma run_bind {A B : Type} (w : World) (m : Prog A) (f : A -> Prog B) :
  forall h : Trace,
    run w h (bind m f)
    = let '(a, t1) := run w h m in
      let '(b, t2) := run w (h ++ t1) (f a) in
      (b, t1 ++ t2).
Proof.
  induction m as [a | X e k IH]; intros h; simpl.
  - rewrite app_nil_r. destruct (run w h (f a)); reflexivity.
  - rewrite IH. destruct (run w (h ++ [Ev e (w h X e)]) (k (w h X e))) as [a t1].
    rewrite <- app_assoc. simpl.
    destruct (run w (h ++ Ev e (w h X e) :: t1) (f a)); reflexivity.
Qed.

Lemma run_call {X : Type} (w : World) (h : Trace) (e : IO X) :
  run w h (call e) = (w h X e, [Ev e (w h X e)]).
Proof. reflexivity. Qed.

Lemma run_seq {X B : Type} (w : World) (h : Trace) (e : IO X) (f : X -> Prog B) :
  run w h (bind (call e) f)
  = let x := w h X e in
    let '(b, t) := run w (h ++ [Ev e x]) (f x) in (b, Ev e x :: t).
Proof. reflexivity. Qed.

Lemma trace_of_bind {A B : Type} (w : World) (h : Trace) (m : Prog A) (f : A -> Prog B) :
  trace_of w h (bind m f)
  = trace_of w h m ++ trace_of w (h ++ trace_of w h m) (f (result_of w h m)).
Proof.
  unfold trace_of, result_of. rewrite run_bind.
  destruct (run w h m) as [a t1]; simpl.
  destruct (run w (h ++ t1) (f a)); reflexivity.
Qed.

Lemma result_of_bind {A B : Type} (w : World) (h : Trace) (m : Prog A) (f : A -> Prog B) :
  result_of w h (bind m f)
  = result_of w (h ++ trace_of w h m) (f (result_of w h m)).
Proof.
  unfold trace_of, result_of. rewrite run_bind.
  destruct (run w h m) as [a t1]; simpl.
  destruct (run w (h ++ t1) (f a)); reflexivity.
Qed.

Lemma trace_of_seq {X B : Type} (w : World) (h : Trace) (e : IO X) (f : X -> Prog B) :
  trace_of w h (bind (call e) f)
  = Ev e (w h X e) :: trace_of w (h ++ [Ev e (w h X e)]) (f (w h X e)).
Proof.
  unfold trace_of. rewrite run_seq. cbv zeta.
  destruct (run w (h ++ [Ev e (w h X e)]) (f (w h X e))); reflexivity.
Qed.

Lemma result_of_seq {X B : Type} (w : World) (h : Trace) (e : IO X) (f : X -> Prog B) :
  result_of w h (bind (call e) f)
  = result_of w (h ++ [Ev e (w h X e)]) (f (w h X e)).
Proof.
  unfold result_of. rewrite run_seq. cbv zeta.
  destruct (run w (h ++ [Ev e (w h X e)]) (f (w h X e))); reflexivity.
Qed.

Lemma trace_of_Ret {A : Type} (w : World) (h : Trace) (a : A) :
  trace_of w h (Ret a) = [].
Proof. reflexivity. Qed.

Lemma result_of_Ret {A : Type} (w : World) (h : Trace) (a : A) :
  result_of w h (Ret a) = a.
Proof. reflexivity. Qed.

(** ** Strings and digests *)

Lemma eq_bytes_eq (x y : bytes) : hmac.eq_bytes x y = true <-> x = y.
Proof.
  revert y; induction x as [| a x IH]; intros [| b y]; simpl; split;
    try congruence; try reflexivity.
  - intros E. apply andb_prop in E as [E1 E2].
    apply Byte.byte_dec_bl in E1. apply IH in E2. congruence.
  - intros E. injection E as -> ->.
    rewrite (Byte.byte_dec_lb eq_refl). simpl. apply IH. reflexivity.
Qed.

Lemma to_bytes_inj (s1 s2 : string) : to_bytes s1 = to_bytes s2 -> s1 = s2.
Proof.
  unfold to_bytes. intros E.
  rewrite <- (string_of_list_byte_of_string s1),
          <- (string_of_list_byte_of_string s2), E.
  reflexivity.
Qed.

Lemma Equal_to_bytes (s1 s2 : string) :
  hmac.Equal (to_bytes s1) (to_bytes s2) = true <-> s1 = s2.
Proof.
  unfold hmac.Equal. rewrite eq_bytes_eq. split.
  - apply to_bytes_inj.
  - congruence.
Qed.

Lemma append_String (c : ascii) (p s : string) :
  (String c p ++ s)%string = String c (p ++ s).
Proof. reflexivity. Qed.

Lemma HasPrefix_app (p s : string) : strings.HasPrefix (p ++ s) p = true.
Proof.
  induction p as [| c p IH]; simpl.
  - destruct s; reflexivity.
  - rewrite Ascii.eqb_refl. exact IH.
Qed.

Lemma drop_app (p s : string) : strings.drop (String.length p) (p ++ s) = s.
Proof. induction p as [| c p IH]; simpl; [destruct s; reflexivity | exact IH]. Qed.

Lemma HasPrefix_split (p s : string) :
  strings.HasPrefix s p = true -> s = (p ++ strings.drop (String.length p) s)%string.
Proof.
  revert s; induction p as [| c p IH]; intros s; simpl.
  - reflexivity.
  - destruct s as [| d s]; [discriminate |].
    intros E. apply andb_prop in E as [E1 E2].
    apply Ascii.eqb_eq in E1. subst d. rewrite append_String. f_equal.
    apply IH, E2.
Qed.

(** A hex string never starts with the scheme prefix: its first character is
    a hex digit. *)
Lemma hex_no_scheme (b : bytes) :
  strings.HasPrefix (hex.EncodeToString b) "sha256=" = false.
Proof. destruct b as [| x b]; [reflexivity |]. destruct x; reflexivity. Qed.

Lemma hex_empty (b : bytes) : hex.EncodeToString b = "" -> b = [].
Proof. destruct b; [reflexivity | discriminate]. Qed.

Lemma round_length (st : list Z) (kw : Z * Z) :
  length (sha256.round st kw) = length st.
Proof.
  unfold sha256.round.
  do 9 (try (destruct st as [| ? st]; [reflexivity |])). reflexivity.
Qed.

Lemma block_length (st blk : list Z) :
  length (sha256.block st blk) = length st.
Proof.
  unfold sha256.block.
  rewrite length_map, length_combine.
  assert (E : forall l s, length (fold_left sha256.round l s) = length s).
  { induction l as [| kw l IH]; intros s; simpl; [reflexivity |].
    rewrite IH. apply round_length. }
  rewrite E. apply Nat.min_id.
Qed.

Lemma blocks_length (n : nat) : forall st ws : list Z,
  length (sha256.blocks n st ws) = length st.
Proof.
  induction n as [| n IH]; intros st ws; simpl; [reflexivity |].
  rewrite IH. apply block_length.
Qed.

(** A SHA-256 digest has 32 bytes. *)
Lemma Sum256_length (msg : bytes) : length (sha256.Sum256 msg) = 32%nat.
Proof.
  unfold sha256.Sum256. rewrite length_map.
  set (st := sha256.blocks _ _ _).
  assert (L : length st = 8%nat) by (unfold st; rewrite blocks_length; reflexivity).
  do 9 (destruct st as [| ? st]; try discriminate L). reflexivity.
Qed.

Lemma expected_signature_nonempty (secret : string) (body : bytes) :
  expected_signature secret body <> "".
Proof.
  unfold expected_signature. intros E. apply hex_empty in E.
  pose proof (Sum256_length
                (hmac.xor_pad 92
                   (let k := if (sha256.BlockSize <? length (to_bytes secret))%nat
                             then sha256.Sum256 (to_bytes secret) else to_bytes secret in
                    k ++ repeat x00 (sha256.BlockSize - length k))
                 ++ sha256.Sum256
                      (hmac.xor_pad 54
                         (let k := if (sha256.BlockSize <? length (to_bytes secret))%nat
                                   then sha256.Sum256 (to_bytes secret) else to_bytes secret in
                          k ++ repeat x00 (sha256.BlockSize - length k)) ++ body))) as L.
  unfold hmac.SumSHA256 in E. simpl in E, L. rewrite E in L. discriminate L.
Qed.

(** verifyWebhookSignature accepts exactly the matching signatures. *)
Lemma verifyWebhookSignature_spec (body : bytes) (signature secret : string) :
  verifyWebhookSignature body signature secret = true
  <-> signature_matches body signature secret.
Proof.
  unfold verifyWebhookSignature, signature_matches.
  fold (expected_signature secret body).
  destruct (strings.HasPrefix signature "sha256=") eqn:P.
  - rewrite Equal_to_bytes. split.
    + intros E. right. rewrite E. apply (HasPrefix_split "sha256="), P.
    + intros [E | E].
      * rewrite E in P. unfold expected_signature in P.
        rewrite hex_no_scheme in P. discriminate.
      * rewrite E. symmetry. apply (drop_app "sha256=").
  - rewrite Equal_to_bytes. split.
    + intros E. left. congruence.
    + intros [E | E]; [congruence |].
      rewrite E, HasPrefix_app in P. discriminate.
Qed.

(** ** The webhook gateway *)

Section Gateway.

Context {JRaw : JSON RawWebhookMessage}.

Lemma http_Error_trace (w : World) (h : Trace) (msg : string) (code : Z) :
  trace_of w h (http_Error msg code)
  = [Ev (WriteHeader code) tt; Ev (Write (to_bytes (msg ++ newline))) tt].
Proof. unfold trace_of, http_Error; simpl. unit_answers w. reflexivity. Qed.

Lemma PublishRawEvent_trace (w : World) (h : Trace) (q : RabbitMQ)
    (m : RawWebhookMessage) :
  trace_of w h (PublishRawEvent q m)
  = match Marshal m with
    | inr _ => []
    | inl payload =>
        let p := {| ContentType := "application/json";
                    DeliveryMode := amqp_Persistent;
                    pub_Body := payload |} in
        let e := PublishWithContext (pubCh q) "" rawEventsQueue false false p in
        [Ev e (w h _ e)]
    end.
Proof.
  unfold trace_of, PublishRawEvent.
  destruct (Marshal m) as [payload | err]; simpl; [| reflexivity].
  destruct (w h _ _); reflexivity.
Qed.

(** Past the signature check the handler is: acknowledge, filter, publish. *)
Lemma WebhookHandler_accepted (env : Env) (mq : option RabbitMQ)
    (r : http.Request) (body : bytes) :
  http.req_Body r = Ok body ->
  Getenv env "WEBHOOK_SECRET" <> "" ->
  signature_matches body (request_signature r) (Getenv env "WEBHOOK_SECRET") ->
  WebhookHandler env mq r
  = (call (WriteHeader http.StatusOK) ;;;
     call (Write (to_bytes "received")) ;;;
     if negb (isPREvent (request_eventType r)) then Ret tt
     else match mq with
          | None => Ret tt
          | Some q => _ <- PublishRawEvent q (raw_message r body) ;; Ret tt
          end).
Proof.
  intros B S M. unfold WebhookHandler. rewrite B. unfold Ok.
  apply String.eqb_neq in S. rewrite S.
  assert (N : (request_signature r =? "")%string = false).
  { apply String.eqb_neq. intros E. rewrite E in M.
    destruct M as [M | M]; [| discriminate M].
    symmetry in M. revert M. apply expected_signature_nonempty. }
  rewrite N. apply verifyWebhookSignature_spec in M. rewrite M. reflexivity.
Qed.

Lemma accepted_trace (w : World) (h : Trace) (env : Env) (mq : option RabbitMQ)
    (r : http.Request) (body : bytes) :
  http.req_Body r = Ok body ->
  Getenv env "WEBHOOK_SECRET" <> "" ->
  signature_matches body (request_signature r) (Getenv env "WEBHOOK_SECRET") ->
  trace_of w h (WebhookHandler env mq r)
  = let ack := [Ev (WriteHeader http.StatusOK) tt;
                Ev (Write (to_bytes "received")) tt] in
    ack ++ (if isPREvent (request_eventType r)
            then match mq with
                 | None => []
                 | Some q =>
                     trace_of w (h ++ ack) (PublishRawEvent q (raw_message r body))
                 end
            else []).
Proof.
  intros B S M. rewrite (WebhookHandler_accepted env mq r body B S M).
  rewrite !trace_of_seq. unit_answers w. cbv zeta.
  rewrite <- app_assoc. simpl app.
  destruct (isPREvent (request_eventType r)); simpl; [| reflexivity].
  destruct mq as [q |]; [| reflexivity].
  rewrite trace_of_bind, trace_of_Ret, app_nil_r. reflexivity.
Qed.

(** Whatever the request, the handler writes one status and one body, and
    after a 200 at most one publish call follows. *)
Lemma WebhookHandler_trace_shape (w : World) (h : Trace) (env : Env)
    (mq : option RabbitMQ) (r : http.Request) :
  let t := trace_of w h (WebhookHandler env mq r) in
  (exists code data, t = [Ev (WriteHeader code) tt; Ev (Write data) tt])
  \/ (exists ch msg answer,
        t = [Ev (WriteHeader http.StatusOK) tt;
             Ev (Write (to_bytes "received")) tt;
             Ev (PublishWithContext ch "" rawEventsQueue false false msg) answer]).
Proof.
  cbv zeta.
  destruct (http.req_Body r) as [body | err] eqn:B.
  2:{ left. unfold WebhookHandler. rewrite B, http_Error_trace. eauto. }
  destruct (Getenv env "WEBHOOK_SECRET" =? "")%string eqn:S.
  { left. unfold WebhookHandler. rewrite B, S, http_Error_trace. eauto. }
  destruct (request_signature r =? "")%string eqn:N.
  { left. unfold WebhookHandler. rewrite B, S, N, http_Error_trace. eauto. }
  destruct (verifyWebhookSignature body (request_signature r)
              (Getenv env "WEBHOOK_SECRET")) eqn:V.
  2:{ left. unfold WebhookHandler. rewrite B, S, N, V. simpl negb. cbv iota.
      rewrite http_Error_trace. eauto. }
  apply String.eqb_neq in S. apply verifyWebhookSignature_spec in V.
  rewrite (accepted_trace w h env mq r body B S V). cbv zeta.
  destruct (isPREvent (request_eventType r)); [| left; simpl; eauto].
  destruct mq as [q |]; [| left; simpl; eauto].
  rewrite PublishRawEvent_trace.
  destruct (Marshal (raw_message r body)) as [payload | err];
    [| left; simpl; eauto].
  right. simpl. eauto.
Qed.

(** C1, as amended. A request whose signature header matches the
    HMAC-SHA256 of its body under the configured secret is answered with
    status 200 and the body "received". It leads to a publish call only when
    its event type is "pull_request" or starts with "pullrequest:" and the
    queue client is initialised: then exactly one message is sent to the raw
    events queue, the encoding of the RawWebhookMessage whose payload is the
    request body, and it is on the queue when the broker accepts it. In all
    other cases nothing is published. *)
Theorem gateway_valid_signature (w : World) (h : Trace) (env : Env)
    (mq : option RabbitMQ) (r : http.Request) (body : bytes) :
  http.req_Body r = Ok body ->
  Getenv env "WEBHOOK_SECRET" <> "" ->
  signature_matches body (request_signature r) (Getenv env "WEBHOOK_SECRET") ->
  let t := trace_of w h (WebhookHandler env mq r) in
  statuses t = [http.StatusOK]
  /\ bodies t = [to_bytes "received"]
  /\ msg_Payload (raw_message r body) = body
  /\ match mq, Marshal (raw_message r body) with
     | Some q, inl payload =>
         if isPREvent (request_eventType r) then
           exists answer : option error,
             publish_calls t
             = [(rawEventsQueue,
                 {| ContentType := "application/json";
                    DeliveryMode := amqp_Persistent;
                    pub_Body := payload |},
                 answer)]
             /\ queued rawEventsQueue t
                = match answer with None => [payload] | Some _ => [] end
         else publish_calls t = []
     | _, _ => publish_calls t = []
     end.
Proof.
  intros B S M. cbv zeta.
  rewrite (accepted_trace w h env mq r body B S M). cbv zeta.
  repeat split.
  - destruct (isPREvent _); [| reflexivity].
    destruct mq as [q |]; [| reflexivity].
    rewrite PublishRawEvent_trace. destruct (Marshal _); reflexivity.
  - destruct (isPREvent _); [| reflexivity].
    destruct mq as [q |]; [| reflexivity].
    rewrite PublishRawEvent_trace. destruct (Marshal _); reflexivity.
  - destruct mq as [q |].
    + rewrite PublishRawEvent_trace.
      destruct (Marshal (raw_message r body)) as [payload | err].
      * destruct (isPREvent _); [| reflexivity].
        eexists. split; [reflexivity |].
        unfold queued. simpl. destruct (w _ _ _); reflexivity.
      * destruct (isPREvent _); reflexivity.
    + destruct (isPREvent _); reflexivity.
Qed.

(** C2. A request whose supplied signature does not match the HMAC-SHA256 of
    the body under the configured secret is answered 401, and no publish call
    is made on any queue. *)
Theorem gateway_invalid_signature (w : World) (h : Trace) (env : Env)
    (mq : option RabbitMQ) (r : http.Request) (body : bytes) :
  http.req_Body r = Ok body ->
  Getenv env "WEBHOOK_SECRET" <> "" ->
  request_signature r <> "" ->
  ~ signature_matches body (request_signature r) (Getenv env "WEBHOOK_SECRET") ->
  let t := trace_of w h (WebhookHandler env mq r) in
  t = [Ev (WriteHeader http.StatusUnauthorized) tt;
       Ev (Write (to_bytes ("invalid signature" ++ newline))) tt]
  /\ statuses t = [http.StatusUnauthorized]
  /\ publish_calls t = [].
Proof.
  intros B S N M. cbv zeta.
  assert (T : trace_of w h (WebhookHandler env mq r)
              = [Ev (WriteHeader http.StatusUnauthorized) tt;
                 Ev (Write (to_bytes ("invalid signature" ++ newline))) tt]).
  { unfold WebhookHandler. rewrite B. unfold Ok.
    apply String.eqb_neq in S, N. rewrite S, N.
    destruct (verifyWebhookSignature body (request_signature r)
                (Getenv env "WEBHOOK_SECRET")) eqn:V.
    - apply verifyWebhookSignature_spec in V. contradiction.
    - simpl negb. cbv iota. apply http_Error_trace. }
  rewrite T. repeat split.
Qed.

(** The order of the handler's calls: in every run, a call to the queue
    comes after the calls that write the 200 status and the body "received",
    and nothing else precedes or follows it. *)
Theorem gateway_acknowledges_before_publishing (w : World) (h : Trace)
    (env : Env) (mq : option RabbitMQ) (r : http.Request)
    (before after : Trace) (ev : Event) :
  trace_of w h (WebhookHandler env mq r) = before ++ ev :: after ->
  publish_call ev <> None ->
  before = [Ev (WriteHeader http.StatusOK) tt;
            Ev (Write (to_bytes "received")) tt]
  /\ publish_calls before = []
  /\ after = [].
Proof.
  intros T P.
  destruct (WebhookHandler_trace_shape w h env mq r) as
    [(code & data & E) | (ch & msg & answer & E)];
    rewrite E in T; clear E.
  - destruct before as [| e1 [| e2 [| e3 before]]]; simpl in T.
    + injection T as <- _. contradiction P; reflexivity.
    + injection T as _ <- _. contradiction P; reflexivity.
    + injection T as _ _ T. discriminate T.
    + injection T as _ _ T. discriminate T.
  - destruct before as [| e1 [| e2 [| e3 [| e4 before]]]]; simpl in T.
    + injection T as <- _. contradiction P; reflexivity.
    + injection T as _ <- _. contradiction P; reflexivity.
    + injection T as <- <- _ <-. repeat split.
    + injection T as _ _ _ T. discriminate T.
    + injection T as _ _ _ T. discriminate T.
Qed.

End Gateway.

(** A signed pull-request delivery: acknowledged, and published once. *)
Lemma gateway_valid_signature_witness :
  (http.req_Body sample.pr_request = Ok sample.body
   /\ Getenv sample.env "WEBHOOK_SECRET" <> ""
   /\ signature_matches sample.body (request_signature sample.pr_request)
        (Getenv sample.env "WEBHOOK_SECRET"))
  /\ statuses (trace_of (sample.world 200 []) []
                 (WebhookHandler (JRaw := sample.json_raw) sample.env
                    (Some sample.mq) sample.pr_request))
     = [http.StatusOK]
  /\ bodies (trace_of (sample.world 200 []) []
               (WebhookHandler (JRaw := sample.json_raw) sample.env
                  (Some sample.mq) sample.pr_request))
     = [to_bytes "received"].
Proof.
  assert (B : http.req_Body sample.pr_request = Ok sample.body) by reflexivity.
  assert (S : Getenv sample.env "WEBHOOK_SECRET" <> "")
    by (vm_compute; discriminate).
  assert (M : signature_matches sample.body (request_signature sample.pr_request)
                (Getenv sample.env "WEBHOOK_SECRET"))
    by (right; vm_compute; reflexivity).
  split; [auto |].
  destruct (gateway_valid_signature (JRaw := sample.json_raw)
              (sample.world 200 []) [] sample.env (Some sample.mq)
              sample.pr_request sample.body B S M) as (T1 & T2 & _).
  split; assumption.
Defined.

(** C1 as stated fails: a push event with a valid signature is answered 200
    and nothing reaches the raw queue. *)
Lemma gateway_push_event_not_published :
  signature_matches sample.body (request_signature sample.push_request)
    (Getenv sample.env "WEBHOOK_SECRET")
  /\ statuses (trace_of (sample.world 200 []) []
                 (WebhookHandler (JRaw := sample.json_raw) sample.env
                    (Some sample.mq) sample.push_request))
     = [http.StatusOK]
  /\ ~ published_once (JRaw := sample.json_raw)
         (trace_of (sample.world 200 []) []
            (WebhookHandler (JRaw := sample.json_raw) sample.env
               (Some sample.mq) sample.push_request))
         sample.body.
Proof.
  split; [left; vm_compute; reflexivity |].
  split; [vm_compute; reflexivity |].
  intros (m & payload & _ & _ & Q). vm_compute in Q. discriminate Q.
Defined.

(** A forged signature: 401 and no publish call. *)
Lemma gateway_invalid_signature_witness :
  (http.req_Body sample.forged_request = Ok sample.body
   /\ Getenv sample.env "WEBHOOK_SECRET" <> ""
   /\ request_signature sample.forged_request <> ""
   /\ ~ signature_matches sample.body (request_signature sample.forged_request)
          (Getenv sample.env "WEBHOOK_SECRET"))
  /\ statuses (trace_of (sample.world 200 []) []
                 (WebhookHandler (JRaw := sample.json_raw) sample.env
                    (Some sample.mq) sample.forged_request))
     = [http.StatusUnauthorized]
  /\ publish_calls (trace_of (sample.world 200 []) []
                      (WebhookHandler (JRaw := sample.json_raw) sample.env
                         (Some sample.mq) sample.forged_request))
     = [].
Proof.
  assert (B : http.req_Body sample.forged_request = Ok sample.body) by reflexivity.
  assert (S : Getenv sample.env "WEBHOOK_SECRET" <> "")
    by (vm_compute; discriminate).
  assert (N : request_signature sample.forged_request <> "")
    by (vm_compute; discriminate).
  assert (M : ~ signature_matches sample.body
                  (request_signature sample.forged_request)
                  (Getenv sample.env "WEBHOOK_SECRET")).
  { intros [E | E]; vm_compute in E; discriminate E. }
  split; [auto |].
  destruct (gateway_invalid_signature (JRaw := sample.json_raw)
              (sample.world 200 []) [] sample.env (Some sample.mq)
              sample.forged_request sample.body B S N M) as (_ & T1 & T2).
  split; assumption.
Defined.

(** The publish call of a signed pull-request delivery comes third. *)
Lemma gateway_acknowledges_before_publishing_witness :
  (trace_of (sample.world 200 []) []
     (WebhookHandler (JRaw := sample.json_raw) sample.env (Some sample.mq)
        sample.pr_request)
   = [Ev (WriteHeader http.StatusOK) tt; Ev (Write (to_bytes "received")) tt]
     ++ Ev (PublishWithContext 1%N "" rawEventsQueue false false
              sample.pr_publishing) None :: []
   /\ publish_call (Ev (PublishWithContext 1%N "" rawEventsQueue false false
                          sample.pr_publishing) None) <> None)
  /\ publish_calls [Ev (WriteHeader http.StatusOK) tt;
                    Ev (Write (to_bytes "received")) tt] = [].
Proof.
  assert (T : trace_of (sample.world 200 []) []
                (WebhookHandler (JRaw := sample.json_raw) sample.env
                   (Some sample.mq) sample.pr_request)
              = [Ev (WriteHeader http.StatusOK) tt;
                 Ev (Write (to_bytes "received")) tt]
                ++ Ev (PublishWithContext 1%N "" rawEventsQueue false false
                         sample.pr_publishing) None :: [])
    by (vm_compute; reflexivity).
  assert (P : publish_call (Ev (PublishWithContext 1%N "" rawEventsQueue false
                                  false sample.pr_publishing) None) <> None)
    by (simpl; discriminate).
  split; [auto |].
  destruct (gateway_acknowledges_before_publishing (JRaw := sample.json_raw)
              (sample.world 200 []) [] sample.env (Some sample.mq)
              sample.pr_request _ _ _ T P) as (_ & Q & _).
  exact Q.
Defined.

(** C4. On a signed pull-request delivery, whatever the broker answers, the
    handler makes three calls and then returns: it writes the status 200,
    writes the body "received", and publishes to the raw-events queue, waiting
    for the broker's answer. It flushes nothing and does not hand the
    publishing to a goroutine, so the response, which net/http sends when
    the handler returns, reaches the caller after the publishing and not, as
    the handler's comments and the claim have it, before. *)
Theorem gateway_publishes_before_returning (w : World) (h : Trace) :
  exists answer : option error,
    run w h (WebhookHandler (JRaw := sample.json_raw) sample.env
               (Some sample.mq) sample.pr_request)
    = (tt,
       [Ev (WriteHeader http.StatusOK) tt;
        Ev (Write (to_bytes "received")) tt;
        Ev (PublishWithContext 1%N "" rawEventsQueue false false
              sample.pr_publishing) answer]).
Proof.
  assert (B : http.req_Body sample.pr_request = Ok sample.body) by reflexivity.
  assert (S : Getenv sample.env "WEBHOOK_SECRET" <> "")
    by (vm_compute; discriminate).
  assert (M : signature_matches sample.body (request_signature sample.pr_request)
                (Getenv sample.env "WEBHOOK_SECRET"))
    by (right; vm_compute; reflexivity).
  pose proof (accepted_trace (JRaw := sample.json_raw) w h sample.env
                (Some sample.mq) sample.pr_request sample.body B S M) as T.
  cbv zeta in T.
  assert (P : isPREvent (request_eventType sample.pr_request) = true)
    by (vm_compute; reflexivity).
  rewrite P in T. rewrite PublishRawEvent_trace in T.
  assert (E : Marshal (JSON := sample.json_raw)
                (raw_message sample.pr_request sample.body)
              = inl (pub_Body sample.pr_publishing))
    by (vm_compute; reflexivity).
  rewrite E in T. cbv zeta in T. unfold trace_of in T.
  destruct (run w h _) as [[] t]. cbn [snd] in T. rewrite T. cbn [app].
  eexists. reflexivity.
Qed.

(** ** The platform router *)

Lemma Get_nonempty (h : http.Header) (name : string) :
  http.Get h name <> "" <-> sends_header h name.
Proof.
  unfold http.Get, sends_header.
  destruct (h !! http.CanonicalMIMEHeaderKey name) as [[| v vs] |]; split.
  - intros N. contradiction N; reflexivity.
  - intros (v & vs & E & _). discriminate E.
  - intros N. exists v, vs. split; [reflexivity | exact N].
  - intros (v' & vs' & E & N). injection E as -> ->. exact N.
  - intros N. contradiction N; reflexivity.
  - intros (v & vs & E & _). discriminate E.
Qed.

(** C10, as amended. DetectPlatform is defined on every header map. With
    "present" read as "has a non-empty first value": it returns GitHub
    whenever X-GitHub-Event is present, also next to X-Event-Key; Bitbucket
    exactly when X-Event-Key is present and X-GitHub-Event is not; Unknown
    exactly when neither is. *)
Theorem DetectPlatform_precedence (headers : http.Header) :
  (sends_header headers "X-GitHub-Event" ->
   DetectPlatform headers = PlatformGitHub)
  /\ (DetectPlatform headers = PlatformGitHub
      <-> sends_header headers "X-GitHub-Event")
  /\ (DetectPlatform headers = PlatformBitbucket
      <-> sends_header headers "X-Event-Key"
          /\ ~ sends_header headers "X-GitHub-Event")
  /\ (DetectPlatform headers = PlatformUnknown
      <-> ~ sends_header headers "X-GitHub-Event"
          /\ ~ sends_header headers "X-Event-Key").
Proof.
  rewrite <- !Get_nonempty. unfold DetectPlatform.
  destruct (String.eqb_spec (http.Get headers "X-GitHub-Event") "") as [G | G];
    destruct (String.eqb_spec (http.Get headers "X-Event-Key") "") as [K | K];
    simpl; repeat split; intros; try tauto; try discriminate;
    try reflexivity; try (intros ?; tauto).
Qed.

(** X-GitHub-Event next to X-Event-Key selects GitHub. *)
Lemma DetectPlatform_precedence_witness :
  sends_header sample.both_headers "X-GitHub-Event"
  /\ DetectPlatform sample.both_headers = PlatformGitHub.
Proof.
  assert (S : sends_header sample.both_headers "X-GitHub-Event").
  { exists "pull_request", []. split; [vm_compute; reflexivity | discriminate]. }
  split; [exact S |].
  exact (proj1 (DetectPlatform_precedence sample.both_headers) S).
Defined.

(** C10 as stated fails: a map that contains X-GitHub-Event with an empty
    value, next to X-Event-Key, selects Bitbucket. *)
Lemma DetectPlatform_empty_github_header :
  contains_header sample.empty_github_header "X-GitHub-Event"
  /\ contains_header sample.empty_github_header "X-Event-Key"
  /\ DetectPlatform sample.empty_github_header = PlatformBitbucket
  /\ DetectPlatform sample.empty_github_header <> PlatformGitHub.
Proof.
  split; [exists [""]; vm_compute; reflexivity |].
  split; [exists ["pullrequest:created"]; vm_compute; reflexivity |].
  split; [vm_compute; reflexivity | vm_compute; discriminate].
Defined.

(** ** The consumption loops *)

Section Consume.

Context {A : Type} {JA : JSON A}.

(** What the loop does with one delivery. *)
Lemma range_deliveries_cons (handler : A -> Prog unit) (w : World) (h : Trace)
    (d : Delivery) (rest : list Delivery) :
  trace_of w h (range_deliveries handler (d :: rest))
  = let td := match Unmarshal (d_Body d) with
              | inr _ => [Ev (Nack d false false) tt]
              | inl msg => trace_of w h (handler msg) ++ [Ev (Ack d false) tt]
              end in
    td ++ trace_of w (h ++ td) (range_deliveries handler rest).
Proof.
  cbn [range_deliveries].
  destruct (Unmarshal (d_Body d)) as [msg | err]; cbv zeta.
  - rewrite trace_of_bind, trace_of_seq. unit_answers w.
    rewrite <- !app_assoc. reflexivity.
  - rewrite trace_of_seq. unit_answers w. reflexivity.
Qed.

Lemma range_deliveries_app (handler : A -> Prog unit) (w : World)
    (ds1 ds2 : list Delivery) : forall h : Trace,
  trace_of w h (range_deliveries handler (ds1 ++ ds2))
  = trace_of w h (range_deliveries handler ds1)
    ++ trace_of w (h ++ trace_of w h (range_deliveries handler ds1))
         (range_deliveries handler ds2).
Proof.
  induction ds1 as [| d ds1 IH]; intros h.
  - simpl. rewrite trace_of_Ret, app_nil_r. reflexivity.
  - rewrite <- app_comm_cons, !range_deliveries_cons. cbv zeta.
    rewrite IH, <- !app_assoc. reflexivity.
Qed.

(** The loop at any delivery of the sequence. *)
Lemma range_deliveries_at (handler : A -> Prog unit) (w : World)
    (h : Trace) (earlier : list Delivery) (d : Delivery)
    (later : list Delivery) :
  let t1 := trace_of w h (range_deliveries handler earlier) in
  let td := delivery_steps w (h ++ t1) handler d in
  trace_of w h (range_deliveries handler (earlier ++ d :: later))
  = t1 ++ td ++ trace_of w (h ++ t1 ++ td) (range_deliveries handler later).
Proof.
  cbv zeta. rewrite range_deliveries_app, range_deliveries_cons. cbv zeta.
  unfold delivery_steps. rewrite <- !app_assoc. reflexivity.
Qed.

(** A consumer opens its own channel, registers without auto-ack, runs the
    loop over what is delivered, and closes the channel. *)
Lemma consume_queue_trace (queue : string) (handler : A -> Prog unit)
    (w : World) (h : Trace) :
  trace_of w h (consume_queue queue handler)
  = match w h _ ConnChannel with
    | inr err => [Ev ConnChannel (inr err)]
    | inl ch =>
        let h1 := h ++ [Ev ConnChannel (inl ch)] in
        let c := ChannelConsume ch queue "" false false false false in
        match w h1 _ c with
        | inr err =>
            [Ev ConnChannel (inl ch); Ev c (inr err); Ev (ChannelClose ch) tt]
        | inl ds =>
            [Ev ConnChannel (inl ch); Ev c (inl ds)]
            ++ trace_of w (h1 ++ [Ev c (inl ds)]) (range_deliveries handler ds)
            ++ [Ev (ChannelClose ch) tt]
        end
    end.
Proof.
  unfold consume_queue. rewrite trace_of_seq.
  destruct (w h _ ConnChannel) as [ch | err]; [| reflexivity].
  rewrite trace_of_seq. cbv zeta.
  destruct (w _ _ (ChannelConsume ch queue "" false false false false))
    as [ds | err].
  - rewrite trace_of_bind, trace_of_seq, trace_of_Ret. unit_answers w.
    rewrite <- !app_assoc. reflexivity.
  - rewrite trace_of_seq, trace_of_Ret. unit_answers w. reflexivity.
Qed.

End Consume.

(** A consumer whose channel opens and whose registration succeeds, at any
    delivery [d] of the sequence it receives. *)
Lemma consume_queue_at {A : Type} {JA : JSON A} (queue : string)
    (handler : A -> Prog unit) (w : World) (h : Trace) (ch : Channel)
    (earlier : list Delivery) (d : Delivery) (later : list Delivery) :
  w h _ ConnChannel = Ok ch ->
  w (h ++ [Ev ConnChannel (Ok ch)]) _ (consume_call ch queue)
  = Ok (earlier ++ d :: later) ->
  let opened := [Ev ConnChannel (Ok ch);
                 Ev (consume_call ch queue) (Ok (earlier ++ d :: later))] in
  let before :=
    opened ++ trace_of w (h ++ opened) (range_deliveries handler earlier) in
  let td := delivery_steps w (h ++ before) handler d in
  trace_of w h (consume_queue queue handler)
  = before ++ td
    ++ trace_of w (h ++ before ++ td) (range_deliveries handler later)
    ++ [Ev (ChannelClose ch) tt].
Proof.
  intros C D. cbv zeta. rewrite consume_queue_trace, C. unfold Ok in *.
  cbv zeta. unfold consume_call in *. rewrite D.
  rewrite range_deliveries_at. cbv zeta.
  rewrite <- !app_assoc. reflexivity.
Qed.

(** C5. For ConsumeRawEvents and for ConsumeNormalizedEvents, once the
    consumer is registered, and for every delivery [d] in the sequence it
    receives: when the body of [d] does not decode, [d] is negatively
    acknowledged with requeue disabled; when it decodes, the handler runs to
    its end and [d] is then positively acknowledged. Either way the loop goes
    on with the deliveries that follow, until the channel closes. *)
Theorem consume_ack_after_handler
    {JRaw : JSON RawWebhookMessage} {JEvent : JSON NormalizedEvent}
    (w : World) (h : Trace) (mq : RabbitMQ) (ch : Channel)
    (earlier : list Delivery) (d : Delivery) (later : list Delivery) :
  w h _ ConnChannel = Ok ch ->
  (forall handler : RawWebhookMessage -> Prog unit,
     w (h ++ [Ev ConnChannel (Ok ch)]) _ (consume_call ch rawEventsQueue)
     = Ok (earlier ++ d :: later) ->
     let opened := [Ev ConnChannel (Ok ch);
                    Ev (consume_call ch rawEventsQueue)
                       (Ok (earlier ++ d :: later))] in
     let before :=
       opened ++ trace_of w (h ++ opened) (range_deliveries handler earlier) in
     let td := match Unmarshal (d_Body d) with
               | inr _ => [Ev (Nack d false false) tt]
               | inl msg =>
                   trace_of w (h ++ before) (handler msg)
                   ++ [Ev (Ack d false) tt]
               end in
     trace_of w h (ConsumeRawEvents mq handler)
     = before ++ td
       ++ trace_of w (h ++ before ++ td) (range_deliveries handler later)
       ++ [Ev (ChannelClose ch) tt])
  /\ (forall handler : NormalizedEvent -> Prog unit,
        w (h ++ [Ev ConnChannel (Ok ch)]) _
          (consume_call ch normalizedEventsQueue)
        = Ok (earlier ++ d :: later) ->
        let opened := [Ev ConnChannel (Ok ch);
                       Ev (consume_call ch normalizedEventsQueue)
                          (Ok (earlier ++ d :: later))] in
        let before :=
          opened ++ trace_of w (h ++ opened) (range_deliveries handler earlier) in
        let td := match Unmarshal (d_Body d) with
                  | inr _ => [Ev (Nack d false false) tt]
                  | inl event =>
                      trace_of w (h ++ before) (handler event)
                      ++ [Ev (Ack d false) tt]
                  end in
        trace_of w h (ConsumeNormalizedEvents mq handler)
        = before ++ td
          ++ trace_of w (h ++ before ++ td) (range_deliveries handler later)
          ++ [Ev (ChannelClose ch) tt]).
Proof.
  intros C. split; intros handler D.
  - exact (consume_queue_at rawEventsQueue handler w h ch earlier d later C D).
  - exact (consume_queue_at normalizedEventsQueue handler w h ch earlier d
             later C D).
Qed.

(** The event bus consumer on a body that does not decode followed by an
    event: the first is rejected, the second delivered and acknowledged. *)
Lemma consume_ack_after_handler_witness :
  (sample.world 200 [sample.poison; sample.delivery] [] _ ConnChannel = Ok 2%N
   /\ sample.world 200 [sample.poison; sample.delivery]
        [Ev ConnChannel (Ok 2%N)] _
        (consume_call 2%N normalizedEventsQueue)
      = Ok ([sample.poison] ++ sample.delivery :: []))
  /\ trace_of (sample.world 200 [sample.poison; sample.delivery]) []
       (ConsumeNormalizedEvents (JEvent := sample.json_event) sample.mq
          (eventBusHandler (JEvent := sample.json_event) sample.sink))
     = [Ev ConnChannel (Ok 2%N);
        Ev (consume_call 2%N normalizedEventsQueue)
           (Ok [sample.poison; sample.delivery]);
        Ev (Nack sample.poison false false) tt;
        Ev (ClientDo (post_json sample.sink sample.body))
           (Ok {| http.StatusCode := 200; http.resp_Body := ([], None) |});
        Ev (Ack sample.delivery false) tt;
        Ev (ChannelClose 2%N) tt].
Proof.
  assert (C : sample.world 200 [sample.poison; sample.delivery] [] _ ConnChannel
              = Ok 2%N) by reflexivity.
  assert (D : sample.world 200 [sample.poison; sample.delivery]
                ([] ++ [Ev ConnChannel (Ok 2%N)]) _
                (consume_call 2%N normalizedEventsQueue)
              = Ok ([sample.poison] ++ sample.delivery :: [])) by reflexivity.
  split; [split; [exact C | exact D] |].
  destruct (consume_ack_after_handler (JRaw := sample.json_raw)
              (JEvent := sample.json_event)
              (sample.world 200 [sample.poison; sample.delivery]) []
              sample.mq 2%N [sample.poison] sample.delivery [] C) as [_ N].
  rewrite (N (eventBusHandler (JEvent := sample.json_event) sample.sink) D).
  vm_compute. reflexivity.
Defined.

(** ** Delivery to the Platform BE *)

Section EventBus.

Context {JEvent : JSON NormalizedEvent}.

Lemma DeliverEvent_run (w : World) (h : Trace) (event : NormalizedEvent)
    (url : string) :
  run w h (DeliverEvent event url)
  = if (url =? "")%string then (None, [])
    else match Marshal event with
         | inr err =>
             (Some (wrapError "event_bus: failed to marshal event" err), [])
         | inl body =>
             let c := ClientDo (post_json url body) in
             match w h _ c with
             | inr err =>
                 (Some (wrapError
                          ("event_bus: failed to reach Platform BE at " ++ url) err),
                  [Ev c (inr err)])
             | inl resp =>
                 (if http.StatusCode resp >=? 400
                  then Some (errorString
                               ("event_bus: Platform BE returned error "
                                ++ fmt.itoa (http.StatusCode resp) ++ " for "
                                ++ url ++ ": "
                                ++ of_bytes (fst (http.resp_Body resp))))
                  else None,
                  [Ev c (inl resp)])
             end
         end.
Proof.
  unfold DeliverEvent.
  destruct (url =? "")%string; [reflexivity |].
  destruct (Marshal event) as [body | err]; [| reflexivity].
  rewrite run_seq. cbv zeta.
  destruct (w h _ (ClientDo (post_json url body))) as [resp | err];
    [| reflexivity].
  destruct (http.StatusCode resp >=? 400); reflexivity.
Qed.

(** The event bus consumer is the loop on the normalized queue with
    DeliverEvent as handler. *)
Lemma StartEventBusConsumer_loop (env : Env) (mq : RabbitMQ) :
  StartEventBusConsumer env mq
  = consume_queue normalizedEventsQueue
      (eventBusHandler (Getenv env "PLATFORM_BE_URL")).
Proof. reflexivity. Qed.

(** DeliverEvent sends no acknowledgement of its own. *)
Lemma DeliverEvent_no_ack (w : World) (h : Trace) (event : NormalizedEvent)
    (url : string) :
  acknowledgements (trace_of w h (DeliverEvent event url)) = [].
Proof.
  unfold trace_of. rewrite DeliverEvent_run.
  destruct (url =? "")%string; [reflexivity |].
  destruct (Marshal event); [| reflexivity].
  cbv zeta. destruct (w h _ _); reflexivity.
Qed.

(** C9, as amended. Without a sink URL DeliverEvent makes no call and
    returns success. With one, and an event that serialises, it returns a
    failure exactly when the POST fails at the transport level or the sink
    answers with a status of 400 or above. Whatever it returns, the consumer
    acknowledges the delivery once and never rejects it. *)
Theorem DeliverEvent_outcome (w : World) (h : Trace) (event : NormalizedEvent)
    (url : string) :
  (url = "" -> run w h (DeliverEvent event url) = (None, []))
  /\ (forall body : bytes,
        url <> "" -> Marshal event = Ok body ->
        result_of w h (DeliverEvent event url) <> None
        <-> ((exists err, w h _ (ClientDo (post_json url body)) = inr err)
             \/ (exists resp, w h _ (ClientDo (post_json url body)) = inl resp
                              /\ 400 <= http.StatusCode resp)))
  /\ (forall d : Delivery,
        Unmarshal (d_Body d) = Ok event ->
        acknowledgements
          (trace_of w h (range_deliveries (eventBusHandler url) [d]))
        = [inl d]).
Proof.
  split; [| split].
  - intros ->. rewrite DeliverEvent_run. reflexivity.
  - intros body U M. apply String.eqb_neq in U.
    unfold result_of. rewrite DeliverEvent_run, U, M. unfold Ok. cbv zeta.
    destruct (w h _ (ClientDo (post_json url body))) as [resp | err]; simpl.
    + destruct (Z.geb_spec (http.StatusCode resp) 400) as [G | G]; split.
      * intros _. right. exists resp. split; [reflexivity | lia].
      * discriminate.
      * intros N. contradiction N; reflexivity.
      * intros [(err & E) | (resp' & E & S)]; [discriminate E |].
        injection E as <-. lia.
    + split; [eauto | discriminate].
  - intros d U. rewrite range_deliveries_cons, U. unfold Ok. cbv zeta.
    cbn [range_deliveries]. rewrite trace_of_Ret, app_nil_r.
    unfold eventBusHandler. rewrite trace_of_bind, trace_of_Ret, app_nil_r.
    unfold acknowledgements. rewrite omap_app.
    fold (acknowledgements (trace_of w h (DeliverEvent event url))).
    rewrite DeliverEvent_no_ack. reflexivity.
Qed.

End EventBus.

(** A sink that answers 500: the delivery fails, and is acknowledged. *)
Lemma DeliverEvent_outcome_witness :
  (sample.sink <> ""
   /\ Marshal (JSON := sample.json_event) sample.event = Ok sample.body
   /\ Unmarshal (JSON := sample.json_event) (d_Body sample.delivery)
      = Ok sample.event)
  /\ result_of (sample.world 500 []) []
       (DeliverEvent (JEvent := sample.json_event) sample.event sample.sink)
     <> None
  /\ acknowledgements
       (trace_of (sample.world 500 []) []
          (range_deliveries (JA := sample.json_event)
             (eventBusHandler (JEvent := sample.json_event) sample.sink)
             [sample.delivery]))
     = [inl sample.delivery].
Proof.
  assert (U : sample.sink <> "") by discriminate.
  assert (M : Marshal (JSON := sample.json_event) sample.event = Ok sample.body)
    by reflexivity.
  assert (D : Unmarshal (JSON := sample.json_event) (d_Body sample.delivery)
              = Ok sample.event) by reflexivity.
  split; [auto |].
  destruct (DeliverEvent_outcome (JEvent := sample.json_event)
              (sample.world 500 []) [] sample.event sample.sink)
    as (_ & F & K).
  split.
  - apply (F sample.body U M). right. eexists. split; [reflexivity |].
    simpl. lia.
  - apply (K sample.delivery D).
Defined.

(** C9 as stated fails: a sink that answers 304, a status outside 2xx, is a
    successful delivery. *)
Lemma DeliverEvent_not_modified_is_success :
  sample.world 304 [] [] _ (ClientDo (post_json sample.sink sample.body))
  = Ok {| http.StatusCode := 304; http.resp_Body := ([], None) |}
  /\ ~ (200 <= 304 < 300)
  /\ result_of (sample.world 304 []) []
       (DeliverEvent (JEvent := sample.json_event) sample.event sample.sink)
     = None.
Proof.
  split; [reflexivity |]. split; [lia |]. vm_compute. reflexivity.
Defined.

Example consume_poison_then_event :
  trace_of (sample.world 200 []) []
    (range_deliveries (JA := sample.json_event)
             (eventBusHandler (JEvent := sample.json_event) sample.sink)
       [sample.poison; sample.delivery])
  = [Ev (Nack sample.poison false false) tt;
     Ev (ClientDo (post_json sample.sink sample.body))
        (Ok {| http.StatusCode := 200; http.resp_Body := ([], None) |});
     Ev (Ack sample.delivery false) tt].
Proof. vm_compute. reflexivity. Qed.

(** ** The program logic *)

Lemma satisfies_run {A : Type} (E : forall X : Type, IO X -> X -> Prop)
    (Q : A -> Prop) (w : World) (p : Prog A) :
  satisfies E Q p ->
  forall h : Trace,
    Q (result_of w h p) /\ Forall (event_in E) (trace_of w h p).
Proof.
  unfold result_of, trace_of.
  induction 1 as [a Qa | X e k He Hk IH]; intros h; simpl.
  - split; [exact Qa | constructor].
  - specialize (IH (w h X e) (h ++ [Ev e (w h X e)])).
    destruct (run w (h ++ [Ev e (w h X e)]) (k (w h X e))) as [a t].
    simpl in *. destruct IH as [Qa Ft].
    split; [exact Qa |]. constructor; [apply He | exact Ft].
Qed.

Lemma satisfies_bind {A B : Type} (E : forall X : Type, IO X -> X -> Prop)
    (P : A -> Prop) (Q : B -> Prop) (m : Prog A) (f : A -> Prog B) :
  satisfies E P m ->
  (forall a : A, P a -> satisfies E Q (f a)) ->
  satisfies E Q (bind m f).
Proof.
  intros Hm Hf. induction Hm as [a Pa | X e k He Hk IH]; simpl.
  - apply Hf, Pa.
  - apply sat_Vis; [exact He | exact IH].
Qed.

Lemma satisfies_call {X : Type} (E : forall X : Type, IO X -> X -> Prop)
    (Q : X -> Prop) (e : IO X) :
  (forall x : X, E X e x /\ Q x) -> satisfies E Q (call e).
Proof.
  intros H. apply sat_Vis.
  - intros x. apply H.
  - intros x. apply sat_Ret, H.
Qed.

Lemma not_enter_calls (t : Trace) :
  Forall (event_in not_enter) t -> enrichment_calls t = [].
Proof.
  induction 1 as [| [X e x] t He Ht IH]; [reflexivity |].
  destruct e; try contradiction; exact IH.
Qed.

Section Adapters.

Context {JAdapter : AdapterJSON}.

Lemma bb_request_quiet (b : BitbucketAdapter.t) (url : string) :
  satisfies not_enter (fun _ => True) (BitbucketAdapter.request b url).
Proof. unfold BitbucketAdapter.request. repeat sat_step; exact I. Qed.

Lemma token_quiet (g : GitHubAdapter.t) (owner repo : string) :
  satisfies not_enter (fun _ => True) (GitHubAdapter.token g owner repo).
Proof. unfold GitHubAdapter.token. repeat sat_step; exact I. Qed.

Lemma makeAuthenticatedRequest_quiet (token method url : string) :
  satisfies not_enter (fun _ => True) (makeAuthenticatedRequest token method url).
Proof. unfold makeAuthenticatedRequest. repeat sat_step; exact I. Qed.

(** What getPRChangedFiles returns is what the response body decodes to. *)
Lemma getPRChangedFiles_result (token owner repo : string) (prNumber : Z) :
  satisfies not_enter
    (fun r => forall files, r = inl files ->
                exists body, Unmarshal (A := list PRFile) body = inl files)
    (getPRChangedFiles token owner repo prNumber).
Proof.
  unfold getPRChangedFiles.
  eapply satisfies_bind; [apply makeAuthenticatedRequest_quiet |].
  intros r _. repeat sat_step; try discriminate.
  intros files [= <-]. eauto.
Qed.

Lemma satisfies_weaken {A : Type} (E E' : forall X : Type, IO X -> X -> Prop)
    (Q Q' : A -> Prop) (p : Prog A) :
  (forall X e x, E X e x -> E' X e x) ->
  (forall a, Q a -> Q' a) ->
  satisfies E Q p -> satisfies E' Q' p.
Proof.
  intros HE HQ. induction 1 as [a Qa | X e k He Hk IH].
  - apply sat_Ret, HQ, Qa.
  - apply sat_Vis; [intros x; apply HE, He | exact IH].
Qed.

(** The files the GitHub adapter returns are the provider's entries, field
    by field. *)
Lemma gh_GetPRFiles_result (w : World) (h : Trace) (g : GitHubAdapter.t)
    (owner repo : string) (prNumber : Z) (files : list NormalizedFile) :
  result_of w h (GitHubAdapter.GetPRFiles g owner repo prNumber) = inl files ->
  exists (body : bytes) (raw : list PRFile),
    Unmarshal body = inl raw /\ files = map GitHubAdapter.normalizeFile raw.
Proof.
  revert files.
  apply (satisfies_run (fun _ _ _ => True)
           (fun r => forall files, r = inl files ->
                       exists body raw,
                         Unmarshal (A := list PRFile) body = inl raw
                         /\ files = map GitHubAdapter.normalizeFile raw)).
  unfold GitHubAdapter.GetPRFiles.
  apply sat_Vis; [intros; exact I | intros _].
  apply (satisfies_bind _ (fun _ => True)).
  { apply (satisfies_weaken not_enter _ (fun _ => True) (fun _ => True));
      [intros; exact I | auto | apply token_quiet]. }
  intros [tok | err] _; [| apply sat_Ret; discriminate].
  eapply satisfies_bind.
  { eapply satisfies_weaken; [| | apply getPRChangedFiles_result];
      [intros; exact I | intros a Ha; exact Ha]. }
  intros [raw | err] R; apply sat_Ret; [| discriminate].
  intros files [= <-]. destruct (R raw eq_refl) as [body U]. eauto.
Qed.

Lemma gh_GetPRFiles_calls (w : World) (h : Trace) (g : GitHubAdapter.t)
    (owner repo : string) (prNumber : Z) :
  enrichment_calls (trace_of w h (GitHubAdapter.GetPRFiles g owner repo prNumber))
  = [(PlatformGitHub, owner, repo, prNumber)].
Proof.
  unfold GitHubAdapter.GetPRFiles. rewrite trace_of_seq.
  change (enrichment_calls (Ev (EnterGetPRFiles ?p ?o ?r ?n) ?x :: ?t))
    with ((p, o, r, n) :: enrichment_calls t).
  f_equal. apply not_enter_calls.
  apply (satisfies_run not_enter (fun _ => True)).
  eapply satisfies_bind; [apply token_quiet |].
  intros [tok | err] _; [| apply sat_Ret; exact I].
  eapply satisfies_bind.
  { eapply satisfies_weaken; [| | apply getPRChangedFiles_result];
      [auto | intros; exact I]. }
  intros [raw | err] _; apply sat_Ret; exact I.
Qed.

(** The files the Bitbucket adapter returns are the entries of the diffstat
    response, each through normalizeFile. *)
Lemma bb_GetPRFiles_result (w : World) (h : Trace) (b : BitbucketAdapter.t)
    (owner repo : string) (prNumber : Z) (files : list NormalizedFile) :
  result_of w h (BitbucketAdapter.GetPRFiles b owner repo prNumber) = inl files ->
  exists (body : bytes) (diffstat : bb.DiffstatResponse),
    Unmarshal body = inl diffstat
    /\ files = map BitbucketAdapter.normalizeFile (bb.Values diffstat).
Proof.
  revert files.
  apply (satisfies_run (fun _ _ _ => True)
           (fun r => forall files, r = inl files ->
                       exists body diffstat,
                         Unmarshal (A := bb.DiffstatResponse) body = inl diffstat
                         /\ files = map BitbucketAdapter.normalizeFile
                                      (bb.Values diffstat))).
  unfold BitbucketAdapter.GetPRFiles.
  apply sat_Vis; [intros; exact I | intros _].
  apply (satisfies_bind _ (fun _ => True)).
  { apply (satisfies_weaken not_enter _ (fun _ => True) (fun _ => True));
      [intros; exact I | auto | apply bb_request_quiet]. }
  intros [body | err] _; [| apply sat_Ret; discriminate].
  destruct (Unmarshal body) as [diffstat | err] eqn:U; apply sat_Ret;
    [| discriminate].
  intros files [= <-]. eauto.
Qed.

Lemma bb_GetPRFiles_calls (w : World) (h : Trace) (b : BitbucketAdapter.t)
    (owner repo : string) (prNumber : Z) :
  enrichment_calls (trace_of w h (BitbucketAdapter.GetPRFiles b owner repo prNumber))
  = [(PlatformBitbucket, owner, repo, prNumber)].
Proof.
  unfold BitbucketAdapter.GetPRFiles. rewrite trace_of_seq.
  change (enrichment_calls (Ev (EnterGetPRFiles ?p ?o ?r ?n) ?x :: ?t))
    with ((p, o, r, n) :: enrichment_calls t).
  f_equal. apply not_enter_calls.
  apply (satisfies_run not_enter (fun _ => True)).
  eapply satisfies_bind; [apply bb_request_quiet |].
  intros [body | err] _; [| apply sat_Ret; exact I].
  destruct (Unmarshal body); apply sat_Ret; exact I.
Qed.

Lemma gh_NormalizeEvent_run (w : World) (h : Trace) (g : GitHubAdapter.t)
    (eventType : string) (payload : bytes) (p : gh.WebhookPayload) :
  Unmarshal payload = inl p ->
  let now := w h _ Now in
  let h1 := h ++ [Ev Now now] in
  let n := gh.pr_Number (gh.p_PullRequest p) in
  let owner := gh.repo_Owner_Login (gh.p_Repository p) in
  let repo := gh.repo_Name (gh.p_Repository p) in
  let enrich := negb (n =? 0) && isFileEnrichableAction (gh.p_Action p) in
  exists ev : NormalizedEvent,
    run w h (GitHubAdapter.NormalizeEvent g eventType payload)
    = (inl ev,
       Ev Now now
       :: (if enrich then trace_of w h1 (GitHubAdapter.GetPRFiles g owner repo n)
           else []))
    /\ Platform ev = PlatformGitHub
    /\ Action ev = gh.p_Action p
    /\ EventType ev = ("pull_request." ++ gh.p_Action p)%string
    /\ Number (PR ev) = n
    /\ Files ev
       = if enrich
         then match result_of w h1 (GitHubAdapter.GetPRFiles g owner repo n) with
              | inl files => files
              | inr _ => []
              end
         else [].
Proof.
  intros U. cbv zeta. unfold GitHubAdapter.NormalizeEvent. rewrite U.
  rewrite run_seq. cbv zeta.
  destruct (negb (gh.pr_Number (gh.p_PullRequest p) =? 0)
            && isFileEnrichableAction (gh.p_Action p)).
  - rewrite run_bind. unfold result_of, trace_of.
    destruct (run w (h ++ [Ev Now (w h Time Now)])
                (GitHubAdapter.GetPRFiles g _ _ _)) as [[files | err] t];
      simpl; rewrite app_nil_r; eexists; (split; [reflexivity |]);
      repeat split.
  - simpl. eexists. split; [reflexivity |]. repeat split.
Qed.

Lemma bb_NormalizeEvent_run (w : World) (h : Trace) (b : BitbucketAdapter.t)
    (eventType : string) (payload : bytes) (p : bb.WebhookPayload) :
  Unmarshal payload = inl p ->
  let now := w h _ Now in
  let h1 := h ++ [Ev Now now] in
  let n := bb.pr_ID (bb.p_PullRequest p) in
  let owner := fst (bb_owner_repo (bb.p_Repository p)) in
  let repo := snd (bb_owner_repo (bb.p_Repository p)) in
  let action := snd (mapBitbucketEventKey eventType) in
  let enrich :=
    negb (n =? 0)
    && ((action =? "opened")%string || (action =? "synchronize")%string) in
  exists ev : NormalizedEvent,
    run w h (BitbucketAdapter.NormalizeEvent b eventType payload)
    = (inl ev,
       Ev Now now
       :: (if enrich then trace_of w h1 (BitbucketAdapter.GetPRFiles b owner repo n)
           else []))
    /\ Platform ev = PlatformBitbucket
    /\ (EventType ev, Action ev) = mapBitbucketEventKey eventType
    /\ Number (PR ev) = n
    /\ Files ev
       = if enrich
         then match result_of w h1 (BitbucketAdapter.GetPRFiles b owner repo n) with
              | inl files => files
              | inr _ => []
              end
         else [].
Proof.
  intros U. cbv zeta. unfold BitbucketAdapter.NormalizeEvent, bb_owner_repo.
  rewrite U.
  destruct (mapBitbucketEventKey eventType) as [normalizedType action].
  destruct (match strings.SplitN2_slash (bb.repo_FullName (bb.p_Repository p)) with
            | [a; b0] => (a, b0)
            | _ => ("", bb.repo_Name (bb.p_Repository p))
            end) as [owner repoName].
  rewrite run_seq. cbv zeta. cbn [fst snd].
  destruct (negb (bb.pr_ID (bb.p_PullRequest p) =? 0)
            && ((action =? "opened")%string || (action =? "synchronize")%string)).
  - rewrite run_bind. unfold result_of, trace_of.
    destruct (run w (h ++ [Ev Now (w h Time Now)])
                (BitbucketAdapter.GetPRFiles b owner repoName _)) as [[files | err] t];
      simpl; rewrite app_nil_r; eexists;
      (split; [reflexivity |]); repeat split.
  - simpl. eexists. split; [reflexivity |]. repeat split.
Qed.

Lemma GetPRFiles_calls (w : World) (h : Trace) (a : SCMAdapter)
    (owner repo : string) (prNumber : Z) :
  enrichment_calls (trace_of w h (Adapter.GetPRFiles a owner repo prNumber))
  = [(Adapter.Platform a, owner, repo, prNumber)].
Proof. destruct a; [apply gh_GetPRFiles_calls | apply bb_GetPRFiles_calls]. Qed.

Lemma isFileEnrichableAction_In (action : string) :
  isFileEnrichableAction action = true
  <-> In action (enrichable_actions PlatformGitHub).
Proof.
  unfold isFileEnrichableAction. simpl.
  destruct (String.eqb_spec action "opened") as [-> | N1]; [tauto |].
  destruct (String.eqb_spec action "synchronize") as [-> | N2]; [tauto |].
  destruct (String.eqb_spec action "reopened") as [-> | N3]; [tauto |].
  split; [discriminate |]. intros [E | [E | [E | []]]]; congruence.
Qed.

Lemma bb_enrichable_In (action : string) :
  (action =? "opened")%string || (action =? "synchronize")%string = true
  <-> In action (enrichable_actions PlatformBitbucket).
Proof.
  simpl.
  destruct (String.eqb_spec action "opened") as [-> | N1]; [simpl; tauto |].
  destruct (String.eqb_spec action "synchronize") as [-> | N2]; [simpl; tauto |].
  split; [discriminate |]. intros [E | [E | []]]; congruence.
Qed.

(** C3. For either adapter and any payload. When the payload does not parse,
    NormalizeEvent returns an error and calls nothing. When it parses,
    NormalizeEvent returns an event, never an error, whose action is the
    mapped action and whose pull request number is the payload's; and it
    enters GetPRFiles if and only if that action is in the adapter's
    enrichable set and that number is not zero. It then enters it once, after
    reading the clock, for the owner, repository and number of the payload,
    and the event's files are the files GetPRFiles returns, or none when
    GetPRFiles fails. Otherwise it only reads the clock, and the event has no
    files. *)
Theorem NormalizeEvent_enrichment (a : SCMAdapter) (w : World) (h : Trace)
    (eventType : string) (payload : bytes) :
  let t := trace_of w h (Adapter.NormalizeEvent a eventType payload) in
  let r := result_of w h (Adapter.NormalizeEvent a eventType payload) in
  let now := w h _ Now in
  let h1 := h ++ [Ev Now now] in
  match webhook_subject a eventType payload with
  | None => payload_parses a payload = false /\ is_ok r = false /\ t = []
  | Some s =>
      let fetch :=
        Adapter.GetPRFiles a (sub_owner s) (sub_repo s) (sub_number s) in
      let enrichable :=
        In (sub_action s) (enrichable_actions (Adapter.Platform a))
        /\ sub_number s <> 0 in
      payload_parses a payload = true
      /\ exists ev : NormalizedEvent,
           r = inl ev
           /\ Action ev = sub_action s
           /\ Number (PR ev) = sub_number s
           /\ (enrichment_calls t <> [] <-> enrichable)
           /\ (enrichable ->
               t = Ev Now now :: trace_of w h1 fetch
               /\ enrichment_calls t
                  = [(Adapter.Platform a, sub_owner s, sub_repo s,
                      sub_number s)]
               /\ Files ev = match result_of w h1 fetch with
                             | inl files => files
                             | inr _ => []
                             end)
           /\ (~ enrichable -> t = [Ev Now now] /\ Files ev = [])
  end.
Proof.
  cbv zeta. destruct a as [g | b];
    cbn [Adapter.NormalizeEvent Adapter.GetPRFiles Adapter.Platform
         GitHubAdapter.Platform BitbucketAdapter.Platform payload_parses
         webhook_subject].
  - destruct (Unmarshal payload) as [p | err] eqn:U.
    2:{ unfold result_of, trace_of, GitHubAdapter.NormalizeEvent.
        rewrite U. simpl. auto. }
    destruct (gh_NormalizeEvent_run w h g eventType payload p U)
      as (ev & R & _ & A & _ & N & F).
    assert (RR : result_of w h (GitHubAdapter.NormalizeEvent g eventType payload)
                 = inl ev) by (unfold result_of; rewrite R; reflexivity).
    assert (TT : trace_of w h (GitHubAdapter.NormalizeEvent g eventType payload)
                 = snd (run w h (GitHubAdapter.NormalizeEvent g eventType payload)))
      by reflexivity.
    rewrite R in TT. cbn [snd] in TT. rewrite RR, !TT. clear RR TT R.
    cbn [is_ok sub_action sub_number sub_owner sub_repo].
    split; [reflexivity |]. exists ev.
    split; [reflexivity |]. split; [exact A |]. split; [exact N |].
    destruct (Z.eqb_spec (gh.pr_Number (gh.p_PullRequest p)) 0) as [Z0 | Z0];
      cbn [negb andb] in *.
    { split; [split; [intros C; contradiction C; reflexivity | tauto] |].
      split; [tauto |]. intros _. split; [reflexivity | exact F]. }
    destruct (isFileEnrichableAction (gh.p_Action p)) eqn:En.
    + change (enrichment_calls (Ev Now ?x :: ?t)) with (enrichment_calls t).
      rewrite gh_GetPRFiles_calls.
      assert (I : In (gh.p_Action p) (enrichable_actions PlatformGitHub))
        by apply isFileEnrichableAction_In, En.
      split; [split; [intros _; split; assumption | discriminate] |].
      split; [intros _; repeat split; exact F |].
      intros C. contradiction C. split; assumption.
    + assert (I : ~ In (gh.p_Action p) (enrichable_actions PlatformGitHub)).
      { intros I. apply isFileEnrichableAction_In in I. congruence. }
      split; [split; [intros C; contradiction C; reflexivity | tauto] |].
      split; [tauto |]. intros _. split; [reflexivity | exact F].
  - destruct (Unmarshal payload) as [p | err] eqn:U.
    2:{ unfold result_of, trace_of, BitbucketAdapter.NormalizeEvent.
        rewrite U. simpl. auto. }
    destruct (bb_NormalizeEvent_run w h b eventType payload p U)
      as (ev & R & _ & A & N & F).
    assert (RR : result_of w h (BitbucketAdapter.NormalizeEvent b eventType payload)
                 = inl ev) by (unfold result_of; rewrite R; reflexivity).
    assert (TT : trace_of w h (BitbucketAdapter.NormalizeEvent b eventType payload)
                 = snd (run w h (BitbucketAdapter.NormalizeEvent b eventType payload)))
      by reflexivity.
    rewrite R in TT. cbn [snd] in TT. rewrite RR, !TT. clear RR TT R.
    cbn [is_ok sub_action sub_number sub_owner sub_repo].
    split; [reflexivity |]. exists ev.
    split; [reflexivity |].
    split; [rewrite <- A; reflexivity |]. split; [exact N |].
    set (action := snd (mapBitbucketEventKey eventType)) in *.
    destruct (Z.eqb_spec (bb.pr_ID (bb.p_PullRequest p)) 0) as [Z0 | Z0];
      cbn [negb andb] in *.
    { split; [split; [intros C; contradiction C; reflexivity | tauto] |].
      split; [tauto |]. intros _. split; [reflexivity | exact F]. }
    destruct ((action =? "opened")%string || (action =? "synchronize")%string)
      eqn:En.
    + change (enrichment_calls (Ev Now ?x :: ?t)) with (enrichment_calls t).
      rewrite bb_GetPRFiles_calls.
      assert (I : In action (enrichable_actions PlatformBitbucket))
        by apply bb_enrichable_In, En.
      split; [split; [intros _; split; assumption | discriminate] |].
      split; [intros _; repeat split; exact F |].
      intros C. contradiction C. split; assumption.
    + assert (I : ~ In action (enrichable_actions PlatformBitbucket)).
      { intros I. apply bb_enrichable_In in I. congruence. }
      split; [split; [intros C; contradiction C; reflexivity | tauto] |].
      split; [tauto |]. intros _. split; [reflexivity | exact F].
Qed.

End Adapters.

(** ** What the adapters produce *)

Lemma Forall2_map_self {A B : Type} (P : A -> B -> Prop) (f : A -> B) (l : list A) :
  (forall x, P x (f x)) -> Forall2 P l (map f l).
Proof. intros H. induction l; simpl; constructor; auto. Qed.

Lemma int_add_exact (x y : Z) : is_int (x + y) -> int_add x y = x + y.
Proof.
  unfold is_int, int_add, int_wrap. intros R.
  rewrite Z.mod_small; lia.
Qed.

Lemma mapBitbucketStatus_spec (status : string) :
  mapBitbucketStatus status
  = if is_normalized_status (strings.ToLower status)
    then strings.ToLower status else "modified".
Proof.
  unfold mapBitbucketStatus, is_normalized_status. simpl.
  destruct (String.eqb_spec (strings.ToLower status) "added") as [-> | N1];
    [reflexivity |].
  destruct (String.eqb_spec (strings.ToLower status) "modified") as [-> | N2];
    [reflexivity |].
  destruct (String.eqb_spec (strings.ToLower status) "removed") as [-> | N3];
    [reflexivity |].
  destruct (String.eqb_spec (strings.ToLower status) "renamed") as [-> | N4];
    reflexivity.
Qed.

Lemma mapBitbucketStatus_normalized (status : string) :
  In (mapBitbucketStatus status) normalized_statuses.
Proof.
  unfold mapBitbucketStatus, normalized_statuses.
  repeat match goal with
         | |- context [if ?c then _ else _] => destruct c
         end; simpl; tauto.
Qed.

Lemma mapBitbucketStatus_renamed (status : string) :
  mapBitbucketStatus status = "renamed" <-> strings.ToLower status = "renamed".
Proof.
  unfold mapBitbucketStatus.
  destruct (String.eqb_spec (strings.ToLower status) "added") as [E | N1];
    [rewrite E; split; discriminate |].
  destruct (String.eqb_spec (strings.ToLower status) "removed") as [E | N2];
    [rewrite E; split; discriminate |].
  destruct (String.eqb_spec (strings.ToLower status) "modified") as [E | N3];
    [rewrite E; split; discriminate |].
  destruct (String.eqb_spec (strings.ToLower status) "renamed") as [E | N4];
    [tauto |].
  split; [discriminate | contradiction].
Qed.

Section Files.

Context {JAdapter : AdapterJSON}.

Lemma GetPRFiles_result (a : SCMAdapter) (w : World) (h : Trace)
    (owner repo : string) (prNumber : Z) (files : list NormalizedFile) :
  result_of w h (Adapter.GetPRFiles a owner repo prNumber) = inl files ->
  match a with
  | GitHub _ =>
      exists (body : bytes) (raw : list PRFile),
        Unmarshal body = inl raw /\ files = map GitHubAdapter.normalizeFile raw
  | Bitbucket _ =>
      exists (body : bytes) (diffstat : bb.DiffstatResponse),
        Unmarshal body = inl diffstat
        /\ files = map BitbucketAdapter.normalizeFile (bb.Values diffstat)
  end.
Proof.
  destruct a; [apply gh_GetPRFiles_result | apply bb_GetPRFiles_result].
Qed.



(** The event type and the action, by adapter. In an event the GitHub
    adapter returns, EventType is "pull_request." followed by Action. In an
    event the Bitbucket adapter returns, EventType and Action are the pair
    of mapBitbucketEventKey: EventType starts with "pull_request.", and is
    "pull_request." followed by Action for every key but
    "pullrequest:updated". *)
Theorem NormalizeEvent_event_type (a : SCMAdapter) (w : World) (h : Trace)
    (eventType : string) (payload : bytes) (ev : NormalizedEvent) :
  result_of w h (Adapter.NormalizeEvent a eventType payload) = inl ev ->
  match a with
  | GitHub _ => EventType ev = ("pull_request." ++ Action ev)%string
  | Bitbucket _ =>
      (EventType ev, Action ev) = mapBitbucketEventKey eventType
      /\ strings.HasPrefix (EventType ev) "pull_request." = true
      /\ (eventType <> "pullrequest:updated" ->
          EventType ev = ("pull_request." ++ Action ev)%string)
      /\ (eventType = "pullrequest:updated" ->
          EventType ev = "pull_request.updated" /\ Action ev = "synchronize")
  end.
Proof.
  intros R. destruct a as [g | b]; cbn [Adapter.NormalizeEvent] in R.
  - destruct (Unmarshal (A := gh.WebhookPayload) payload) as [p | err] eqn:U.
    2:{ unfold result_of, GitHubAdapter.NormalizeEvent in R. rewrite U in R.
        discriminate R. }
    destruct (gh_NormalizeEvent_run w h g eventType payload p U)
      as (ev' & R' & _ & A & T & _).
    unfold result_of in R. rewrite R' in R. injection R as <-.
    rewrite T, A. reflexivity.
  - destruct (Unmarshal (A := bb.WebhookPayload) payload) as [p | err] eqn:U.
    2:{ unfold result_of, BitbucketAdapter.NormalizeEvent in R. rewrite U in R.
        discriminate R. }
    destruct (bb_NormalizeEvent_run w h b eventType payload p U)
      as (ev' & R' & _ & A & _).
    unfold result_of in R. rewrite R' in R. injection R as <-.
    split; [exact A |]. revert A. unfold mapBitbucketEventKey.
    destruct (String.eqb_spec eventType "pullrequest:created") as [-> | N1].
    { intros [= -> ->]. repeat split; try reflexivity; discriminate. }
    destruct (String.eqb_spec eventType "pullrequest:updated") as [-> | N2].
    { intros [= -> ->]. repeat split; try reflexivity.
      intros C; contradiction C; reflexivity. }
    destruct (String.eqb_spec eventType "pullrequest:fulfilled") as [-> | N3].
    { intros [= -> ->]. repeat split; try reflexivity; discriminate. }
    destruct (String.eqb_spec eventType "pullrequest:rejected") as [-> | N4].
    { intros [= -> ->]. repeat split; try reflexivity; discriminate. }
    intros [= -> ->]. repeat split; try reflexivity; contradiction.
Qed.

End Files.

(** ** The adapters on sample inputs *)

(** A "PR opened" webhook for PR 42 with three changed files. *)
Example normalize_opened :
  result_of (sample.world_with 200 (to_bytes "files") []) []
    (Adapter.NormalizeEvent (JAdapter := sample.json_adapter) sample.github
       "pull_request" (to_bytes "opened"))
  = Ok (sample.github_event "opened" sample.normalized_pr_files
          (to_bytes "opened")).
Proof. vm_compute. reflexivity. Qed.

(** The same PR closed: no enrichment, although the PR number is not zero. *)
Example normalize_closed :
  run (sample.world_with 200 (to_bytes "files") []) []
    (Adapter.NormalizeEvent (JAdapter := sample.json_adapter) sample.github
       "pull_request" (to_bytes "closed"))
  = (Ok (sample.github_event "closed" [] (to_bytes "closed")), [Ev Now 0]).
Proof. vm_compute. reflexivity. Qed.

(** The API unreachable: the event is returned all the same, without
    files. *)
Example normalize_opened_offline :
  result_of sample.offline []
    (Adapter.NormalizeEvent (JAdapter := sample.json_adapter) sample.github
       "pull_request" (to_bytes "opened"))
  = Ok (sample.github_event "opened" [] (to_bytes "opened"))
  /\ enrichment_calls
       (trace_of sample.offline []
          (Adapter.NormalizeEvent (JAdapter := sample.json_adapter) sample.github
             "pull_request" (to_bytes "opened")))
     = [(PlatformGitHub, "acme", "app", 42)].
Proof. split; vm_compute; reflexivity. Qed.

(** An opened pull request while the API is unreachable: GetPRFiles is
    entered for PR 42 of acme/app, and the event comes back without files. *)
Lemma NormalizeEvent_enrichment_witness :
  webhook_subject (JAdapter := sample.json_adapter) sample.github
    "pull_request" (to_bytes "opened")
  = Some {| sub_action := "opened"; sub_number := 42;
            sub_owner := "acme"; sub_repo := "app" |}
  /\ exists ev : NormalizedEvent,
       result_of sample.offline []
         (Adapter.NormalizeEvent (JAdapter := sample.json_adapter)
            sample.github "pull_request" (to_bytes "opened"))
       = inl ev
       /\ Action ev = "opened"
       /\ Number (PR ev) = 42
       /\ enrichment_calls
            (trace_of sample.offline []
               (Adapter.NormalizeEvent (JAdapter := sample.json_adapter)
                  sample.github "pull_request" (to_bytes "opened")))
          = [(PlatformGitHub, "acme", "app", 42)]
       /\ Files ev = [].
Proof.
  assert (S : webhook_subject (JAdapter := sample.json_adapter) sample.github
                "pull_request" (to_bytes "opened")
              = Some {| sub_action := "opened"; sub_number := 42;
                        sub_owner := "acme"; sub_repo := "app" |})
    by (vm_compute; reflexivity).
  split; [exact S |].
  pose proof (NormalizeEvent_enrichment (JAdapter := sample.json_adapter)
                sample.github sample.offline [] "pull_request"
                (to_bytes "opened")) as T.
  cbv zeta in T. rewrite S in T.
  cbn [sub_action sub_number sub_owner sub_repo] in T.
  destruct T as (_ & ev & R & A & N & _ & E & _).
  destruct E as (_ & C & F).
  { split; [vm_compute; auto | discriminate]. }
  exists ev. repeat split; assumption.
Defined.





(** The GitHub adapter on an opened pull request. *)
Lemma NormalizeEvent_event_type_witness :
  result_of (sample.world_with 200 (to_bytes "files") []) []
    (Adapter.NormalizeEvent (JAdapter := sample.json_adapter) sample.github
       "pull_request" (to_bytes "opened"))
  = inl (sample.github_event "opened" sample.normalized_pr_files
           (to_bytes "opened"))
  /\ EventType (sample.github_event "opened" sample.normalized_pr_files
                  (to_bytes "opened"))
     = ("pull_request."
        ++ Action (sample.github_event "opened" sample.normalized_pr_files
                     (to_bytes "opened")))%string.
Proof.
  assert (R : result_of (sample.world_with 200 (to_bytes "files") []) []
                (Adapter.NormalizeEvent (JAdapter := sample.json_adapter)
                   sample.github "pull_request" (to_bytes "opened"))
              = inl (sample.github_event "opened" sample.normalized_pr_files
                       (to_bytes "opened"))) by (vm_compute; reflexivity).
  split; [exact R |].
  exact (NormalizeEvent_event_type (JAdapter := sample.json_adapter)
           sample.github _ _ _ _ _ R).
Defined.

(** C7. One row of mapBitbucketEventKey departs from the convention that
    the other rows and the GitHub adapter follow: for the key
    "pullrequest:updated" the Bitbucket adapter returns an event whose action
    is "synchronize" and whose event type is "pull_request.updated", which is
    not "pull_request." followed by the action. *)
Lemma NormalizeEvent_bitbucket_updated :
  on_event (fun ev => (EventType ev, Action ev))
    (result_of (sample.world_with 200 (to_bytes "diffstat") []) []
       (Adapter.NormalizeEvent (JAdapter := sample.json_adapter)
          sample.bitbucket "pullrequest:updated" sample.body))
  = Some ("pull_request.updated", "synchronize")
  /\ "pull_request.updated" <> ("pull_request." ++ "synchronize")%string.
Proof. split; [vm_compute; reflexivity | discriminate]. Defined.

(** * Further properties of the pipeline *)

(** ** The gateway's signature check *)

Lemma hex_length (b : bytes) :
  String.length (hex.EncodeToString b) = (2 * length b)%nat.
Proof. induction b as [| x b IH]; simpl; [reflexivity | rewrite IH; lia]. Qed.

(** The expected signature is a digest of 32 bytes in hex. *)
Lemma expected_signature_length (secret : string) (body : bytes) :
  String.length (expected_signature secret body) = 64%nat.
Proof.
  unfold expected_signature, hmac.SumSHA256. cbv zeta.
  rewrite hex_length, Sum256_length. reflexivity.
Qed.

Lemma length_append (s1 s2 : string) :
  String.length (s1 ++ s2) = (String.length s1 + String.length s2)%nat.
Proof. induction s1 as [| c s1 IH]; simpl; [reflexivity | rewrite IH; reflexivity]. Qed.

(** X1. verifyWebhookSignature accepts a signature exactly when it is the
    lower-case hex HMAC-SHA256 of the payload under the secret, bare or
    preceded by "sha256=". So a signature that verifies has 64 characters, or
    71 with the prefix, whatever the payload and the secret: the empty
    signature, the bare prefix and any truncated digest are rejected. *)
Theorem verifyWebhookSignature_accepts_exactly (payload : bytes)
    (signature secret : string) :
  (verifyWebhookSignature payload signature secret = true
   <-> signature = expected_signature secret payload
       \/ signature = ("sha256=" ++ expected_signature secret payload)%string)
  /\ (verifyWebhookSignature payload signature secret = true ->
      String.length signature = 64%nat \/ String.length signature = 71%nat).
Proof.
  split; [apply verifyWebhookSignature_spec |].
  intros V. apply verifyWebhookSignature_spec in V as [-> | ->].
  - left. apply expected_signature_length.
  - right. rewrite length_append, expected_signature_length. reflexivity.
Qed.

(** ** The gateway's answers *)

Section GatewayAnswers.

Context {JRaw : JSON RawWebhookMessage}.

Lemma gateway_status_written (w : World) (h : Trace) (env : Env)
    (mq : option RabbitMQ) (r : http.Request) :
  statuses (trace_of w h (WebhookHandler env mq r)) = [gateway_status env r]
  /\ exists data, bodies (trace_of w h (WebhookHandler env mq r)) = [data].
Proof.
  unfold gateway_status.
  destruct (http.req_Body r) as [body | err] eqn:B.
  2:{ unfold WebhookHandler. rewrite B, http_Error_trace. simpl. eauto. }
  destruct (Getenv env "WEBHOOK_SECRET" =? "")%string eqn:S.
  { unfold WebhookHandler. rewrite B, S, http_Error_trace. simpl. eauto. }
  destruct (request_signature r =? "")%string eqn:N.
  { unfold WebhookHandler. rewrite B, S, N, http_Error_trace. simpl. eauto. }
  destruct (verifyWebhookSignature body (request_signature r)
              (Getenv env "WEBHOOK_SECRET")) eqn:V.
  2:{ unfold WebhookHandler. rewrite B, S, N, V. simpl negb. cbv iota.
      rewrite http_Error_trace. simpl. eauto. }
  apply String.eqb_neq in S. apply verifyWebhookSignature_spec in V.
  rewrite (accepted_trace w h env mq r body B S V). cbv zeta.
  destruct (isPREvent (request_eventType r)); [| simpl; eauto].
  destruct mq as [q |]; [| simpl; eauto].
  rewrite PublishRawEvent_trace.
  destruct (Marshal (raw_message r body)); simpl; eauto.
Qed.

(** X2. Whatever the request, the gateway writes exactly one status code
    and one body. The code is 200 exactly when the body could be read, the
    secret is configured and the signature matches; it is 500 exactly when
    the body could not be read or no secret is configured, also for a request
    without signature; it is 400 exactly when body and secret are there and
    no signature header is; otherwise it is 401. *)
Theorem gateway_answers_once (w : World) (h : Trace) (env : Env)
    (mq : option RabbitMQ) (r : http.Request) :
  exists (code : Z) (data : bytes),
    statuses (trace_of w h (WebhookHandler env mq r)) = [code]
    /\ bodies (trace_of w h (WebhookHandler env mq r)) = [data]
    /\ In code [http.StatusOK; http.StatusBadRequest; http.StatusUnauthorized;
                http.StatusInternalServerError]
    /\ (code = http.StatusOK
        <-> exists body, http.req_Body r = Ok body
                         /\ Getenv env "WEBHOOK_SECRET" <> ""
                         /\ signature_matches body (request_signature r)
                              (Getenv env "WEBHOOK_SECRET"))
    /\ (code = http.StatusInternalServerError
        <-> (exists err, http.req_Body r = Err err)
            \/ Getenv env "WEBHOOK_SECRET" = "")
    /\ (code = http.StatusBadRequest
        <-> (exists body, http.req_Body r = Ok body)
            /\ Getenv env "WEBHOOK_SECRET" <> ""
            /\ request_signature r = "").
Proof.
  destruct (gateway_status_written w h env mq r) as [S [data D]].
  exists (gateway_status env r), data.
  split; [exact S |]. split; [exact D |]. clear S D.
  unfold gateway_status, Ok, Err.
  destruct (http.req_Body r) as [body | err].
  2:{ split; [simpl; tauto |]. split; [| split].
      - split; [discriminate | intros (b & E & _); discriminate E].
      - split; [eauto | reflexivity].
      - split; [discriminate | intros [[b E] _]; discriminate E]. }
  destruct (String.eqb_spec (Getenv env "WEBHOOK_SECRET") "") as [S | S].
  { split; [simpl; tauto |]. split; [| split].
    - split; [discriminate | intros (b & _ & N & _); contradiction].
    - split; [auto | reflexivity].
    - split; [discriminate | intros (_ & N & _); contradiction]. }
  destruct (String.eqb_spec (request_signature r) "") as [N | N].
  { split; [simpl; tauto |]. split; [| split].
    - split; [discriminate |].
      intros (b & [= <-] & _ & M). rewrite N in M.
      destruct M as [M | M]; [| discriminate M].
      symmetry in M. exfalso. revert M. apply expected_signature_nonempty.
    - split; [discriminate |]. intros [[e E] | E]; [discriminate E | contradiction].
    - split; [eauto | reflexivity]. }
  destruct (verifyWebhookSignature body (request_signature r)
              (Getenv env "WEBHOOK_SECRET")) eqn:V.
  - apply verifyWebhookSignature_spec in V.
    split; [simpl; tauto |]. split; [| split].
    + split; [eauto | reflexivity].
    + split; [discriminate |]. intros [[e E] | E]; [discriminate E | contradiction].
    + split; [discriminate | intros (_ & _ & E); contradiction].
  - split; [simpl; tauto |]. split; [| split].
    + split; [discriminate |]. intros (b & [= <-] & _ & M).
      apply verifyWebhookSignature_spec in M. congruence.
    + split; [discriminate |]. intros [[e E] | E]; [discriminate E | contradiction].
    + split; [discriminate | intros (_ & _ & E); contradiction].
Qed.

(** The gateway makes no publish call, or it has verified the request and
    its calls are the acknowledgement and one publish. *)
Lemma gateway_trace_cases (w : World) (h : Trace) (env : Env)
    (mq : option RabbitMQ) (r : http.Request) :
  publish_calls (trace_of w h (WebhookHandler env mq r)) = []
  \/ exists (body : bytes) (q : RabbitMQ) (payload : bytes) (answer : option error),
    http.req_Body r = Ok body
    /\ Getenv env "WEBHOOK_SECRET" <> ""
    /\ signature_matches body (request_signature r) (Getenv env "WEBHOOK_SECRET")
    /\ isPREvent (request_eventType r) = true
    /\ mq = Some q
    /\ Marshal (raw_message r body) = Ok payload
    /\ trace_of w h (WebhookHandler env mq r)
       = [Ev (WriteHeader http.StatusOK) tt;
          Ev (Write (to_bytes "received")) tt;
          Ev (PublishWithContext (pubCh q) "" rawEventsQueue false false
                {| ContentType := "application/json";
                   DeliveryMode := amqp_Persistent;
                   pub_Body := payload |}) answer].
Proof.
  destruct (http.req_Body r) as [body | err] eqn:B.
  2:{ unfold WebhookHandler. rewrite B, http_Error_trace.
      left; reflexivity. }
  destruct (Getenv env "WEBHOOK_SECRET" =? "")%string eqn:S.
  { unfold WebhookHandler. rewrite B, S, http_Error_trace.
    left; reflexivity. }
  destruct (request_signature r =? "")%string eqn:N.
  { unfold WebhookHandler. rewrite B, S, N, http_Error_trace.
    left; reflexivity. }
  destruct (verifyWebhookSignature body (request_signature r)
              (Getenv env "WEBHOOK_SECRET")) eqn:V.
  2:{ unfold WebhookHandler. rewrite B, S, N, V. simpl negb. cbv iota.
      rewrite http_Error_trace. left; reflexivity. }
  apply String.eqb_neq in S. apply verifyWebhookSignature_spec in V.
  rewrite (accepted_trace w h env mq r body B S V). cbv zeta.
  destruct (isPREvent (request_eventType r)) eqn:I;
    [| left; reflexivity].
  destruct mq as [q |]; [| left; reflexivity].
  rewrite PublishRawEvent_trace.
  destruct (Marshal (raw_message r body)) as [payload | err] eqn:M;
    [| left; reflexivity].
  right. exists body, q, payload. eexists.
  repeat split; assumption.
Qed.

(** X3. The gateway calls the broker only for a request that it has
    verified: if a publish call occurs, the body was read, the secret is
    configured, the signature matches, the event type is of the pull-request
    class and the queue client is there; the call is then the only one, made
    on the client's publish channel after the acknowledgement, and carries the
    encoding of the message built from the request. *)
Theorem gateway_publishes_only_verified (w : World) (h : Trace) (env : Env)
    (mq : option RabbitMQ) (r : http.Request) :
  publish_calls (trace_of w h (WebhookHandler env mq r)) <> [] ->
  exists (body : bytes) (q : RabbitMQ) (payload : bytes) (answer : option error),
    http.req_Body r = Ok body
    /\ Getenv env "WEBHOOK_SECRET" <> ""
    /\ signature_matches body (request_signature r) (Getenv env "WEBHOOK_SECRET")
    /\ isPREvent (request_eventType r) = true
    /\ mq = Some q
    /\ Marshal (raw_message r body) = Ok payload
    /\ trace_of w h (WebhookHandler env mq r)
       = [Ev (WriteHeader http.StatusOK) tt;
          Ev (Write (to_bytes "received")) tt;
          Ev (PublishWithContext (pubCh q) "" rawEventsQueue false false
                {| ContentType := "application/json";
                   DeliveryMode := amqp_Persistent;
                   pub_Body := payload |}) answer].
Proof.
  intros P. destruct (gateway_trace_cases w h env mq r) as [E | V];
    [contradiction | exact V].
Qed.

End GatewayAnswers.

Lemma gateway_publishes_only_verified_witness :
  publish_calls
    (trace_of (sample.world 200 []) []
       (WebhookHandler (JRaw := sample.json_raw) sample.env (Some sample.mq)
          sample.pr_request))
  <> []
  /\ isPREvent (request_eventType sample.pr_request) = true.
Proof.
  assert (P : publish_calls
                (trace_of (sample.world 200 []) []
                   (WebhookHandler (JRaw := sample.json_raw) sample.env
                      (Some sample.mq) sample.pr_request)) <> [])
    by (vm_compute; discriminate).
  split; [exact P |].
  destruct (gateway_publishes_only_verified (JRaw := sample.json_raw) _ _ _ _ _ P)
    as (body & q & payload & answer & _ & _ & _ & I & _).
  exact I.
Defined.

(** X4. A message the gateway builds for a pull-request-class event never
    carries the platform "unknown": its platform is GitHub, with the event
    type of X-GitHub-Event, or Bitbucket, with the event type of X-Event-Key
    and an empty X-GitHub-Event. *)
Theorem published_platform_known (r : http.Request) (body : bytes) :
  isPREvent (msg_EventType (raw_message r body)) = true ->
  (msg_Platform (raw_message r body) = PlatformGitHub
   /\ msg_EventType (raw_message r body)
      = http.Get (http.req_Header r) "X-GitHub-Event")
  \/ (msg_Platform (raw_message r body) = PlatformBitbucket
      /\ msg_EventType (raw_message r body)
         = http.Get (http.req_Header r) "X-Event-Key"
      /\ http.Get (http.req_Header r) "X-GitHub-Event" = "").
Proof.
  unfold raw_message, request_eventType, DetectPlatform. cbn [msg_Platform msg_EventType].
  destruct (String.eqb_spec (http.Get (http.req_Header r) "X-GitHub-Event") "")
    as [G | G]; cbn [negb].
  - destruct (String.eqb_spec (http.Get (http.req_Header r) "X-Event-Key") "")
      as [K | K]; cbn [negb].
    + rewrite G. intros I. discriminate I.
    + intros _. right. repeat split. exact G.
  - intros _. left. split; reflexivity.
Qed.

Lemma published_platform_known_witness :
  isPREvent (msg_EventType (raw_message sample.pr_request sample.body)) = true
  /\ msg_Platform (raw_message sample.pr_request sample.body) <> PlatformUnknown.
Proof.
  assert (I : isPREvent (msg_EventType (raw_message sample.pr_request sample.body))
              = true) by (vm_compute; reflexivity).
  split; [exact I |].
  destruct (published_platform_known _ _ I) as [[P _] | [P _]];
    rewrite P; discriminate.
Defined.

(** ** Constructing adapters *)

(** The adapter NewSCMAdapter returns is of the platform asked for. *)
Lemma NewSCMAdapter_Platform (env : Env) (platform : SCMPlatform)
    (a : SCMAdapter) :
  NewSCMAdapter env platform = Ok a -> Adapter.Platform a = platform.
Proof.
  unfold NewSCMAdapter.
  destruct (String.eqb_spec platform PlatformGitHub) as [-> | NG].
  - destruct (NewGitHubAdapter env); [| discriminate].
    intros [= <-]. reflexivity.
  - destruct (String.eqb_spec platform PlatformBitbucket) as [-> | NB];
      [| discriminate].
    destruct (NewBitbucketAdapter env); [| discriminate].
    intros [= <-]. reflexivity.
Qed.

(** X5. NewSCMAdapter succeeds exactly for the platform "github" with both
    GitHub credentials set, and for "bitbucket" with both Bitbucket
    credentials set; for any other platform, "unknown" included, it fails.
    The adapter it returns reports the platform it was asked for and holds
    the credentials of the environment. *)
Theorem NewSCMAdapter_platform (env : Env) (platform : SCMPlatform) :
  (is_ok (NewSCMAdapter env platform) = true
   <-> (platform = PlatformGitHub
        /\ Getenv env "GITHUB_APP_ID" <> ""
        /\ Getenv env "GITHUB_PRIVATE_KEY" <> "")
       \/ (platform = PlatformBitbucket
           /\ Getenv env "BITBUCKET_USERNAME" <> ""
           /\ Getenv env "BITBUCKET_APP_PASSWORD" <> ""))
  /\ (forall a : SCMAdapter,
        NewSCMAdapter env platform = Ok a ->
        Adapter.Platform a = platform
        /\ match a with
           | GitHub g =>
               GitHubAdapter.appID g = Getenv env "GITHUB_APP_ID"
               /\ GitHubAdapter.privateKey g = Getenv env "GITHUB_PRIVATE_KEY"
           | Bitbucket b =>
               BitbucketAdapter.username b = Getenv env "BITBUCKET_USERNAME"
               /\ BitbucketAdapter.appPassword b
                  = Getenv env "BITBUCKET_APP_PASSWORD"
               /\ BitbucketAdapter.baseURL b = "https://api.bitbucket.org/2.0"
           end).
Proof.
  unfold NewSCMAdapter, NewGitHubAdapter, NewBitbucketAdapter, Ok, Err.
  destruct (String.eqb_spec platform PlatformGitHub) as [-> | NG].
  - destruct (String.eqb_spec (Getenv env "GITHUB_APP_ID") "") as [I | I];
      destruct (String.eqb_spec (Getenv env "GITHUB_PRIVATE_KEY") "") as [K | K];
      simpl; (split; [split |]);
      try discriminate; try (intros a [= <-]; repeat split);
      try (intros [(_ & A & B) | (C & _)]; [contradiction | discriminate C]);
      try (intros _; left; repeat split; assumption); try reflexivity.
  - destruct (String.eqb_spec platform PlatformBitbucket) as [-> | NB].
    + destruct (String.eqb_spec (Getenv env "BITBUCKET_USERNAME") "") as [I | I];
        destruct (String.eqb_spec (Getenv env "BITBUCKET_APP_PASSWORD") "")
          as [K | K];
        simpl; (split; [split |]);
        try discriminate; try (intros a [= <-]; repeat split);
        try (intros [(C & _) | (_ & A & B)]; [discriminate C | contradiction]);
        try (intros _; right; repeat split; assumption); try reflexivity.
    + simpl. split; [split |]; try discriminate.
      intros [(C & _) | (C & _)]; contradiction.
Qed.

Lemma NewSCMAdapter_platform_witness :
  NewSCMAdapter cases.env PlatformBitbucket = Ok sample.bitbucket
  /\ Adapter.Platform sample.bitbucket = PlatformBitbucket.
Proof.
  assert (N : NewSCMAdapter cases.env PlatformBitbucket = Ok sample.bitbucket)
    by (vm_compute; reflexivity).
  split; [exact N |].
  exact (proj1 (proj2 (NewSCMAdapter_platform cases.env PlatformBitbucket) _ N)).
Defined.

(** ** Publishing *)

Section Publishing.

Context {JRaw : JSON RawWebhookMessage} {JEvent : JSON NormalizedEvent}.

Lemma PublishRawEvent_run (w : World) (h : Trace) (q : RabbitMQ)
    (m : RawWebhookMessage) :
  run w h (PublishRawEvent q m)
  = match Marshal m with
    | inr err => (Some (wrapError "rabbitmq: failed to marshal raw event" err), [])
    | inl payload =>
        let e := PublishWithContext (pubCh q) "" rawEventsQueue false false
                   {| ContentType := "application/json";
                      DeliveryMode := amqp_Persistent;
                      pub_Body := payload |} in
        (match w h _ e with
         | Some err => Some (wrapError "rabbitmq: failed to publish raw event" err)
         | None => None
         end, [Ev e (w h _ e)])
    end.
Proof.
  unfold PublishRawEvent.
  destruct (Marshal m) as [payload | err]; simpl; [| reflexivity].
  destruct (w h _ _); reflexivity.
Qed.

Lemma PublishNormalizedEvent_run (w : World) (h : Trace) (q : RabbitMQ)
    (event : NormalizedEvent) :
  run w h (PublishNormalizedEvent q event)
  = match Marshal event with
    | inr err =>
        (Some (wrapError "rabbitmq: failed to marshal normalized event" err), [])
    | inl payload =>
        let e := PublishWithContext (pubCh q) "" normalizedEventsQueue false false
                   {| ContentType := "application/json";
                      DeliveryMode := amqp_Persistent;
                      pub_Body := payload |} in
        (match w h _ e with
         | Some err =>
             Some (wrapError "rabbitmq: failed to publish normalized event" err)
         | None => None
         end, [Ev e (w h _ e)])
    end.
Proof.
  unfold PublishNormalizedEvent.
  destruct (Marshal event) as [payload | err]; simpl; [| reflexivity].
  destruct (w h _ _); reflexivity.
Qed.

(** X6. PublishRawEvent and PublishNormalizedEvent return nil exactly when
    the message serialises and the broker accepts it, and then exactly that
    serialisation is on the function's own queue. Each makes at most one
    broker call, none when serialisation fails; the call goes to the default
    exchange with the queue's name as routing key, as a persistent message of
    content type application/json; neither function puts anything on the
    other's queue. *)
Theorem publish_outcome (w : World) (h : Trace) (q : RabbitMQ)
    (m : RawWebhookMessage) (event : NormalizedEvent) :
  let tr := trace_of w h (PublishRawEvent q m) in
  let tn := trace_of w h (PublishNormalizedEvent q event) in
  (result_of w h (PublishRawEvent q m) = None
   <-> exists payload, Marshal m = Ok payload
                       /\ queued rawEventsQueue tr = [payload])
  /\ (result_of w h (PublishNormalizedEvent q event) = None
      <-> exists payload, Marshal event = Ok payload
                          /\ queued normalizedEventsQueue tn = [payload])
  /\ Forall (event_in (persistent_publish (pubCh q) rawEventsQueue)) tr
  /\ Forall (event_in (persistent_publish (pubCh q) normalizedEventsQueue)) tn
  /\ (length tr <= 1)%nat /\ (length tn <= 1)%nat
  /\ (is_ok (Marshal m) = false -> tr = [])
  /\ (is_ok (Marshal event) = false -> tn = [])
  /\ queued normalizedEventsQueue tr = []
  /\ queued rawEventsQueue tn = [].
Proof.
  cbv zeta. unfold result_of, trace_of.
  rewrite PublishRawEvent_run, PublishNormalizedEvent_run. unfold Ok.
  destruct (Marshal m) as [pr | er]; destruct (Marshal event) as [pn | en];
    cbv zeta; cbn [fst snd is_ok];
    repeat match goal with
           | |- context [w h ?X ?e] => destruct (w h X e)
           end;
    repeat match goal with
           | |- _ /\ _ => split
           | |- _ <-> _ => split
           end;
    try discriminate; try reflexivity; try (cbn; lia);
    try (intros (p & E & Q); try discriminate E; discriminate Q);
    try (intros _; eexists; split; reflexivity);
    try (repeat constructor).
Qed.

End Publishing.

(** ** Acknowledgements of the consumers *)

Lemma acknowledgements_app (t1 t2 : Trace) :
  acknowledgements (t1 ++ t2) = acknowledgements t1 ++ acknowledgements t2.
Proof. apply omap_app. Qed.

Lemma closes_app (t1 t2 : Trace) : closes (t1 ++ t2) = closes t1 ++ closes t2.
Proof. apply omap_app. Qed.

Lemma leaves_deliveries_trace (t : Trace) :
  Forall (event_in leaves_deliveries) t ->
  acknowledgements t = [] /\ closes t = [].
Proof.
  induction 1 as [| [X e x] t He Ht IH]; [split; reflexivity |].
  destruct e; try contradiction; exact IH.
Qed.

Section Settling.

Context {A : Type} {JA : JSON A}.
Variable handler : A -> Prog unit.
Hypothesis handler_leaves :
  forall msg : A, satisfies leaves_deliveries (fun _ => True) (handler msg).

Lemma range_deliveries_settles (w : World) (ds : list Delivery) :
  forall h : Trace,
    acknowledgements (trace_of w h (range_deliveries handler ds))
    = map (settled A) ds
    /\ closes (trace_of w h (range_deliveries handler ds)) = [].
Proof.
  induction ds as [| d ds IH]; intros h; [split; reflexivity |].
  rewrite range_deliveries_cons. cbv zeta.
  rewrite acknowledgements_app, closes_app.
  change (map (settled A) (d :: ds)) with (settled A d :: map (settled A) ds).
  unfold settled at 1.
  destruct (Unmarshal (d_Body d)) as [msg | err]; cbn [is_ok].
  - rewrite acknowledgements_app, closes_app.
    destruct (leaves_deliveries_trace (trace_of w h (handler msg))) as [-> ->].
    { apply (satisfies_run leaves_deliveries (fun _ => True)), handler_leaves. }
    destruct (IH (h ++ trace_of w h (handler msg) ++ [Ev (Ack d false) tt]))
      as [-> ->].
    split; reflexivity.
  - destruct (IH (h ++ [Ev (Nack d false false) tt])) as [-> ->].
    split; reflexivity.
Qed.

Lemma consume_queue_settles (w : World) (h : Trace) (queue : string) :
  acknowledgements (trace_of w h (consume_queue queue handler))
  = settlements A w h queue
  /\ closes (trace_of w h (consume_queue queue handler)) = opened w h
  /\ (forall ch : Channel,
        w h _ ConnChannel = Ok ch ->
        exists t, trace_of w h (consume_queue queue handler)
                  = Ev ConnChannel (Ok ch) :: t ++ [Ev (ChannelClose ch) tt]).
Proof.
  rewrite consume_queue_trace. unfold settlements, opened, consume_call, Ok.
  destruct (w h _ ConnChannel) as [ch | err].
  2:{ repeat split. intros ch [=]. }
  cbv zeta.
  destruct (w (h ++ [Ev ConnChannel (inl ch)]) _
              (ChannelConsume ch queue "" false false false false))
    as [ds | err].
  - rewrite !acknowledgements_app, !closes_app.
    destruct (range_deliveries_settles w ds
                ((h ++ [Ev ConnChannel (inl ch)])
                 ++ [Ev (ChannelConsume ch queue "" false false false false)
                       (inl ds)])) as [-> ->].
    split; [cbn; rewrite app_nil_r; reflexivity |].
    split; [reflexivity |].
    intros ch' [= <-]. eexists. cbn [app]. rewrite app_comm_cons. reflexivity.
  - repeat split. intros ch' [= <-].
    exists [Ev (ChannelConsume ch queue "" false false false false) (inr err)].
    reflexivity.
Qed.

End Settling.

Section Normalization.

Context {JAdapter : AdapterJSON} {JEvent : JSON NormalizedEvent}.

Lemma GetPRFiles_adapter_calls (a : SCMAdapter) (owner repo : string)
    (prNumber : Z) :
  satisfies adapter_call (fun _ => True) (Adapter.GetPRFiles a owner repo prNumber).
Proof.
  destruct a as [g | b]; cbn [Adapter.GetPRFiles];
    unfold GitHubAdapter.GetPRFiles, GitHubAdapter.token, getPRChangedFiles,
      makeAuthenticatedRequest, BitbucketAdapter.GetPRFiles,
      BitbucketAdapter.request;
    sat_walk; exact I.
Qed.

Lemma NormalizeEvent_adapter_calls (a : SCMAdapter) (eventType : string)
    (payload : bytes) :
  satisfies adapter_call (fun _ => True)
    (Adapter.NormalizeEvent a eventType payload).
Proof.
  destruct a as [g | b]; cbn [Adapter.NormalizeEvent].
  - unfold GitHubAdapter.NormalizeEvent.
    destruct (Unmarshal payload) as [p | err]; [| apply sat_Ret; exact I].
    apply sat_Vis; [intros now; exact I | intros now].
    destruct (negb _ && _).
    + eapply satisfies_bind;
        [apply (GetPRFiles_adapter_calls (GitHub g)) |].
      intros [files | err] _; apply sat_Ret; exact I.
    + apply sat_Ret; exact I.
  - unfold BitbucketAdapter.NormalizeEvent.
    destruct (Unmarshal payload) as [p | err]; [| apply sat_Ret; exact I].
    destruct (mapBitbucketEventKey eventType) as [normalizedType action].
    destruct (match strings.SplitN2_slash _ with [] => _ | _ => _ end)
      as [owner repoName].
    apply sat_Vis; [intros now; exact I | intros now].
    destruct (negb _ && _).
    + eapply satisfies_bind;
        [apply (GetPRFiles_adapter_calls (Bitbucket b)) |].
      intros [files | err] _; apply sat_Ret; exact I.
    + apply sat_Ret; exact I.
Qed.

Lemma PublishNormalizedEvent_calls (mq : RabbitMQ) (event : NormalizedEvent) :
  satisfies (persistent_publish (pubCh mq) normalizedEventsQueue) (fun _ => True)
    (PublishNormalizedEvent mq event).
Proof.
  unfold PublishNormalizedEvent. sat_walk; try exact I; repeat split.
Qed.

Lemma processRawEvent_calls (env : Env) (mq : RabbitMQ) (msg : RawWebhookMessage) :
  satisfies (processing_call mq) (fun _ => True) (processRawEvent env mq msg).
Proof.
  unfold processRawEvent.
  destruct (NewSCMAdapter env (msg_Platform msg)) as [a | err];
    [| apply sat_Ret; exact I].
  eapply satisfies_bind.
  { eapply satisfies_weaken; [| | apply NormalizeEvent_adapter_calls].
    - intros X e x H. left. exact H.
    - intros r H. exact H. }
  intros [event | err] _; [| apply sat_Ret; exact I].
  eapply satisfies_bind.
  { eapply satisfies_weaken; [| | apply PublishNormalizedEvent_calls].
    - intros X e x H. right. exact H.
    - intros r H. exact H. }
  intros r _. apply sat_Ret; exact I.
Qed.

Lemma processing_leaves_deliveries (mq : RabbitMQ) (X : Type) (e : IO X) (x : X) :
  processing_call mq X e x -> leaves_deliveries X e x.
Proof.
  unfold processing_call, adapter_call, persistent_publish, leaves_deliveries.
  destruct e; tauto.
Qed.

Lemma eventBusHandler_calls (url : string) (event : NormalizedEvent) :
  satisfies
    (fun X e _ =>
       match e with
       | ClientDo req => url <> "" /\ exists body, Marshal event = Ok body
                                                   /\ req = post_json url body
       | _ => False
       end)
    (fun _ => True) (eventBusHandler url event).
Proof.
  unfold eventBusHandler, DeliverEvent.
  destruct (String.eqb_spec url "") as [E | N]; [sat_walk; exact I |].
  destruct (Marshal event) as [body | err] eqn:M; [| sat_walk; exact I].
  sat_walk; try exact I. split; [exact N |]. exists body. split; reflexivity.
Qed.

End Normalization.

(** X7. In every run of StartConsumer and of StartEventBusConsumer each
    delivery received is answered exactly once, in the order of arrival: with
    a positive acknowledgement when its body decodes, whatever became of the
    handler (no adapter for the platform, a payload that does not parse, a
    failed publish, a Platform BE that is down), and with a negative one
    without requeue when it does not. Nothing is answered when the channel or
    the registration fails. A channel that was opened is closed once, as the
    last call of the run. *)
Theorem consumers_settle_each_delivery
    {JAdapter : AdapterJSON} {JEvent : JSON NormalizedEvent}
    {JRaw : JSON RawWebhookMessage}
    (w : World) (h : Trace) (env : Env) (mq : RabbitMQ) :
  let tn := trace_of w h (StartConsumer env mq) in
  let tb := trace_of w h (StartEventBusConsumer env mq) in
  acknowledgements tn = settlements RawWebhookMessage w h rawEventsQueue
  /\ acknowledgements tb = settlements NormalizedEvent w h normalizedEventsQueue
  /\ closes tn = opened w h
  /\ closes tb = opened w h
  /\ forall ch : Channel,
       w h _ ConnChannel = Ok ch ->
       (exists t, tn = Ev ConnChannel (Ok ch) :: t ++ [Ev (ChannelClose ch) tt])
       /\ (exists t, tb = Ev ConnChannel (Ok ch) :: t ++ [Ev (ChannelClose ch) tt]).
Proof.
  cbv zeta.
  assert (N : forall msg : RawWebhookMessage,
             satisfies leaves_deliveries (fun _ => True)
               (processRawEvent env mq msg)).
  { intros msg. eapply satisfies_weaken; [| | apply processRawEvent_calls].
    - apply processing_leaves_deliveries.
    - intros r H. exact H. }
  assert (B : forall event : NormalizedEvent,
             satisfies leaves_deliveries (fun _ => True)
               (eventBusHandler (Getenv env "PLATFORM_BE_URL") event)).
  { intros event. eapply satisfies_weaken; [| | apply eventBusHandler_calls].
    - intros X e x. destruct e; try contradiction. intros _. exact I.
    - intros r H. exact H. }
  destruct (consume_queue_settles _ N w h rawEventsQueue) as (N1 & N2 & N3).
  destruct (consume_queue_settles _ B w h normalizedEventsQueue)
    as (B1 & B2 & B3).
  repeat split; try assumption.
  - apply N3. assumption.
  - apply B3. assumption.
Qed.

(** ** One raw message through the normalization consumer *)

Lemma publish_calls_app (t1 t2 : Trace) :
  publish_calls (t1 ++ t2) = publish_calls t1 ++ publish_calls t2.
Proof. apply omap_app. Qed.

Lemma adapter_calls_trace (t : Trace) :
  Forall (event_in adapter_call) t ->
  publish_calls t = [] /\ statuses t = [] /\ bodies t = []
  /\ acknowledgements t = [].
Proof.
  induction 1 as [| [X e x] t He Ht IH]; [repeat split |].
  destruct e; try contradiction; exact IH.
Qed.

Section OneMessage.

Context {JAdapter : AdapterJSON} {JEvent : JSON NormalizedEvent}.

(** What a successful NormalizeEvent copies into the event without looking
    at it. *)
Lemma NormalizeEvent_event (a : SCMAdapter) (w : World) (h : Trace)
    (eventType : string) (payload : bytes) (ev : NormalizedEvent) :
  result_of w h (Adapter.NormalizeEvent a eventType payload) = inl ev ->
  Platform ev = Adapter.Platform a
  /\ RawPayload ev = payload
  /\ ReceivedAt ev = w h _ Now.
Proof.
  destruct a as [g | b]; cbn [Adapter.NormalizeEvent Adapter.Platform].
  - unfold GitHubAdapter.NormalizeEvent.
    destruct (Unmarshal payload) as [p | err]; [| discriminate].
    rewrite result_of_seq.
    destruct (negb _ && _).
    + rewrite result_of_bind.
      destruct (result_of _ _ (GitHubAdapter.GetPRFiles _ _ _ _));
        rewrite result_of_Ret; intros [= <-]; repeat split.
    + rewrite result_of_Ret. intros [= <-]. repeat split.
  - unfold BitbucketAdapter.NormalizeEvent.
    destruct (Unmarshal payload) as [p | err]; [| discriminate].
    destruct (mapBitbucketEventKey eventType) as [normalizedType action].
    destruct (match strings.SplitN2_slash _ with [] => _ | _ => _ end)
      as [owner repoName].
    rewrite result_of_seq.
    destruct (negb _ && _).
    + rewrite result_of_bind.
      destruct (result_of _ _ (BitbucketAdapter.GetPRFiles _ _ _ _));
        rewrite result_of_Ret; intros [= <-]; repeat split.
    + rewrite result_of_Ret. intros [= <-]. repeat split.
Qed.

(** NormalizeEvent fails exactly on a payload that does not parse, and then
    before any call. *)
Lemma NormalizeEvent_parses (a : SCMAdapter) (w : World) (h : Trace)
    (eventType : string) (payload : bytes) :
  if payload_parses a payload
  then exists ev, result_of w h (Adapter.NormalizeEvent a eventType payload)
                  = inl ev
  else trace_of w h (Adapter.NormalizeEvent a eventType payload) = []
       /\ exists err, result_of w h (Adapter.NormalizeEvent a eventType payload)
                      = inr err.
Proof.
  destruct a as [g | b]; cbn [Adapter.NormalizeEvent payload_parses].
  - destruct (Unmarshal payload) as [p | err] eqn:U; cbn [is_ok].
    + destruct (gh_NormalizeEvent_run w h g eventType payload p U)
        as (ev & R & _).
      exists ev. unfold result_of. rewrite R. reflexivity.
    + unfold GitHubAdapter.NormalizeEvent. rewrite U.
      split; [reflexivity | eexists; reflexivity].
  - destruct (Unmarshal payload) as [p | err] eqn:U; cbn [is_ok].
    + destruct (bb_NormalizeEvent_run w h b eventType payload p U)
        as (ev & R & _).
      exists ev. unfold result_of. rewrite R. reflexivity.
    + unfold BitbucketAdapter.NormalizeEvent. rewrite U.
      split; [reflexivity | eexists; reflexivity].
Qed.

Lemma PublishNormalizedEvent_trace (w : World) (h : Trace) (q : RabbitMQ)
    (event : NormalizedEvent) :
  trace_of w h (PublishNormalizedEvent q event)
  = match Marshal event with
    | inr _ => []
    | inl payload =>
        let e := PublishWithContext (pubCh q) "" normalizedEventsQueue false false
                   {| ContentType := "application/json";
                      DeliveryMode := amqp_Persistent;
                      pub_Body := payload |} in
        [Ev e (w h _ e)]
    end.
Proof.
  unfold trace_of. rewrite PublishNormalizedEvent_run.
  destruct (Marshal event); reflexivity.
Qed.

Lemma processRawEvent_trace (w : World) (h : Trace) (env : Env) (mq : RabbitMQ)
    (msg : RawWebhookMessage) :
  trace_of w h (processRawEvent env mq msg)
  = match NewSCMAdapter env (msg_Platform msg) with
    | inr _ => []
    | inl a =>
        let n := Adapter.NormalizeEvent a (msg_EventType msg) (msg_Payload msg) in
        trace_of w h n
        ++ match result_of w h n with
           | inr _ => []
           | inl ev =>
               trace_of w (h ++ trace_of w h n) (PublishNormalizedEvent mq ev)
           end
    end.
Proof.
  unfold processRawEvent.
  destruct (NewSCMAdapter env (msg_Platform msg)) as [a | err]; [| reflexivity].
  cbv zeta. rewrite trace_of_bind.
  destruct (result_of w h (Adapter.NormalizeEvent a _ _)) as [ev | err].
  - rewrite trace_of_bind, trace_of_Ret, app_nil_r. reflexivity.
  - rewrite trace_of_Ret. reflexivity.
Qed.

(** X8. processRawEvent on one raw message: when no adapter can be built
    for the message's platform, or the payload does not parse, it returns
    without a single call. Otherwise it normalizes the payload into an event
    of the message's platform that carries the payload byte for byte, and
    makes exactly one publish call, to the normalized events queue with the
    serialised event, whether or not the changed files could be fetched;
    when the event does not serialise it publishes nothing. *)
Theorem processRawEvent_outcome (w : World) (h : Trace) (env : Env)
    (mq : RabbitMQ) (msg : RawWebhookMessage) :
  let t := trace_of w h (processRawEvent env mq msg) in
  match NewSCMAdapter env (msg_Platform msg) with
  | inr _ => t = []
  | inl a =>
      if payload_parses a (msg_Payload msg)
      then exists ev : NormalizedEvent,
          result_of w h
            (Adapter.NormalizeEvent a (msg_EventType msg) (msg_Payload msg))
          = Ok ev
          /\ Platform ev = msg_Platform msg
          /\ RawPayload ev = msg_Payload msg
          /\ match Marshal ev with
             | inl body =>
                 exists answer : option error,
                   publish_calls t
                   = [(normalizedEventsQueue,
                       {| ContentType := "application/json";
                          DeliveryMode := amqp_Persistent;
                          pub_Body := body |},
                       answer)]
             | inr _ => publish_calls t = []
             end
      else t = []
  end.
Proof.
  cbv zeta. rewrite processRawEvent_trace.
  destruct (NewSCMAdapter env (msg_Platform msg)) as [a | err] eqn:A;
    [| reflexivity].
  cbv zeta.
  pose proof (NormalizeEvent_parses a w h (msg_EventType msg) (msg_Payload msg))
    as P.
  destruct (payload_parses a (msg_Payload msg)).
  - destruct P as [ev R]. rewrite R. exists ev.
    destruct (NormalizeEvent_event a w h _ _ ev R) as (E1 & E2 & _).
    split; [reflexivity |]. split.
    { rewrite E1.
      exact (NewSCMAdapter_Platform env (msg_Platform msg) a A). }
    split; [exact E2 |].
    rewrite publish_calls_app.
    destruct (adapter_calls_trace
                (trace_of w h (Adapter.NormalizeEvent a (msg_EventType msg)
                                 (msg_Payload msg)))) as (-> & _).
    { apply (satisfies_run adapter_call (fun _ => True)),
        NormalizeEvent_adapter_calls. }
    rewrite PublishNormalizedEvent_trace.
    destruct (Marshal ev) as [body | err]; [| reflexivity].
    eexists. reflexivity.
  - destruct P as [T [err R]]. rewrite R, T. reflexivity.
Qed.

(** A publish call of processRawEvent, read backwards. *)
Lemma processRawEvent_published (w : World) (h : Trace) (env : Env)
    (mq : RabbitMQ) (msg : RawWebhookMessage)
    (published : string * Publishing * option error) :
  In published (publish_calls (trace_of w h (processRawEvent env mq msg))) ->
  exists (ev : NormalizedEvent) (body : bytes) (answer : option error),
    Platform ev = msg_Platform msg
    /\ RawPayload ev = msg_Payload msg
    /\ Marshal ev = Ok body
    /\ published = (normalizedEventsQueue,
                    {| ContentType := "application/json";
                       DeliveryMode := amqp_Persistent;
                       pub_Body := body |},
                    answer)
    /\ publish_calls (trace_of w h (processRawEvent env mq msg)) = [published].
Proof.
  rewrite processRawEvent_trace.
  destruct (NewSCMAdapter env (msg_Platform msg)) as [a | err] eqn:A;
    [| intros []].
  cbv zeta. rewrite publish_calls_app.
  destruct (adapter_calls_trace
              (trace_of w h (Adapter.NormalizeEvent a (msg_EventType msg)
                               (msg_Payload msg)))) as (-> & _).
  { apply (satisfies_run adapter_call (fun _ => True)),
      NormalizeEvent_adapter_calls. }
  destruct (result_of w h (Adapter.NormalizeEvent a _ _)) as [ev | err] eqn:R;
    [| intros []].
  rewrite PublishNormalizedEvent_trace.
  destruct (Marshal ev) as [body | err] eqn:M; [| intros []].
  intros [<- | []].
  destruct (NormalizeEvent_event a w h _ _ ev R) as (E1 & E2 & _).
  exists ev, body. eexists.
  split; [rewrite E1; exact (NewSCMAdapter_Platform env _ a A) |].
  split; [exact E2 |]. split; [exact M |]. split; reflexivity.
Qed.

End OneMessage.

(** ** The calls of the two consumers *)

Lemma http_calls_app (t1 t2 : Trace) :
  http_calls (t1 ++ t2) = http_calls t1 ++ http_calls t2.
Proof. apply omap_app. Qed.

Section Loops.

Context {A : Type} {JA : JSON A}.
Variable E : forall X : Type, IO X -> X -> Prop.
Hypothesis loop_in : forall X (e : IO X) (x : X), loop_call X e x -> E X e x.
Variable handler : A -> Prog unit.
Hypothesis handler_in :
  forall msg : A, satisfies E (fun _ => True) (handler msg).

Lemma range_deliveries_satisfies (ds : list Delivery) :
  satisfies E (fun _ => True) (range_deliveries handler ds).
Proof.
  induction ds as [| d ds IH]; [apply sat_Ret; exact I |].
  cbn [range_deliveries].
  destruct (Unmarshal (d_Body d)) as [msg | err].
  - eapply satisfies_bind; [apply handler_in |]. intros _ _.
    apply sat_Vis; [intros x; apply loop_in; exact I | intros _; exact IH].
  - apply sat_Vis; [intros x; apply loop_in; exact I | intros _; exact IH].
Qed.

Lemma consume_queue_satisfies (queue : string) :
  satisfies E (fun _ => True) (consume_queue queue handler).
Proof.
  unfold consume_queue.
  apply sat_Vis; [intros x; apply loop_in; exact I | intros [ch | err]];
    [| apply sat_Ret; exact I].
  apply sat_Vis; [intros x; apply loop_in; exact I | intros [ds | err]].
  - eapply satisfies_bind; [apply range_deliveries_satisfies |]. intros _ _.
    apply sat_Vis; [intros x; apply loop_in; exact I | intros _].
    apply sat_Ret; exact I.
  - apply sat_Vis; [intros x; apply loop_in; exact I | intros _].
    apply sat_Ret; exact I.
Qed.

(** What an observer that does not see acknowledgements reads off the loop,
    when what it reads off the handler depends on the message only. *)
Lemma range_deliveries_observed {B : Type} (obs : Event -> option B)
    (f : A -> list B) (w : World) (ds : list Delivery) :
  (forall h msg, omap obs (trace_of w h (handler msg)) = f msg) ->
  (forall d, obs (Ev (Ack d false) tt) = None) ->
  (forall d, obs (Ev (Nack d false false) tt) = None) ->
  forall h : Trace,
    omap obs (trace_of w h (range_deliveries handler ds))
    = concat (map (fun d => match Unmarshal (d_Body d) with
                            | inl msg => f msg
                            | inr _ => []
                            end) ds).
Proof.
  intros Hf Ha Hn. induction ds as [| d ds IH]; intros h; [reflexivity |].
  rewrite range_deliveries_cons. cbv zeta. rewrite omap_app, IH.
  cbn [map concat]. f_equal.
  destruct (Unmarshal (d_Body d)) as [msg | err].
  - rewrite omap_app, Hf. cbn [omap list_omap]. rewrite Ha. apply app_nil_r.
  - cbn [omap list_omap]. rewrite Hn. reflexivity.
Qed.

(** The same with a bound in place of the exact reading. *)
Lemma range_deliveries_bounded {B : Type} (obs : Event -> option B)
    (w : World) (ds : list Delivery) :
  (forall h msg, (length (omap obs (trace_of w h (handler msg))) <= 1)%nat) ->
  (forall d, obs (Ev (Ack d false) tt) = None) ->
  (forall d, obs (Ev (Nack d false false) tt) = None) ->
  forall h : Trace,
    (length (omap obs (trace_of w h (range_deliveries handler ds)))
     <= length (filter (fun d => is_ok (Unmarshal (A := A) (d_Body d)) = true) ds))%nat.
Proof.
  intros Hf Ha Hn. induction ds as [| d ds IH]; intros h; [reflexivity |].
  rewrite range_deliveries_cons. cbv zeta. rewrite omap_app, length_app.
  rewrite filter_cons.
  specialize (Hf h).
  destruct (Unmarshal (d_Body d)) as [msg | err]; cbn [is_ok].
  - rewrite decide_True by reflexivity.
    rewrite omap_app, length_app. cbn [omap list_omap]. rewrite Ha.
    specialize (Hf msg).
    specialize (IH (h ++ trace_of w h (handler msg) ++ [Ev (Ack d false) tt])).
    cbn [length] in *. lia.
  - rewrite decide_False by discriminate.
    cbn [omap list_omap]. rewrite Hn.
    specialize (IH (h ++ [Ev (Nack d false false) tt])). cbn [length]. lia.
Qed.

End Loops.

Lemma normalization_calls_trace (mq : RabbitMQ) (t : Trace) :
  Forall (event_in (normalization_call mq)) t ->
  statuses t = [] /\ bodies t = [] /\ queued rawEventsQueue t = [].
Proof.
  induction 1 as [| [X e x] t He Ht IH]; [repeat split |].
  destruct IH as (S & B & Q).
  unfold normalization_call, loop_call, adapter_call, persistent_publish,
    event_in in He.
  destruct e; try (exfalso; tauto); try (repeat split; assumption).
  destruct He as [[] | [[] | (_ & _ & -> & _)]].
  repeat split; try assumption.
  unfold queued, publish_calls in *. cbn [omap list_omap publish_call].
  destruct x; exact Q.
Qed.

Lemma settled_acknowledged {A : Type} {JA : JSON A} (ds : list Delivery) :
  omap (fun a : Delivery + Delivery * bool =>
          match a with
          | inl d => Some d
          | inr _ => None
          end) (map (settled A) ds)
  = filter (fun d => is_ok (Unmarshal (A := A) (d_Body d)) = true) ds.
Proof.
  induction ds as [| d ds IH]; [reflexivity |].
  rewrite filter_cons. cbn [map omap list_omap]. unfold settled at 1.
  destruct (is_ok (Unmarshal (d_Body d))).
  - rewrite decide_True by reflexivity. cbn. f_equal. exact IH.
  - rewrite decide_False by discriminate. exact IH.
Qed.

Section ConsumerCalls.

Context {JAdapter : AdapterJSON} {JEvent : JSON NormalizedEvent}
  {JRaw : JSON RawWebhookMessage}.

Lemma processRawEvent_publishes_at_most_once (w : World) (h : Trace) (env : Env)
    (mq : RabbitMQ) (msg : RawWebhookMessage) :
  (length (publish_calls (trace_of w h (processRawEvent env mq msg))) <= 1)%nat.
Proof.
  rewrite processRawEvent_trace.
  destruct (NewSCMAdapter env (msg_Platform msg)) as [a | err]; [| cbn; lia].
  cbv zeta. rewrite publish_calls_app.
  destruct (adapter_calls_trace
              (trace_of w h (Adapter.NormalizeEvent a (msg_EventType msg)
                               (msg_Payload msg)))) as (-> & _).
  { apply (satisfies_run adapter_call (fun _ => True)),
      NormalizeEvent_adapter_calls. }
  destruct (result_of w h _) as [ev | err]; [| cbn; lia].
  rewrite PublishNormalizedEvent_trace.
  destruct (Marshal ev); cbn; lia.
Qed.

(** X9. Every call of a run of StartConsumer is one of: opening, using and
    closing its consumer channel, acknowledging a delivery, a call of an
    adapter (clock, token issuance, an HTTP request to the provider), or
    publishing a persistent JSON message to the normalized events queue on
    the publish channel. So it writes no HTTP response and puts nothing on
    the raw events queue it reads from; and it makes no more publish calls
    than it acknowledges deliveries positively. *)
Theorem StartConsumer_calls (w : World) (h : Trace) (env : Env)
    (mq : RabbitMQ) :
  let t := trace_of w h (StartConsumer env mq) in
  Forall (event_in (normalization_call mq)) t
  /\ statuses t = []
  /\ bodies t = []
  /\ queued rawEventsQueue t = []
  /\ (length (publish_calls t) <= length (acknowledged t))%nat.
Proof.
  cbv zeta.
  assert (F : Forall (event_in (normalization_call mq))
                (trace_of w h (StartConsumer env mq))).
  { apply (satisfies_run (normalization_call mq) (fun _ => True)).
    apply consume_queue_satisfies.
    - intros X e x L. left. exact L.
    - intros msg. eapply satisfies_weaken; [| | apply processRawEvent_calls].
      + intros X e x [C | P]; right; [left | right]; assumption.
      + intros r H. exact H. }
  destruct (normalization_calls_trace mq _ F) as (S & B & Q).
  repeat split; try assumption.
  assert (N : forall msg : RawWebhookMessage,
             satisfies leaves_deliveries (fun _ => True)
               (processRawEvent env mq msg)).
  { intros msg. eapply satisfies_weaken; [| | apply processRawEvent_calls].
    - apply processing_leaves_deliveries.
    - intros r H. exact H. }
  unfold acknowledged, StartConsumer, ConsumeRawEvents.
  destruct (consume_queue_settles _ N w h rawEventsQueue) as (-> & _).
  rewrite consume_queue_trace.
  unfold settlements, consume_call.
  destruct (w h _ ConnChannel) as [ch | err]; [| cbn; lia].
  cbv zeta.
  destruct (w (h ++ [Ev ConnChannel (inl ch)]) _
              (ChannelConsume ch rawEventsQueue "" false false false false))
    as [ds | err]; [| cbn; lia].
  rewrite settled_acknowledged, !publish_calls_app.
  cbn [publish_calls omap list_omap publish_call app]. rewrite app_nil_r.
  apply (range_deliveries_bounded (processRawEvent env mq) publish_call).
  - intros h' msg. apply processRawEvent_publishes_at_most_once.
  - reflexivity.
  - reflexivity.
Qed.

Lemma eventBusHandler_http_calls (w : World) (h : Trace) (url : string)
    (event : NormalizedEvent) :
  http_calls (trace_of w h (eventBusHandler url event))
  = if (url =? "")%string then []
    else match Marshal event with
         | inr _ => []
         | inl body => [post_json url body]
         end.
Proof.
  unfold eventBusHandler. rewrite trace_of_bind, trace_of_Ret, app_nil_r.
  unfold trace_of. rewrite DeliverEvent_run.
  destruct (url =? "")%string; [reflexivity |].
  destruct (Marshal event) as [body | err]; [| reflexivity].
  cbv zeta. destruct (w h _ (ClientDo (post_json url body))); reflexivity.
Qed.

Lemma posts_of_deliveries (url : string) (ds : list Delivery) :
  concat (map (fun d => match Unmarshal (A := NormalizedEvent) (d_Body d) with
                        | inl event =>
                            if (url =? "")%string then []
                            else match Marshal event with
                                 | inr _ => []
                                 | inl body => [post_json url body]
                                 end
                        | inr _ => []
                        end) ds)
  = omap (post_of url) ds.
Proof.
  induction ds as [| d ds IH]; [reflexivity |].
  cbn [map concat omap list_omap]. rewrite IH. unfold post_of at 2.
  destruct (url =? "")%string;
    destruct (Unmarshal (d_Body d)) as [event | err]; try reflexivity.
  destruct (Marshal event); reflexivity.
Qed.

(** X10. A run of StartEventBusConsumer makes one HTTP request per delivery
    whose body decodes to an event that serialises, in the order of arrival:
    a POST of that serialisation to PLATFORM_BE_URL as application/json, on a
    client with a timeout of ten seconds. What the Platform BE answers changes
    nothing in that: no request is repeated and none is left out after a
    failure. With PLATFORM_BE_URL unset it makes no request at all. It never
    publishes to a queue and writes no HTTP response. *)
Theorem StartEventBusConsumer_posts (w : World) (h : Trace) (env : Env)
    (mq : RabbitMQ) :
  let t := trace_of w h (StartEventBusConsumer env mq) in
  http_calls t
  = omap (post_of (Getenv env "PLATFORM_BE_URL"))
      (deliveries_of w h normalizedEventsQueue)
  /\ (Getenv env "PLATFORM_BE_URL" = "" -> http_calls t = [])
  /\ publish_calls t = []
  /\ statuses t = [].
Proof.
  cbv zeta.
  assert (H : http_calls (trace_of w h (StartEventBusConsumer env mq))
              = omap (post_of (Getenv env "PLATFORM_BE_URL"))
                  (deliveries_of w h normalizedEventsQueue)).
  { rewrite StartEventBusConsumer_loop, consume_queue_trace.
    unfold deliveries_of, consume_call.
    destruct (w h _ ConnChannel) as [ch | err]; [| reflexivity].
    cbv zeta.
    destruct (w (h ++ [Ev ConnChannel (inl ch)]) _
                (ChannelConsume ch normalizedEventsQueue "" false false false
                   false)) as [ds | err]; [| reflexivity].
    rewrite !http_calls_app. cbn [http_calls omap list_omap app].
    rewrite app_nil_r, <- posts_of_deliveries. unfold http_calls.
    apply (range_deliveries_observed
             (eventBusHandler (Getenv env "PLATFORM_BE_URL")) _
             (fun event =>
                if (Getenv env "PLATFORM_BE_URL" =? "")%string then []
                else match Marshal event with
                     | inr _ => []
                     | inl body => [post_json (Getenv env "PLATFORM_BE_URL") body]
                     end)).
    - intros h' event. apply eventBusHandler_http_calls.
    - reflexivity.
    - reflexivity. }
  split; [exact H |]. split.
  { intros U. rewrite H. clear H. unfold post_of. rewrite U. cbn.
    induction (deliveries_of w h normalizedEventsQueue) as [| d ds IH];
      [reflexivity | exact IH]. }
  assert (F : Forall (event_in
                        (fun X e x =>
                           loop_call X e x
                           \/ match e with ClientDo _ => True | _ => False end))
                (trace_of w h (StartEventBusConsumer env mq))).
  { apply (satisfies_run _ (fun _ => True)).
    rewrite StartEventBusConsumer_loop. apply consume_queue_satisfies.
    - intros X e x L. left. exact L.
    - intros event. eapply satisfies_weaken; [| | apply eventBusHandler_calls].
      + intros X e x C. right. destruct e; try contradiction. exact I.
      + intros r R. exact R. }
  clear H. induction F as [| [X e x] t He Ht IH]; [split; reflexivity |].
  unfold loop_call, event_in in He.
  destruct e; try (exfalso; tauto); exact IH.
Qed.

End ConsumerCalls.

(** ** From the gateway to the normalized events queue *)

Lemma queued_publish_calls (queue : string) (t : Trace) :
  publish_calls t = [] -> queued queue t = [].
Proof. unfold queued. intros ->. reflexivity. Qed.

(** X11. The gateway and the normalization consumer, composed. Suppose the
    gateway, run on a request with body [body], left [payload] on the raw
    events queue, that decoding undoes encoding on that message, and that a
    normalization consumer then receives one delivery with body [payload].
    Then the request's signature matched; the consumer acknowledges the
    delivery; and if it publishes, it publishes once, to the normalized
    events queue, the encoding of an event whose raw payload is the request
    body, byte for byte, and whose platform is the one detected from the
    request's headers. *)
Theorem gateway_to_normalized_event
    {JAdapter : AdapterJSON} {JEvent : JSON NormalizedEvent}
    {JRaw : JSON RawWebhookMessage}
    (w1 w2 : World) (h1 h2 : Trace) (env1 env2 : Env) (mq1 mq2 : RabbitMQ)
    (r : http.Request) (body payload : bytes) (d : Delivery) :
  http.req_Body r = Ok body ->
  queued rawEventsQueue (trace_of w1 h1 (WebhookHandler env1 (Some mq1) r))
  = [payload] ->
  (Marshal (raw_message r body) = Ok payload ->
   Unmarshal payload = Ok (raw_message r body)) ->
  deliveries_of w2 h2 rawEventsQueue = [d] ->
  d_Body d = payload ->
  let t2 := trace_of w2 h2 (StartConsumer env2 mq2) in
  signature_matches body (request_signature r) (Getenv env1 "WEBHOOK_SECRET")
  /\ acknowledgements t2 = [inl d]
  /\ forall (key : string) (msg : Publishing) (answer : option error),
       In (key, msg, answer) (publish_calls t2) ->
       key = normalizedEventsQueue
       /\ publish_calls t2 = [(key, msg, answer)]
       /\ exists ev : NormalizedEvent,
            Marshal ev = Ok (pub_Body msg)
            /\ RawPayload ev = body
            /\ Platform ev = DetectPlatform (http.req_Header r).
Proof.
  intros B Q RT D P. cbv zeta.
  (* the gateway *)
  assert (NE : publish_calls (trace_of w1 h1 (WebhookHandler env1 (Some mq1) r))
               <> []).
  { intros E. rewrite (queued_publish_calls _ _ E) in Q. discriminate Q. }
  destruct (gateway_trace_cases w1 h1 env1 (Some mq1) r)
    as [E | (body' & q & payload' & answer' & B' & _ & V & _ & _ & M & T)];
    [contradiction |].
  rewrite B in B'. injection B' as <-.
  rewrite T in Q. unfold queued in Q. cbn in Q.
  destruct answer'; [discriminate Q |]. injection Q as ->.
  specialize (RT M). subst payload.
  split; [exact V |].
  (* the consumer *)
  assert (N : forall msg : RawWebhookMessage,
             satisfies leaves_deliveries (fun _ => True)
               (processRawEvent env2 mq2 msg)).
  { intros msg. eapply satisfies_weaken; [| | apply processRawEvent_calls].
    - apply processing_leaves_deliveries.
    - intros x H. exact H. }
  unfold StartConsumer, ConsumeRawEvents.
  destruct (consume_queue_settles _ N w2 h2 rawEventsQueue) as (-> & _).
  rewrite consume_queue_trace.
  unfold settlements. unfold deliveries_of in D. unfold consume_call in *.
  destruct (w2 h2 _ ConnChannel) as [ch | err]; [| discriminate D].
  cbv zeta.
  destruct (w2 (h2 ++ [Ev ConnChannel (inl ch)]) _
              (ChannelConsume ch rawEventsQueue "" false false false false))
    as [ds | err]; [| discriminate D].
  subst ds. cbn [map]. unfold settled. rewrite RT. cbn [is_ok Ok].
  split; [reflexivity |].
  rewrite range_deliveries_cons. cbv zeta. rewrite RT. unfold Ok.
  rewrite !publish_calls_app. cbn [range_deliveries]. rewrite trace_of_Ret.
  cbn [publish_calls omap list_omap publish_call app]. rewrite !app_nil_r.
  set (hp := (h2 ++ [Ev ConnChannel (inl ch)]) ++ _).
  intros key msg answer IN.
  change (omap publish_call ?t) with (publish_calls t) in *.
  destruct (processRawEvent_published w2 hp env2 mq2 (raw_message r body) _ IN)
    as (ev & encoding & answer0 & EP & ER & ME & [= -> -> ->] & PC).
  split; [reflexivity |]. split; [exact PC |].
  exists ev. repeat split; assumption.
Qed.

Lemma gateway_to_normalized_event_witness :
  queued rawEventsQueue
    (trace_of (sample.world 200 []) []
       (WebhookHandler (JRaw := cases.json_raw) cases.env (Some sample.mq)
          sample.pr_request))
  = [cases.queued_pr]
  /\ acknowledgements
       (trace_of (sample.world 200 [cases.raw_delivery]) []
          (StartConsumer (JAdapter := sample.json_adapter)
             (JEvent := sample.json_event) (JRaw := cases.json_raw)
             cases.env sample.mq))
     = [inl cases.raw_delivery].
Proof.
  assert (B : http.req_Body sample.pr_request = Ok sample.body) by reflexivity.
  assert (Q : queued rawEventsQueue
                (trace_of (sample.world 200 []) []
                   (WebhookHandler (JRaw := cases.json_raw) cases.env
                      (Some sample.mq) sample.pr_request))
              = [cases.queued_pr]) by (vm_compute; reflexivity).
  assert (RT : Marshal (JSON := cases.json_raw)
                 (raw_message sample.pr_request sample.body)
               = Ok cases.queued_pr ->
               Unmarshal (JSON := cases.json_raw) cases.queued_pr
               = Ok (raw_message sample.pr_request sample.body))
    by (intros _; vm_compute; reflexivity).
  assert (D : deliveries_of (sample.world 200 [cases.raw_delivery]) []
                rawEventsQueue = [cases.raw_delivery]) by reflexivity.
  assert (P : d_Body cases.raw_delivery = cases.queued_pr) by reflexivity.
  split; [exact Q |].
  exact (proj1 (proj2 (gateway_to_normalized_event
                         (JAdapter := sample.json_adapter)
                         (JEvent := sample.json_event)
                         (JRaw := cases.json_raw)
                         (sample.world 200 []) _ [] [] cases.env cases.env
                         sample.mq sample.mq sample.pr_request sample.body
                         cases.queued_pr cases.raw_delivery B Q RT D P))).
Defined.

(** ** Fetching the changed files *)

Section FilesOutcome.

Context {JAdapter : AdapterJSON}.

(** X12. The GitHub adapter's GetPRFiles returns files exactly when the run
    shows a JWT signed with the adapter's credentials, an installation token
    issued for it, and one GET of the pull request's files with that token
    whose response body could be read, has no "message" member and decodes
    to a list of files; the files are then the decoded ones, in order. The
    response's status code plays no part in it: a body that decodes is
    accepted under any status, and a body with a "message" member is
    refused under any. *)
Theorem gh_GetPRFiles_outcome (w : World) (h : Trace) (g : GitHubAdapter.t)
    (owner repo : string) (prNumber : Z) (files : list NormalizedFile) :
  let t := trace_of w h (GitHubAdapter.GetPRFiles g owner repo prNumber) in
  result_of w h (GitHubAdapter.GetPRFiles g owner repo prNumber) = Ok files
  <-> exists (jwt tok : string) (resp : http.Response) (body : bytes)
        (raw : list PRFile),
        jwts_signed t
        = [(GitHubAdapter.appID g, GitHubAdapter.privateKey g, Ok jwt)]
        /\ tokens_issued t = [(jwt, owner, repo, Ok tok)]
        /\ http_exchanges t
           = [(github_files_request tok owner repo prNumber, Ok resp)]
        /\ http.resp_Body resp = (body, None)
        /\ api_message body = None
        /\ Unmarshal body = Ok raw
        /\ files = map GitHubAdapter.normalizeFile raw.
Proof.
  cbv zeta. unfold result_of, trace_of, GitHubAdapter.GetPRFiles,
    GitHubAdapter.token, getPRChangedFiles, makeAuthenticatedRequest, api_message.
  run_walk w; cbn;
    try (split;
         [discriminate
         | intros (jwt & tok & resp & body & raw & J & T & X & _); discriminate]).
  - split; [discriminate |].
    intros (jwt & tok & resp & body & raw & _ & _ & X & B & _).
    injection X as _ <-. rewrite B in *. discriminate.
  - split; [discriminate |].
    intros (jwt & tok & resp & body & raw & _ & _ & X & B & M & _).
    injection X as _ <-. rewrite B in *.
    match goal with H : (_, _) = (_, _) |- _ => injection H as <- end.
    rewrite M in *. discriminate.
  - split.
    + intros [= <-]. eexists _, _, _, _, _.
      repeat split; try reflexivity; eassumption.
    + intros (jwt & tok & resp & body & raw & _ & _ & X & B & M & U & ->).
      injection X as _ <-. rewrite B in *.
      match goal with H : (_, _) = (_, _) |- _ => injection H as <- end.
      unfold Ok in *. rewrite U in *.
      match goal with H : inl _ = inl _ |- _ => injection H as <- end.
      reflexivity.
  - split; [discriminate |].
    intros (jwt & tok & resp & body & raw & _ & _ & X & B & M & U & _).
    injection X as _ <-. rewrite B in *.
    match goal with H : (_, _) = (_, _) |- _ => injection H as <- end.
    unfold Ok in *. rewrite U in *. discriminate.
Qed.

(** X13. The Bitbucket adapter's GetPRFiles returns files exactly when the
    run shows one GET of the pull request's diffstat, with the adapter's
    basic-auth credentials, whose response body could be read, whose status
    is below 400 and whose body decodes to a diffstat; the files are then the
    diffstat's entries, one file each, in order. Unlike the GitHub adapter it
    refuses every response of status 400 or more, whatever the body. *)
Theorem bb_GetPRFiles_outcome (w : World) (h : Trace) (b : BitbucketAdapter.t)
    (owner repo : string) (prNumber : Z) (files : list NormalizedFile) :
  let t := trace_of w h (BitbucketAdapter.GetPRFiles b owner repo prNumber) in
  result_of w h (BitbucketAdapter.GetPRFiles b owner repo prNumber) = Ok files
  <-> exists (resp : http.Response) (body : bytes)
        (diffstat : bb.DiffstatResponse),
        http_exchanges t
        = [(bitbucket_files_request b owner repo prNumber, Ok resp)]
        /\ http.resp_Body resp = (body, None)
        /\ http.StatusCode resp < 400
        /\ Unmarshal body = Ok diffstat
        /\ files = map BitbucketAdapter.normalizeFile (bb.Values diffstat).
Proof.
  cbv zeta. unfold result_of, trace_of, BitbucketAdapter.GetPRFiles,
    BitbucketAdapter.request.
  run_walk w; cbn;
    try (split;
         [discriminate
         | intros (resp & body & diffstat & X & _); discriminate]).
  - split; [discriminate |].
    intros (resp & body & diffstat & X & B & _).
    injection X as <-. rewrite B in *. discriminate.
  - split; [discriminate |].
    intros (resp & body & diffstat & X & B & S & _).
    injection X as <-. lia.
  - split.
    + intros [= <-]. eexists _, _, _.
      repeat split; try reflexivity; try eassumption. lia.
    + intros (resp & body & diffstat & X & B & S & U & ->).
      injection X as <-. rewrite B in *.
      match goal with H : (_, _) = (_, _) |- _ => injection H as <- end.
      unfold Ok in *. rewrite U in *.
      match goal with H : inl _ = inl _ |- _ => injection H as <- end.
      reflexivity.
  - split; [discriminate |].
    intros (resp & body & diffstat & X & B & S & U & _).
    injection X as <-. rewrite B in *.
    match goal with H : (_, _) = (_, _) |- _ => injection H as <- end.
    unfold Ok in *. rewrite U in *. discriminate.
Qed.

End FilesOutcome.

(** ** The requests of the adapters *)

Lemma call_budget_sound {A : Type} (c : forall X : Type, IO X -> bool)
    (n : nat) (p : Prog A) :
  call_budget c n p ->
  forall (w : World) (h : Trace), (count_calls c (trace_of w h p) <= n)%nat.
Proof.
  unfold trace_of, count_calls.
  induction 1 as [n a | n X e k He Hk IH | n X e k He Hk IH]; intros w h;
    cbn [run].
  - cbn. lia.
  - specialize (IH (w h X e) w (h ++ [Ev e (w h X e)])).
    destruct (run w (h ++ [Ev e (w h X e)]) (k (w h X e))) as [a t].
    cbn [snd List.filter] in *. rewrite He. cbn [length]. lia.
  - specialize (IH (w h X e) w (h ++ [Ev e (w h X e)])).
    destruct (run w (h ++ [Ev e (w h X e)]) (k (w h X e))) as [a t].
    cbn [snd List.filter] in *. rewrite He. exact IH.
Qed.

Lemma count_http_calls (t : Trace) :
  count_calls is_http_call t = length (http_calls t).
Proof.
  unfold count_calls, http_calls.
  induction t as [| [X e x] t IH]; [reflexivity |].
  destruct e; cbn in *; congruence.
Qed.

Lemma count_jwt_calls (t : Trace) :
  count_calls is_jwt_call t = length (jwts_signed t).
Proof.
  unfold count_calls, jwts_signed.
  induction t as [| [X e x] t IH]; [reflexivity |].
  destruct e; cbn in *; congruence.
Qed.

Lemma count_token_calls (t : Trace) :
  count_calls is_token_call t = length (tokens_issued t).
Proof.
  unfold count_calls, tokens_issued.
  induction t as [| [X e x] t IH]; [reflexivity |].
  destruct e; cbn in *; congruence.
Qed.

Lemma reading_calls_trace (t : Trace) :
  Forall (event_in reading_call) t ->
  Forall (fun req => http.Method req = "GET" /\ http.ContentBody req = None)
    (http_calls t)
  /\ Forall (event_in adapter_call) t.
Proof.
  induction 1 as [| [X e x] t He Ht [IH1 IH2]]; [split; constructor |].
  destruct He as [Ha Hr]. split; [| constructor; assumption].
  destruct e; try exact IH1. constructor; assumption.
Qed.

Section Requests.

Context {JAdapter : AdapterJSON}.

(** On every path of NormalizeEvent: one request of its own, one JWT and
    one installation token at most. *)
Lemma NormalizeEvent_budget (a : SCMAdapter) (eventType : string)
    (payload : bytes) :
  call_budget is_http_call 1 (Adapter.NormalizeEvent a eventType payload)
  /\ call_budget is_jwt_call 1 (Adapter.NormalizeEvent a eventType payload)
  /\ call_budget is_token_call 1 (Adapter.NormalizeEvent a eventType payload).
Proof.
  repeat split; destruct a as [g | b]; adapter_paths; budget_walk.
Qed.

(** The Bitbucket adapter has no token to ask for. *)
Lemma bb_NormalizeEvent_budget (b : BitbucketAdapter.t) (eventType : string)
    (payload : bytes) :
  call_budget is_jwt_call 0 (BitbucketAdapter.NormalizeEvent b eventType payload)
  /\ call_budget is_token_call 0
       (BitbucketAdapter.NormalizeEvent b eventType payload).
Proof. split; adapter_paths; budget_walk. Qed.

Lemma NormalizeEvent_reading (a : SCMAdapter) (eventType : string)
    (payload : bytes) :
  satisfies reading_call (fun _ => True)
    (Adapter.NormalizeEvent a eventType payload).
Proof.
  destruct a as [g | b]; adapter_paths;
    sat_walk; try exact I; repeat split.
Qed.

(** X14. What normalizing one event costs. The adapters ask for the changed
    files at most once, whatever the pull request: NormalizeEvent sends at
    most one HTTP request of its own, a GET without body, and follows no
    further page. Before it the GitHub adapter signs at most one JWT and asks
    for at most one installation token; the requests which that issuance
    sends, the GET of the installations and the POST for the token, are part
    of the call getInstallationToken and are not counted among the requests
    here. The Bitbucket adapter signs nothing and asks for no token.
    NormalizeEvent publishes nothing, writes no HTTP response and
    acknowledges nothing. *)
Theorem NormalizeEvent_requests (a : SCMAdapter) (w : World) (h : Trace)
    (eventType : string) (payload : bytes) :
  let t := trace_of w h (Adapter.NormalizeEvent a eventType payload) in
  (length (http_calls t) <= 1)%nat
  /\ Forall (fun req => http.Method req = "GET" /\ http.ContentBody req = None)
       (http_calls t)
  /\ (length (jwts_signed t) <= 1)%nat
  /\ (length (tokens_issued t) <= 1)%nat
  /\ (Adapter.Platform a = PlatformBitbucket ->
      jwts_signed t = [] /\ tokens_issued t = [])
  /\ publish_calls t = []
  /\ statuses t = []
  /\ acknowledgements t = [].
Proof.
  cbv zeta.
  destruct (NormalizeEvent_budget a eventType payload) as (BH & BJ & BT).
  split.
  { rewrite <- count_http_calls. apply call_budget_sound, BH. }
  destruct (reading_calls_trace
              (trace_of w h (Adapter.NormalizeEvent a eventType payload)))
    as [R C].
  { apply (satisfies_run reading_call (fun _ => True)), NormalizeEvent_reading. }
  destruct (adapter_calls_trace _ C) as (P & S & _ & K).
  split; [exact R |].
  split; [rewrite <- count_jwt_calls; apply call_budget_sound, BJ |].
  split; [rewrite <- count_token_calls; apply call_budget_sound, BT |].
  split; [| repeat split; assumption].
  destruct a as [g | b]; [discriminate |]. intros _.
  cbn [Adapter.NormalizeEvent].
  destruct (bb_NormalizeEvent_budget b eventType payload) as [B0 B1].
  pose proof (call_budget_sound _ _ _ B0 w h) as L0.
  pose proof (call_budget_sound _ _ _ B1 w h) as L1.
  rewrite count_jwt_calls in L0. rewrite count_token_calls in L1.
  split; [destruct (jwts_signed _) | destruct (tokens_issued _)];
    try reflexivity; cbn in *; lia.
Qed.

End Requests.

(** ** What the adapters copy *)

Lemma cut_slash_Some (s a b : string) :
  strings.cut_slash s = Some (a, b) ->
  s = (a ++ "/" ++ b)%string /\ contains_slash a = false.
Proof.
  revert a. induction s as [| c s IH]; intros a; cbn [strings.cut_slash];
    [discriminate |].
  destruct (Ascii.eqb_spec c "/") as [-> | N].
  - intros [= <- <-]. split; reflexivity.
  - destruct (strings.cut_slash s) as [[a' b'] |]; [| discriminate].
    intros [= <- <-]. destruct (IH a' eq_refl) as [-> C].
    split; [reflexivity |].
    unfold contains_slash in *. cbn [list_ascii_of_string existsb].
    rewrite C, orb_false_r. apply Ascii.eqb_neq. congruence.
Qed.

Lemma cut_slash_None (s : string) :
  strings.cut_slash s = None <-> contains_slash s = false.
Proof.
  unfold contains_slash.
  induction s as [| c s IH]; cbn [strings.cut_slash list_ascii_of_string existsb];
    [tauto |].
  rewrite (Ascii.eqb_sym "/" c).
  destruct (Ascii.eqb c "/"); cbn [orb]; [split; discriminate |].
  destruct (strings.cut_slash s) as [[a b] |].
  - split; [discriminate |]. intros C. apply IH in C. discriminate C.
  - split; [intros _; apply IH; reflexivity | reflexivity].
Qed.

(** The first link of name "https" decides the clone URL. *)
Lemma httpsCloneURL_find (links : list bb.CloneLink) :
  BitbucketAdapter.httpsCloneURL links
  = match find (fun link => (bb.link_Name link =? "https")%string) links with
    | Some link => bb.link_Href link
    | None => ""
    end.
Proof.
  induction links as [| link links IH]; [reflexivity |].
  cbn [BitbucketAdapter.httpsCloneURL find].
  destruct (bb.link_Name link =? "https")%string; [reflexivity | exact IH].
Qed.

Section Copies.

Context {JAdapter : AdapterJSON}.

(** X15. An event the Bitbucket adapter returns names the repository as
    follows. When the payload's full name has a slash, the owner is what
    precedes the first one and the name is all that follows it, so that owner,
    slash and name give the full name back; when it has none, the owner is
    empty and the name is the payload's repository name. The clone URL is the
    address of the first clone link called "https", and empty when there is
    none. The number of the pull request is the payload's, and its state
    is the payload's in lower case (stated for a state of ASCII bytes). *)
Theorem bb_NormalizeEvent_repository (w : World) (h : Trace)
    (b : BitbucketAdapter.t) (eventType : string) (payload : bytes)
    (ev : NormalizedEvent) :
  result_of w h (BitbucketAdapter.NormalizeEvent b eventType payload) = Ok ev ->
  exists p : bb.WebhookPayload,
    Unmarshal payload = Ok p
    /\ FullName (Repository ev) = bb.repo_FullName (bb.p_Repository p)
    /\ (if contains_slash (FullName (Repository ev))
        then (Owner (Repository ev) ++ "/" ++ Name (Repository ev))%string
             = FullName (Repository ev)
             /\ contains_slash (Owner (Repository ev)) = false
        else Owner (Repository ev) = ""
             /\ Name (Repository ev) = bb.repo_Name (bb.p_Repository p))
    /\ CloneURL (Repository ev)
       = match find (fun link => (bb.link_Name link =? "https")%string)
                 (bb.repo_Links_Clone (bb.p_Repository p)) with
         | Some link => bb.link_Href link
         | None => ""
         end
    /\ Number (PR ev) = bb.pr_ID (bb.p_PullRequest p)
    /\ (only_ascii (bb.pr_State (bb.p_PullRequest p)) = true ->
        State (PR ev) = strings.ToLower (bb.pr_State (bb.p_PullRequest p))).
Proof.
  unfold BitbucketAdapter.NormalizeEvent.
  destruct (Unmarshal payload) as [p | err]; [| discriminate].
  intros R. exists p. split; [reflexivity |]. revert R.
  destruct (mapBitbucketEventKey eventType) as [normalizedType action].
  unfold strings.SplitN2_slash.
  destruct (strings.cut_slash (bb.repo_FullName (bb.p_Repository p)))
    as [[owner repoName] |] eqn:C.
  - assert (S : contains_slash (bb.repo_FullName (bb.p_Repository p)) = true).
    { destruct (contains_slash (bb.repo_FullName (bb.p_Repository p))) eqn:S;
        [reflexivity |].
      apply cut_slash_None in S. rewrite S in C. discriminate C. }
    apply cut_slash_Some in C as [F O].
    rewrite result_of_seq.
    destruct (negb _ && _).
    + rewrite result_of_bind.
      destruct (result_of _ _ (BitbucketAdapter.GetPRFiles _ _ _ _));
        rewrite result_of_Ret; intros [= <-];
        cbn [Repository PR FullName Owner Name CloneURL State Number];
        rewrite S, httpsCloneURL_find; repeat split; auto.
    + rewrite result_of_Ret. intros [= <-].
      cbn [Repository PR FullName Owner Name CloneURL State Number].
      rewrite S, httpsCloneURL_find. repeat split; auto.
  - apply cut_slash_None in C.
    rewrite result_of_seq.
    destruct (negb _ && _).
    + rewrite result_of_bind.
      destruct (result_of _ _ (BitbucketAdapter.GetPRFiles _ _ _ _));
        rewrite result_of_Ret; intros [= <-];
        cbn [Repository PR FullName Owner Name CloneURL State Number];
        rewrite C, httpsCloneURL_find; repeat split.
    + rewrite result_of_Ret. intros [= <-].
      cbn [Repository PR FullName Owner Name CloneURL State Number].
      rewrite C, httpsCloneURL_find. repeat split.
Qed.

End Copies.

Lemma bb_NormalizeEvent_repository_witness :
  result_of (sample.world 200 []) []
    (BitbucketAdapter.NormalizeEvent
       (JBb := @json_bbWebhookPayload sample.json_adapter)
       (JDiffstat := @json_bbDiffstatResponse sample.json_adapter)
       cases.bitbucket_adapter "pullrequest:fulfilled" sample.body)
  = Ok cases.merged
  /\ exists p : bb.WebhookPayload,
       Unmarshal (JSON := @json_bbWebhookPayload sample.json_adapter) sample.body
       = Ok p
       /\ FullName (Repository cases.merged)
          = bb.repo_FullName (bb.p_Repository p).
Proof.
  assert (R : result_of (sample.world 200 []) []
                (BitbucketAdapter.NormalizeEvent
                   (JBb := @json_bbWebhookPayload sample.json_adapter)
                   (JDiffstat := @json_bbDiffstatResponse sample.json_adapter)
                   cases.bitbucket_adapter "pullrequest:fulfilled" sample.body)
              = Ok cases.merged) by (vm_compute; reflexivity).
  split; [exact R |].
  destruct (bb_NormalizeEvent_repository (JAdapter := sample.json_adapter)
              _ _ _ _ _ _ R) as (p & U & F & _).
  exists p. split; [exact U | exact F].
Defined.

Section Names.

Context {JAdapter : AdapterJSON}.


End Names.


(** ** GetPRDetails *)

Section Details.

Context {JAdapter : AdapterJSON} {JDetails : DetailsJSON}.

(** X17. GetPRDetails of the GitHub adapter returns a pull request exactly
    when a JWT was signed, an installation token issued, and one GET of the
    pull request was answered with a body that could be read and decodes; it
    looks neither at the status code nor, unlike GetPRFiles, at a "message"
    member of the body; the pull request returned is the decoded response
    member by member. GetPRDetails of the Bitbucket adapter returns a pull
    request exactly when its one GET was answered with a status below 400
    and a body that could be read and decodes; the pull request returned is
    the decoded response member by member, the author being the nickname,
    except for the state, which is the response's in lower case (stated for
    a state of ASCII bytes). *)
Theorem GetPRDetails_outcome (w : World) (h : Trace) (g : GitHubAdapter.t)
    (b : BitbucketAdapter.t) (owner repo : string) (prNumber : Z)
    (pr : NormalizedPR) :
  let tg := trace_of w h (GitHubAdapter_GetPRDetails g owner repo prNumber) in
  let tb := trace_of w h (BitbucketAdapter_GetPRDetails b owner repo prNumber) in
  let rb := result_of w h (BitbucketAdapter_GetPRDetails b owner repo prNumber) in
  (result_of w h (GitHubAdapter_GetPRDetails g owner repo prNumber) = Ok pr
   <-> exists (jwt tok : string) (resp : http.Response) (body : bytes)
         (raw : ghPRResponse),
         jwts_signed tg
         = [(GitHubAdapter.appID g, GitHubAdapter.privateKey g, Ok jwt)]
         /\ tokens_issued tg = [(jwt, owner, repo, Ok tok)]
         /\ http_exchanges tg
            = [(github_pr_request tok owner repo prNumber, Ok resp)]
         /\ http.resp_Body resp = (body, None)
         /\ Unmarshal body = Ok raw
         /\ pr = {| Number := ghpr_Number raw;
                    Title := ghpr_Title raw;
                    Description := ghpr_Body raw;
                    Author := ghpr_User_Login raw;
                    SourceBranch := ghpr_Head_Ref raw;
                    TargetBranch := ghpr_Base_Ref raw;
                    State := ghpr_State raw;
                    URL := ghpr_HTMLURL raw |})
  /\ (is_ok rb = true
      <-> exists (resp : http.Response) (body : bytes) (raw : bbPRResponse),
            http_exchanges tb
            = [(bitbucket_pr_request b owner repo prNumber, Ok resp)]
            /\ http.resp_Body resp = (body, None)
            /\ http.StatusCode resp < 400
            /\ Unmarshal body = Ok raw)
  /\ (rb = Ok pr ->
      exists (resp : http.Response) (body : bytes) (raw : bbPRResponse),
        http_exchanges tb
        = [(bitbucket_pr_request b owner repo prNumber, Ok resp)]
        /\ http.resp_Body resp = (body, None)
        /\ http.StatusCode resp < 400
        /\ Unmarshal body = Ok raw
        /\ Number pr = bbpr_ID raw
        /\ Title pr = bbpr_Title raw
        /\ Description pr = bbpr_Description raw
        /\ Author pr = bbpr_Author_Nickname raw
        /\ SourceBranch pr = bbpr_Source_Branch_Name raw
        /\ TargetBranch pr = bbpr_Destination_Branch_Name raw
        /\ URL pr = bbpr_Links_HTML_Href raw
        /\ (only_ascii (bbpr_State raw) = true ->
            State pr = strings.ToLower (bbpr_State raw))).
Proof.
  cbv zeta. split.
  - unfold result_of, trace_of, GitHubAdapter_GetPRDetails,
      GitHubAdapter.token, makeAuthenticatedRequest.
    run_walk w; cbn;
      try (split;
           [discriminate
           | intros (jwt & tok & resp & body & raw & J & T & X & _);
             discriminate]).
    + split; [discriminate |].
      intros (jwt & tok & resp & body & raw & _ & _ & X & B & _).
      injection X as _ <-. rewrite B in *. discriminate.
    + split.
      * intros [= <-]. eexists _, _, _, _, _.
        repeat split; try reflexivity; eassumption.
      * intros (jwt & tok & resp & body & raw & _ & _ & X & B & U & ->).
        injection X as _ <-. rewrite B in *.
        match goal with H : (_, _) = (_, _) |- _ => injection H as <- end.
        unfold Ok in *. rewrite U in *.
        match goal with H : inl _ = inl _ |- _ => injection H as <- end.
        reflexivity.
    + split; [discriminate |].
      intros (jwt & tok & resp & body & raw & _ & _ & X & B & U & _).
      injection X as _ <-. rewrite B in *.
      match goal with H : (_, _) = (_, _) |- _ => injection H as <- end.
      unfold Ok in *. rewrite U in *. discriminate.
  - unfold result_of, trace_of, BitbucketAdapter_GetPRDetails,
      BitbucketAdapter.request.
    run_walk w; cbn;
      try (split;
           [split;
            [discriminate
            | intros (resp & body & raw & X & _); discriminate]
           | discriminate]).
    + split; [| discriminate].
      split; [discriminate |].
      intros (resp & body & raw & X & B & _).
      injection X as <-. rewrite B in *. discriminate.
    + split; [| discriminate].
      split; [discriminate |].
      intros (resp & body & raw & X & B & S & _).
      injection X as <-. lia.
    + split.
      * split; [intros _ | reflexivity]. eexists _, _, _.
        repeat split; try reflexivity; try eassumption. lia.
      * intros [= <-]. eexists _, _, _.
        repeat split; try reflexivity; try eassumption. lia.
    + split; [| discriminate].
      split; [discriminate |].
      intros (resp & body & raw & X & B & S & U).
      injection X as <-. rewrite B in *.
      match goal with H : (_, _) = (_, _) |- _ => injection H as <- end.
      unfold Ok in *. rewrite U in *. discriminate.
Qed.

End Details.

Section Agreement.

Context {JAdapter : AdapterJSON} {JDetails : DetailsJSON}.

(** The pull request of an event, from the payload. *)
Lemma NormalizeEvent_PR (a : SCMAdapter) (w : World) (h : Trace)
    (eventType : string) (payload : bytes) (ev : NormalizedEvent) :
  result_of w h (Adapter.NormalizeEvent a eventType payload) = Ok ev ->
  match a with
  | GitHub _ =>
      exists p : gh.WebhookPayload,
        Unmarshal payload = Ok p
        /\ PR ev = {| Number := gh.pr_Number (gh.p_PullRequest p);
                      Title := gh.pr_Title (gh.p_PullRequest p);
                      Description := gh.pr_Body (gh.p_PullRequest p);
                      Author := gh.pr_User_Login (gh.p_PullRequest p);
                      SourceBranch := gh.pr_Head_Ref (gh.p_PullRequest p);
                      TargetBranch := gh.pr_Base_Ref (gh.p_PullRequest p);
                      State := gh.pr_State (gh.p_PullRequest p);
                      URL := gh.pr_HTMLURL (gh.p_PullRequest p) |}
  | Bitbucket _ =>
      exists p : bb.WebhookPayload,
        Unmarshal payload = Ok p
        /\ PR ev
           = {| Number := bb.pr_ID (bb.p_PullRequest p);
                Title := bb.pr_Title (bb.p_PullRequest p);
                Description := bb.pr_Description (bb.p_PullRequest p);
                Author := bb.pr_Author_Nickname (bb.p_PullRequest p);
                SourceBranch := bb.pr_Source_Branch_Name (bb.p_PullRequest p);
                TargetBranch :=
                  bb.pr_Destination_Branch_Name (bb.p_PullRequest p);
                State := strings.ToLower (bb.pr_State (bb.p_PullRequest p));
                URL := bb.pr_Links_HTML_Href (bb.p_PullRequest p) |}
  end.
Proof.
  destruct a as [g | b]; cbn [Adapter.NormalizeEvent].
  - unfold GitHubAdapter.NormalizeEvent.
    destruct (Unmarshal payload) as [p | err]; [| discriminate].
    intros R. exists p. split; [reflexivity |]. revert R.
    rewrite result_of_seq.
    destruct (negb _ && _).
    + rewrite result_of_bind.
      destruct (result_of _ _ (GitHubAdapter.GetPRFiles _ _ _ _));
        rewrite result_of_Ret; intros [= <-]; reflexivity.
    + rewrite result_of_Ret. intros [= <-]. reflexivity.
  - unfold BitbucketAdapter.NormalizeEvent.
    destruct (Unmarshal payload) as [p | err]; [| discriminate].
    intros R. exists p. split; [reflexivity |]. revert R.
    destruct (mapBitbucketEventKey eventType) as [normalizedType action].
    destruct (match strings.SplitN2_slash _ with [] => _ | _ => _ end)
      as [owner repoName].
    rewrite result_of_seq.
    destruct (negb _ && _).
    + rewrite result_of_bind.
      destruct (result_of _ _ (BitbucketAdapter.GetPRFiles _ _ _ _));
        rewrite result_of_Ret; intros [= <-]; reflexivity.
    + rewrite result_of_Ret. intros [= <-]. reflexivity.
Qed.

(** The pull request GetPRDetails returns, from the response. *)
Lemma GetPRDetails_result (a : SCMAdapter) (w : World) (h : Trace)
    (owner repo : string) (prNumber : Z) (pr : NormalizedPR) :
  result_of w h (Adapter_GetPRDetails a owner repo prNumber) = Ok pr ->
  match a with
  | GitHub _ =>
      exists (body : bytes) (raw : ghPRResponse),
        Unmarshal body = Ok raw
        /\ pr = {| Number := ghpr_Number raw;
                   Title := ghpr_Title raw;
                   Description := ghpr_Body raw;
                   Author := ghpr_User_Login raw;
                   SourceBranch := ghpr_Head_Ref raw;
                   TargetBranch := ghpr_Base_Ref raw;
                   State := ghpr_State raw;
                   URL := ghpr_HTMLURL raw |}
  | Bitbucket _ =>
      exists (body : bytes) (raw : bbPRResponse),
        Unmarshal body = Ok raw
        /\ pr = {| Number := bbpr_ID raw;
                   Title := bbpr_Title raw;
                   Description := bbpr_Description raw;
                   Author := bbpr_Author_Nickname raw;
                   SourceBranch := bbpr_Source_Branch_Name raw;
                   TargetBranch := bbpr_Destination_Branch_Name raw;
                   State := strings.ToLower (bbpr_State raw);
                   URL := bbpr_Links_HTML_Href raw |}
  end.
Proof.
  revert pr. destruct a as [g | b]; cbn [Adapter_GetPRDetails].
  - apply (satisfies_run (fun _ _ _ => True)
             (fun r => forall pr, r = Ok pr ->
                         exists body raw,
                           Unmarshal (A := ghPRResponse) body = Ok raw
                           /\ pr = _)).
    unfold GitHubAdapter_GetPRDetails, GitHubAdapter.token,
      makeAuthenticatedRequest.
    sat_walk; try exact I; try discriminate.
    intros pr [= <-]. eauto.
  - apply (satisfies_run (fun _ _ _ => True)
             (fun r => forall pr, r = Ok pr ->
                         exists body raw,
                           Unmarshal (A := bbPRResponse) body = Ok raw
                           /\ pr = _)).
    unfold BitbucketAdapter_GetPRDetails, BitbucketAdapter.request.
    sat_walk; try exact I; try discriminate.
    intros pr [= <-]. eauto.
Qed.


End Agreement.


(** ** strconv.Atoi and the %d of fmt *)

Lemma digits_uint_acc (u : Decimal.uint) :
  forall acc : positive,
    strconv.digits (Z.pos acc) (DecimalString.NilEmpty.string_of_uint u)
    = Some (Z.pos (Pos.of_uint_acc u acc)).
Proof.
  induction u as [| u IH | u IH | u IH | u IH | u IH | u IH | u IH | u IH
                  | u IH | u IH]; intros acc;
    cbn [DecimalString.NilEmpty.string_of_uint strconv.digits Pos.of_uint_acc];
    [reflexivity | ..];
    match goal with
    | |- context [strconv.digit ?c] =>
        change (strconv.digit c) with (Some (Z.of_N (N_of_ascii c) - 48));
        cbn [N_of_ascii N_of_digits]
    end;
    rewrite <- IH; f_equal; lia.
Qed.

Lemma digits_uint (u : Decimal.uint) :
  strconv.digits 0 (DecimalString.NilEmpty.string_of_uint u)
  = Some (Z.of_N (Pos.of_uint u)).
Proof.
  induction u as [| u IH | u IH | u IH | u IH | u IH | u IH | u IH | u IH
                  | u IH | u IH];
    cbn [DecimalString.NilEmpty.string_of_uint strconv.digits Pos.of_uint];
    [reflexivity | exact IH | ..];
    match goal with
    | |- context [strconv.digit ?c] =>
        change (strconv.digit c) with (Some (Z.of_N (N_of_ascii c) - 48));
        cbn [N_of_ascii N_of_digits]
    end;
    cbn [Z.of_N]; rewrite <- digits_uint_acc; f_equal.
Qed.

(** The decimal numeral of a positive number, parsed with or without a
    sign in front. *)
Lemma Atoi_to_uint (p : positive) :
  let s := DecimalString.NilEmpty.string_of_uint (Pos.to_uint p) in
  strconv.Atoi s = (if in_int (Z.pos p) then Ok (Z.pos p)
                    else Err (wrapError ("strconv.Atoi: parsing " ++ s)
                                strconv.ErrRange))
  /\ strconv.Atoi (String "-" s)
     = (if in_int (Z.neg p) then Ok (Z.neg p)
        else Err (wrapError ("strconv.Atoi: parsing " ++ String "-" s)
                    strconv.ErrRange)).
Proof.
  cbv zeta.
  pose proof (digits_uint (Pos.to_uint p)) as D.
  rewrite DecimalPos.Unsigned.of_to in D. cbn [Z.of_N] in D.
  pose proof (DecimalPos.Unsigned.to_uint_nonnil p) as N.
  destruct (Pos.to_uint p) as [| u | u | u | u | u | u | u | u | u | u];
    [contradiction N; reflexivity | ..];
    cbn [DecimalString.NilEmpty.string_of_uint] in *;
    unfold strconv.Atoi;
    match goal with
    | |- context [Ascii.eqb ?c "+"] =>
        change (Ascii.eqb c "+") with false;
        change (Ascii.eqb c "-") with false
    end;
    change (Ascii.eqb "-" "+") with false;
    change (Ascii.eqb "-" "-") with true;
    cbv iota; rewrite D; split; reflexivity.
Qed.

(** X19. strconv.Atoi reads back what fmt prints with %d: for every value
    of an int, the decimal numeral parses to that value. So the pull request
    number an endpoint takes from its query reaches the API's URL in
    canonical form, without sign or leading zeros. Atoi refuses the empty
    string and a bare sign. *)
Theorem Atoi_itoa (n : Z) :
  is_int n ->
  strconv.Atoi (fmt.itoa n) = Ok n
  /\ is_ok (strconv.Atoi "") = false
  /\ is_ok (strconv.Atoi "-") = false
  /\ is_ok (strconv.Atoi "+") = false.
Proof.
  intros R. split; [| repeat split].
  assert (I : in_int n = true).
  { unfold in_int, is_int in *. apply andb_true_iff. split; lia. }
  unfold fmt.itoa. destruct n as [| p | p]; cbn [Z.to_int].
  - reflexivity.
  - cbn [DecimalString.NilZero.string_of_int].
    pose proof (DecimalPos.Unsigned.to_uint_nonnil p) as N.
    destruct (Atoi_to_uint p) as [A _]. rewrite I in A.
    unfold DecimalString.NilZero.string_of_uint.
    destruct (Pos.to_uint p); [contradiction N; reflexivity | ..]; exact A.
  - cbn [DecimalString.NilZero.string_of_int].
    pose proof (DecimalPos.Unsigned.to_uint_nonnil p) as N.
    destruct (Atoi_to_uint p) as [_ A]. rewrite I in A.
    unfold DecimalString.NilZero.string_of_uint.
    destruct (Pos.to_uint p); [contradiction N; reflexivity | ..]; exact A.
Qed.

Lemma Atoi_itoa_witness :
  is_int 42 /\ strconv.Atoi (fmt.itoa 42) = Ok 42.
Proof.
  assert (R : is_int 42) by (unfold is_int; lia).
  split; [exact R |].
  exact (proj1 (Atoi_itoa 42 R)).
Defined.

(** ** The endpoint for the changed files of a pull request *)

(** The run of the token issuance, by the world's two answers. *)
Lemma token_run (w : World) (h : Trace) (appID privateKey owner repo : string) :
  let issue :=
    GitHubAdapter.token
      {| GitHubAdapter.appID := appID; GitHubAdapter.privateKey := privateKey |}
      owner repo in
  match w h _ (generateJWT appID privateKey) with
  | inr _ => is_ok (result_of w h issue) = false
  | inl jwt =>
      let h1 := h ++ [Ev (generateJWT appID privateKey) (inl jwt)] in
      match w h1 _ (getInstallationToken jwt owner repo) with
      | inr _ => is_ok (result_of w h issue) = false
      | inl tok =>
          result_of w h issue = inl tok
          /\ h ++ trace_of w h issue
             = h1 ++ [Ev (getInstallationToken jwt owner repo) (inl tok)]
      end
  end.
Proof.
  cbv zeta. unfold result_of, trace_of, GitHubAdapter.token.
  cbn [run bind call GitHubAdapter.appID GitHubAdapter.privateKey].
  destruct (w h _ (generateJWT appID privateKey)) as [jwt | err];
    cbn; [| reflexivity].
  destruct (w _ _ (getInstallationToken jwt owner repo)) as [tok | err];
    cbn; [| reflexivity].
  split; [reflexivity |]. rewrite <- app_assoc. reflexivity.
Qed.

Lemma request_calls_trace (t : Trace) :
  Forall (event_in request_call) t ->
  statuses t = [] /\ bodies t = [] /\ jwts_signed t = []
  /\ tokens_issued t = [].
Proof.
  induction 1 as [| [X e x] t He Ht IH]; [repeat split |].
  destruct e; try contradiction; exact IH.
Qed.

Section Endpoint.

Context {JObject : JSON JSONObject} {JFiles : JSON (list PRFile)}
  {JSummary : JSON PRFilesSummary}.

(** The answers of GetPRFilesHandler, with all that a 200 stands for. *)
Lemma GetPRFilesHandler_answers_aux (w : World) (h : Trace) (env : Env)
    (query : url.Values) :
  let t := trace_of w h (GetPRFilesHandler env query) in
  let owner := url.Get query "owner" in
  let repo := url.Get query "repo" in
  let pr := url.Get query "pr" in
  exists code : Z,
    statuses t = [code]
    /\ In code [http.StatusOK; http.StatusBadRequest;
                http.StatusInternalServerError]
    /\ (code = http.StatusBadRequest
        <-> owner = "" \/ repo = "" \/ pr = ""
            \/ is_ok (strconv.Atoi pr) = false)
    /\ (code = http.StatusBadRequest
        \/ Getenv env "GITHUB_APP_ID" = ""
        \/ Getenv env "GITHUB_PRIVATE_KEY" = "" ->
        jwts_signed t = [] /\ tokens_issued t = [] /\ http_exchanges t = [])
    /\ (code = http.StatusOK ->
        exists (n : Z) (jwt tok : string) (resp : http.Response) (body : bytes)
          (files : list PRFile),
          strconv.Atoi pr = Ok n
          /\ jwts_signed t
             = [(Getenv env "GITHUB_APP_ID", Getenv env "GITHUB_PRIVATE_KEY",
                 Ok jwt)]
          /\ tokens_issued t = [(jwt, owner, repo, Ok tok)]
          /\ http_exchanges t
             = [(github_files_request tok owner repo n, Ok resp)]
          /\ http.resp_Body resp = (body, None)
          /\ api_message body = None
          /\ Unmarshal body = Ok files
          /\ bodies t
             = match Marshal
                       {| s_status := "success";
                          s_owner := owner;
                          s_repo := repo;
                          s_pr_number := n;
                          s_total_files := Z.of_nat (length files);
                          s_total_additions := total f_Additions files;
                          s_total_deletions := total f_Deletions files;
                          s_total_changes := total f_Changes files;
                          s_filenames := map f_Filename files;
                          s_files := files |} with
               | inl data => [data ++ to_bytes newline]
               | inr _ => []
               end).
Proof.
  cbv zeta. unfold GetPRFilesHandler.
  destruct (String.eqb_spec (url.Get query "owner") "") as [O | O]; cbn [orb].
  { rewrite http_Error_trace. exists http.StatusBadRequest.
    split; [reflexivity |]. split; [cbn; tauto |].
    split; [split; [tauto | reflexivity] |].
    split; [intros _; repeat split | discriminate]. }
  destruct (String.eqb_spec (url.Get query "repo") "") as [R | R]; cbn [orb].
  { rewrite http_Error_trace. exists http.StatusBadRequest.
    split; [reflexivity |]. split; [cbn; tauto |].
    split; [split; [tauto | reflexivity] |].
    split; [intros _; repeat split | discriminate]. }
  destruct (String.eqb_spec (url.Get query "pr") "") as [P | P]; cbn [orb].
  { rewrite http_Error_trace. exists http.StatusBadRequest.
    split; [reflexivity |]. split; [cbn; tauto |].
    split; [split; [tauto | reflexivity] |].
    split; [intros _; repeat split | discriminate]. }
  destruct (strconv.Atoi (url.Get query "pr")) as [n | err] eqn:A.
  2:{ rewrite http_Error_trace. exists http.StatusBadRequest.
      split; [reflexivity |]. split; [cbn; tauto |].
      split; [split; [intros _; do 3 right; reflexivity | reflexivity] |].
      split; [intros _; repeat split | discriminate]. }
  assert (NB : ~ (url.Get query "owner" = "" \/ url.Get query "repo" = ""
                  \/ url.Get query "pr" = "" \/ is_ok (Ok n) = false)).
  { intros [C | [C | [C | C]]]; try contradiction. discriminate C. }
  unfold Ok in NB.
  destruct (String.eqb_spec (Getenv env "GITHUB_APP_ID") "") as [I | I];
    cbn [orb].
  { rewrite http_Error_trace. exists http.StatusInternalServerError.
    split; [reflexivity |]. split; [cbn; tauto |].
    split; [split; [discriminate | intros C; contradiction (NB C)] |].
    split; [intros _; repeat split | discriminate]. }
  destruct (String.eqb_spec (Getenv env "GITHUB_PRIVATE_KEY") "") as [K | K];
    cbn [orb].
  { rewrite http_Error_trace. exists http.StatusInternalServerError.
    split; [reflexivity |]. split; [cbn; tauto |].
    split; [split; [discriminate | intros C; contradiction (NB C)] |].
    split; [intros _; repeat split | discriminate]. }
  unfold trace_of, getPRChangedFiles, makeAuthenticatedRequest, http_Error,
    Encode, api_message.
  run_walk w; cbn;
    try (exists http.StatusInternalServerError;
         split;
         [reflexivity
         | split;
           [cbn; tauto
           | split;
             [split; [discriminate | intros C; contradiction (NB C)]
             | split;
               [intros [C | [C | C]]; [discriminate C | contradiction ..]
               | discriminate]]]]).
  all: exists http.StatusOK; split; [reflexivity |]; split; [cbn; tauto |];
    (split; [split; [discriminate | intros C; contradiction (NB C)] |]);
    (split; [intros [C | [C | C]]; [discriminate C | contradiction ..] |]);
    intros _; exists n; eexists _, _, _, _, _;
    repeat split; try reflexivity; try eassumption;
    match goal with H : Marshal _ = _ |- _ => rewrite H end; reflexivity.
Qed.

Lemma getPRChangedFiles_requests (token owner repo : string) (prNumber : Z) :
  satisfies request_call (fun _ => True)
    (getPRChangedFiles token owner repo prNumber).
Proof.
  unfold getPRChangedFiles, makeAuthenticatedRequest.
  sat_walk; try exact I; split; reflexivity.
Qed.

(** Past its checks, the status of GetPRFilesHandler is decided by what the
    token issuance and the fetch return in the same world. *)
Lemma GetPRFilesHandler_served (w : World) (h : Trace) (env : Env)
    (query : url.Values) (n : Z) :
  let owner := url.Get query "owner" in
  let repo := url.Get query "repo" in
  let issue :=
    GitHubAdapter.token
      {| GitHubAdapter.appID := Getenv env "GITHUB_APP_ID";
         GitHubAdapter.privateKey := Getenv env "GITHUB_PRIVATE_KEY" |}
      owner repo in
  owner <> "" -> repo <> "" -> url.Get query "pr" <> "" ->
  strconv.Atoi (url.Get query "pr") = Ok n ->
  Getenv env "GITHUB_APP_ID" <> "" -> Getenv env "GITHUB_PRIVATE_KEY" <> "" ->
  statuses (trace_of w h (GetPRFilesHandler env query))
  = [match result_of w h issue with
     | inr _ => http.StatusInternalServerError
     | inl tok =>
         if is_ok (result_of w (h ++ trace_of w h issue)
                     (getPRChangedFiles tok owner repo n))
         then http.StatusOK
         else http.StatusInternalServerError
     end].
Proof.
  cbv zeta. intros O R P A I K. unfold GetPRFilesHandler.
  apply String.eqb_neq in O, R, P, I, K. unfold Ok in A.
  rewrite O, R, P, A, I, K. cbn [orb].
  pose proof (token_run w h (Getenv env "GITHUB_APP_ID")
                (Getenv env "GITHUB_PRIVATE_KEY") (url.Get query "owner")
                (url.Get query "repo")) as TR.
  cbv zeta in TR. rewrite trace_of_seq.
  destruct (w h _ (generateJWT _ _)) as [jwt | err].
  2:{ destruct (result_of w h _); [discriminate TR |].
      rewrite http_Error_trace. reflexivity. }
  rewrite trace_of_seq.
  destruct (w _ _ (getInstallationToken _ _ _)) as [tok | err].
  2:{ destruct (result_of w h _); [discriminate TR |].
      rewrite http_Error_trace. reflexivity. }
  destruct TR as [RT HT]. rewrite RT, HT. rewrite trace_of_bind.
  destruct (request_calls_trace
              (trace_of w ((h ++ [Ev (generateJWT (Getenv env "GITHUB_APP_ID")
                                        (Getenv env "GITHUB_PRIVATE_KEY"))
                                    (inl jwt)])
                           ++ [Ev (getInstallationToken jwt
                                     (url.Get query "owner")
                                     (url.Get query "repo")) (inl tok)])
                 (getPRChangedFiles tok (url.Get query "owner")
                    (url.Get query "repo") n))) as (TS & _).
  { apply (satisfies_run request_call (fun _ => True)),
      getPRChangedFiles_requests. }
  unfold statuses in *. cbn [omap list_omap]. rewrite omap_app, TS.
  destruct (result_of w _ (getPRChangedFiles _ _ _ _)) as [files | err];
    cbn [is_ok app].
  - rewrite trace_of_seq. unfold Encode.
    destruct (Marshal _); cbn; unit_answers w; reflexivity.
  - rewrite http_Error_trace. reflexivity.
Qed.

(** X20. GetPRFilesHandler writes exactly one status code. It is 400 exactly
    when owner, repo or pr is missing from the query or pr is not a decimal
    int. It is 500 exactly when the query is in order and a credential is
    missing or a later step fails: the token issuance, or the fetch of the
    changed files with the token issued. It is 200 exactly when the query is
    in order, both credentials are set, the token issuance returns a token
    and the fetch with that token, for the owner, repository and number of
    the query, returns files. A request answered 400, or served without
    credentials, causes no outbound call at all: the query is checked before
    anything is sent. A 200 is written only after one GET of the files of
    the pull request was answered. *)
Theorem GetPRFilesHandler_answers (w : World) (h : Trace) (env : Env)
    (query : url.Values) :
  let t := trace_of w h (GetPRFilesHandler env query) in
  let owner := url.Get query "owner" in
  let repo := url.Get query "repo" in
  let pr := url.Get query "pr" in
  let issue :=
    GitHubAdapter.token
      {| GitHubAdapter.appID := Getenv env "GITHUB_APP_ID";
         GitHubAdapter.privateKey := Getenv env "GITHUB_PRIVATE_KEY" |}
      owner repo in
  let fetch (tok : string) (n : Z) :=
    result_of w (h ++ trace_of w h issue) (getPRChangedFiles tok owner repo n) in
  let bad :=
    owner = "" \/ repo = "" \/ pr = "" \/ is_ok (strconv.Atoi pr) = false in
  let unconfigured :=
    Getenv env "GITHUB_APP_ID" = "" \/ Getenv env "GITHUB_PRIVATE_KEY" = "" in
  exists code : Z,
    statuses t = [code]
    /\ In code [http.StatusOK; http.StatusBadRequest;
                http.StatusInternalServerError]
    /\ (code = http.StatusBadRequest <-> bad)
    /\ (code = http.StatusInternalServerError
        <-> ~ bad
            /\ (unconfigured
                \/ is_ok (result_of w h issue) = false
                \/ exists (n : Z) (tok : string),
                     strconv.Atoi pr = Ok n
                     /\ result_of w h issue = Ok tok
                     /\ is_ok (fetch tok n) = false))
    /\ (code = http.StatusOK
        <-> ~ bad /\ ~ unconfigured
            /\ exists (n : Z) (tok : string) (files : list PRFile),
                 strconv.Atoi pr = Ok n
                 /\ result_of w h issue = Ok tok
                 /\ fetch tok n = Ok files)
    /\ (code = http.StatusBadRequest \/ unconfigured ->
        jwts_signed t = [] /\ tokens_issued t = [] /\ http_exchanges t = [])
    /\ (code = http.StatusOK ->
        exists (n : Z) (tok : string) (resp : http.Response),
          strconv.Atoi pr = Ok n
          /\ http_exchanges t
             = [(github_files_request tok owner repo n, Ok resp)]).
Proof.
  cbv zeta.
  destruct (GetPRFilesHandler_answers_aux w h env query)
    as (code & S & I & B & N & OK).
  exists code. split; [exact S |]. split; [exact I |]. split; [exact B |].
  assert (L : code = http.StatusOK ->
              exists (n : Z) (tok : string) (resp : http.Response),
                strconv.Atoi (url.Get query "pr") = Ok n
                /\ http_exchanges (trace_of w h (GetPRFilesHandler env query))
                   = [(github_files_request tok (url.Get query "owner")
                         (url.Get query "repo") n, Ok resp)]).
  { intros C. destruct (OK C) as (n & jwt & tok & resp & body & files & A & _
                                  & _ & X & _).
    exists n, tok, resp. split; [exact A | exact X]. }
  split; [| split; [| split; [exact N | exact L]]].
  - (* 500 *)
    destruct (String.eqb_spec (url.Get query "owner") "") as [O | O];
      [assert (C : code = http.StatusBadRequest) by (apply B; tauto);
       rewrite C; split; [discriminate | tauto] |].
    destruct (String.eqb_spec (url.Get query "repo") "") as [R | R];
      [assert (C : code = http.StatusBadRequest) by (apply B; tauto);
       rewrite C; split; [discriminate | tauto] |].
    destruct (String.eqb_spec (url.Get query "pr") "") as [P | P];
      [assert (C : code = http.StatusBadRequest) by (apply B; tauto);
       rewrite C; split; [discriminate | tauto] |].
    destruct (strconv.Atoi (url.Get query "pr")) as [n | err] eqn:A;
      [| assert (C : code = http.StatusBadRequest) by (apply B; tauto);
         rewrite C; split; [discriminate | tauto]].
    assert (NB : ~ (url.Get query "owner" = "" \/ url.Get query "repo" = ""
                    \/ url.Get query "pr" = "" \/ is_ok (inl n : result Z) = false)).
    { intros [C | [C | [C | C]]]; try contradiction. discriminate C. }
    assert (N4 : code <> http.StatusBadRequest)
      by (intros C; apply B in C; contradiction).
    destruct (String.eqb_spec (Getenv env "GITHUB_APP_ID") "") as [I0 | I0].
    { split; [intros _; split; [exact NB | tauto] | intros _].
      destruct I as [C | [C | [C | []]]]; [| congruence | congruence].
      symmetry in C. destruct (OK C) as (n' & jwt & tok & resp & body & files & _ & J & _).
      destruct N as (J0 & _); [tauto |]. rewrite J0 in J. discriminate J. }
    destruct (String.eqb_spec (Getenv env "GITHUB_PRIVATE_KEY") "") as [K0 | K0].
    { split; [intros _; split; [exact NB | tauto] | intros _].
      destruct I as [C | [C | [C | []]]]; [| congruence | congruence].
      symmetry in C. destruct (OK C) as (n' & jwt & tok & resp & body & files & _ & J & _).
      destruct N as (J0 & _); [tauto |]. rewrite J0 in J. discriminate J. }
    pose proof (GetPRFilesHandler_served w h env query n O R P A I0 K0) as S2.
    cbv zeta in S2. rewrite S in S2. injection S2 as ->.
    destruct (result_of w h (GitHubAdapter.token _ _ _)) as [tok | err].
    2:{ split; [intros _; split; [exact NB | tauto] | reflexivity]. }
    destruct (result_of w _ (getPRChangedFiles tok _ _ n)) as [files | err]
      eqn:F; cbn [is_ok].
    + split; [discriminate |].
      intros (_ & [[C | C] | [C | (n' & tok' & [= <-] & [= <-] & C)]]);
        try contradiction; try discriminate C.
      rewrite F in C. discriminate C.
    + split; [intros _; split; [exact NB |] | reflexivity].
      right. right. exists n, tok. rewrite F. repeat split.
  - (* 200 *)
    destruct (String.eqb_spec (url.Get query "owner") "") as [O | O];
      [assert (C : code = http.StatusBadRequest) by (apply B; tauto);
       rewrite C; split; [discriminate | tauto] |].
    destruct (String.eqb_spec (url.Get query "repo") "") as [R | R];
      [assert (C : code = http.StatusBadRequest) by (apply B; tauto);
       rewrite C; split; [discriminate | tauto] |].
    destruct (String.eqb_spec (url.Get query "pr") "") as [P | P];
      [assert (C : code = http.StatusBadRequest) by (apply B; tauto);
       rewrite C; split; [discriminate | tauto] |].
    destruct (strconv.Atoi (url.Get query "pr")) as [n | err] eqn:A;
      [| assert (C : code = http.StatusBadRequest) by (apply B; tauto);
         rewrite C; split; [discriminate | tauto]].
    assert (NB : ~ (url.Get query "owner" = "" \/ url.Get query "repo" = ""
                    \/ url.Get query "pr" = "" \/ is_ok (inl n : result Z) = false)).
    { intros [C | [C | [C | C]]]; try contradiction. discriminate C. }
    destruct (String.eqb_spec (Getenv env "GITHUB_APP_ID") "") as [I0 | I0].
    { split; [intros C | tauto].
      destruct (OK C) as (n' & jwt & tok & resp & body & files & _ & J & _).
      destruct N as (J0 & _); [tauto |]. rewrite J0 in J. discriminate J. }
    destruct (String.eqb_spec (Getenv env "GITHUB_PRIVATE_KEY") "") as [K0 | K0].
    { split; [intros C | tauto].
      destruct (OK C) as (n' & jwt & tok & resp & body & files & _ & J & _).
      destruct N as (J0 & _); [tauto |]. rewrite J0 in J. discriminate J. }
    pose proof (GetPRFilesHandler_served w h env query n O R P A I0 K0) as S2.
    cbv zeta in S2. rewrite S in S2. injection S2 as ->.
    destruct (result_of w h (GitHubAdapter.token _ _ _)) as [tok | err].
    2:{ split; [discriminate |].
        intros (_ & _ & n' & tok' & files & _ & C & _). discriminate C. }
    destruct (result_of w _ (getPRChangedFiles tok _ _ n)) as [files | err]
      eqn:F; cbn [is_ok].
    + split; [intros _ | reflexivity].
      split; [exact NB |]. split; [tauto |].
      exists n, tok, files. rewrite F. repeat split.
    + split; [discriminate |].
      intros (_ & _ & n' & tok' & files & [= <-] & [= <-] & C).
      rewrite F in C. discriminate C.
Qed.

Lemma total_from (field : PRFile -> Z) (files : list PRFile) :
  Forall (fun f => 0 <= field f) files ->
  forall acc : Z,
    0 <= acc ->
    is_int (acc + sum_of field files) ->
    fold_left (fun acc f => int_add acc (field f)) files acc
    = acc + sum_of field files.
Proof.
  unfold sum_of.
  induction 1 as [| f files Hf Hfs IH]; intros acc A R;
    cbn [fold_left map fold_right] in *.
  - lia.
  - assert (S : 0 <= fold_right Z.add 0 (map field files)).
    { clear -Hfs. induction Hfs; cbn; lia. }
    rewrite int_add_exact by (unfold is_int in *; lia).
    rewrite IH; [lia | lia |]. unfold is_int in *. lia.
Qed.


End Endpoint.


(** ** The file tree of a repository *)

Lemma yields_run {A : Type} (P : Trace -> A -> Prop) (p : Prog A) :
  yields P p ->
  forall (w : World) (h : Trace), P (trace_of w h p) (result_of w h p).
Proof.
  unfold trace_of, result_of.
  induction 1 as [P a Pa | P X e k Hk IH]; intros w h; cbn [run].
  - exact Pa.
  - specialize (IH (w h X e) w (h ++ [Ev e (w h X e)])).
    destruct (run w (h ++ [Ev e (w h X e)]) (k (w h X e))) as [a t].
    exact IH.
Qed.

Lemma yields_bind {A B : Type} (P : Trace -> A -> Prop) (m : Prog A)
    (f : A -> Prog B) :
  yields P m ->
  forall Q : Trace -> B -> Prop,
    (forall t a, P t a -> yields (fun t' b => Q (t ++ t') b) (f a)) ->
    yields Q (bind m f).
Proof.
  induction 1 as [P a Pa | P X e k Hk IH]; intros Q Hf; cbn [bind].
  - exact (Hf [] a Pa).
  - apply yields_Vis. intros x.
    apply (IH x (fun t b => Q (Ev e x :: t) b)).
    intros t a Pt. exact (Hf (Ev e x :: t) a Pt).
Qed.

Lemma yields_weaken {A : Type} (P Q : Trace -> A -> Prop) (p : Prog A) :
  yields P p -> (forall t a, P t a -> Q t a) -> yields Q p.
Proof.
  intros H. revert Q. induction H as [P a Pa | P X e k Hk IH]; intros Q PQ.
  - apply yields_Ret, PQ, Pa.
  - apply yields_Vis. intros x. apply IH. intros t a. apply PQ.
Qed.

(** makeAuthenticatedRequest makes at most one HTTP call. *)
Lemma makeAuthenticatedRequest_yields (token method url : string) :
  yields (fun t _ => (length (http_calls t) <= 1)%nat)
    (makeAuthenticatedRequest token method url).
Proof.
  unfold makeAuthenticatedRequest. cbn [bind call].
  apply yields_Vis. intros [err |]; [apply yields_Ret; cbn; lia |].
  apply yields_Vis. intros [resp | err]; [| apply yields_Ret; cbn; lia].
  destruct (http.resp_Body resp) as [body [err |]]; apply yields_Ret; cbn; lia.
Qed.

Lemma grown_refl (r : FileTreeResult) : grown r r.
Proof.
  exists [], [], []. rewrite !app_nil_r.
  repeat split; try reflexivity; constructor.
Qed.

Lemma grown_trans (r1 r2 r3 : FileTreeResult) :
  grown r1 r2 -> grown r2 r3 -> grown r1 r3.
Proof.
  intros (p1 & f1 & d1 & A1 & F1 & D1 & SF1 & SD1 & L1)
         (p2 & f2 & d2 & A2 & F2 & D2 & SF2 & SD2 & L2).
  exists (p1 ++ p2), (f1 ++ f2), (d1 ++ d2).
  rewrite A2, A1, F2, F1, D2, D1, <- !app_assoc.
  repeat split; try reflexivity.
  - apply sublist_app; assumption.
  - apply sublist_app; assumption.
  - rewrite !length_app. lia.
Qed.

Lemma grown_Dirs (r r' : FileTreeResult) :
  grown r r' -> (length (tree_Dirs r) <= length (tree_Dirs r'))%nat.
Proof.
  intros (p & f & d & _ & _ & D & _). rewrite D, length_app. lia.
Qed.

Lemma int_wrap_succ (n : nat) :
  int_add (int_wrap (Z.of_nat n)) 1 = int_wrap (Z.of_nat (S n)).
Proof.
  unfold int_add, int_wrap.
  rewrite Nat2Z.inj_succ.
  replace (Z.succ (Z.of_nat n) + 2 ^ 63) with ((Z.of_nat n + 2 ^ 63) + 1) by lia.
  replace ((Z.of_nat n + 2 ^ 63) mod 2 ^ 64 - 2 ^ 63 + 1 + 2 ^ 63)
    with ((Z.of_nat n + 2 ^ 63) mod 2 ^ 64 + 1) by lia.
  rewrite Zplus_mod_idemp_l. reflexivity.
Qed.

Section Tree.

Context {JContents : JSON (list RepositoryContent)}.

Lemma range_contents_yields
    (descend : string -> FileTreeResult
               -> Prog (option (option error * FileTreeResult))) :
  (forall path r, yields (listed r) (descend path r)) ->
  forall (contents : list RepositoryContent) (r : FileTreeResult),
    yields (ranged r) (range_contents descend contents r).
Proof.
  intros Hd. induction contents as [| item rest IH]; intros r;
    cbn [range_contents].
  - apply yields_Ret. cbn. split; [apply grown_refl |]. split; [tauto | lia].
  - destruct (c_Type item =? "dir")%string.
    + eapply yields_bind; [apply Hd |].
      intros t1 [[e r1] |] L1; [| apply yields_Ret; exact I].
      eapply yields_weaken; [apply IH |].
      intros t2 [r2 |] L2; [| exact I].
      destruct L1 as (G1 & C1 & _ & H1). destruct L2 as (G2 & C2 & H2).
      pose proof (grown_Dirs _ _ G1) as D1. pose proof (grown_Dirs _ _ G2) as D2.
      cbn [tree_Dirs] in *. rewrite length_app in *. cbn [length] in *.
      split; [| split].
      * eapply grown_trans; [| eapply grown_trans; [exact G1 | exact G2]].
        exists [c_Path item], [], [c_Path item]. cbn.
        rewrite app_nil_r.
        repeat split; try reflexivity; try apply sublist_nil_l; lia.
      * intros [CF CD]. apply C2, C1. split; cbn; [exact CF |].
        rewrite CD, length_app. cbn [length].
        rewrite Nat.add_1_r. apply int_wrap_succ.
      * unfold http_calls in *. rewrite omap_app, length_app. lia.
    + destruct (c_Type item =? "file")%string.
      * eapply yields_weaken; [apply IH |].
        intros t2 [r2 |] L2; [| exact I].
        destruct L2 as (G2 & C2 & H2). cbn [tree_Dirs] in *.
        split; [| split; [| exact H2]].
        -- eapply grown_trans; [| exact G2].
           exists [c_Path item], [c_Path item], []. cbn.
           rewrite app_nil_r.
           repeat split; try reflexivity; try apply sublist_nil_l; lia.
        -- intros [CF CD]. apply C2. split; cbn; [| exact CD].
           rewrite CF, length_app. cbn [length].
           rewrite Nat.add_1_r. apply int_wrap_succ.
      * eapply yields_weaken; [apply IH |].
        intros t2 [r2 |] L2; [| exact I].
        destruct L2 as (G2 & C2 & H2). cbn [tree_Dirs] in *.
        split; [| split; [| exact H2]].
        -- eapply grown_trans; [| exact G2].
           exists [c_Path item], [], []. cbn.
           rewrite !app_nil_r.
           repeat split; try reflexivity; try apply sublist_nil_l; lia.
        -- intros C. apply C2. exact C.
Qed.

Lemma getRepositoryFileTree_yields (depth : nat) (token owner repo : string) :
  forall (path : string) (r : FileTreeResult),
    yields (listed r) (getRepositoryFileTree depth token owner repo path r).
Proof.
  induction depth as [| depth IH]; intros path r;
    cbn [getRepositoryFileTree].
  - apply yields_Ret. exact I.
  - eapply yields_bind; [apply makeAuthenticatedRequest_yields |].
    intros t1 [body | err] H1.
    2:{ apply yields_Ret. rewrite app_nil_r. cbn.
        split; [apply grown_refl |]. split; [tauto |].
        split; [intros _; split; [reflexivity | exact H1] | lia]. }
    destruct (Unmarshal body) as [contents | err].
    2:{ apply yields_Ret. rewrite app_nil_r. cbn.
        split; [apply grown_refl |]. split; [tauto |].
        split; [intros _; split; [reflexivity | exact H1] | lia]. }
    eapply yields_bind; [apply (range_contents_yields _ IH) |].
    intros t2 [r2 |] L2; apply yields_Ret; [| exact I].
    rewrite app_nil_r. destruct L2 as (G2 & C2 & H2). cbn.
    split; [exact G2 |]. split; [exact C2 |].
    split; [intros N; contradiction N; reflexivity |].
    unfold http_calls in *. rewrite omap_app, length_app. lia.
Qed.

End Tree.

Section TreeDepth.

Context {JContents : JSON (list RepositoryContent)}.

Lemma getRepositoryFileTree_S (depth : nat) (token owner repo path : string)
    (result : FileTreeResult) :
  getRepositoryFileTree (S depth) token owner repo path result
  = (r <- makeAuthenticatedRequest token "GET"
            ("https://api.github.com/repos/" ++ owner ++ "/" ++ repo
             ++ "/contents/" ++ path) ;;
     match r with
     | inr err => Ret (Some (Some err, result))
     | inl body =>
         match Unmarshal (A := list RepositoryContent) body with
         | inr err => Ret (Some (Some err, result))
         | inl contents =>
             r <- range_contents (getRepositoryFileTree depth token owner repo)
                    contents result ;;
             match r with
             | None => Ret None
             | Some result => Ret (Some (None, result))
             end
         end
     end)%prog.
Proof. reflexivity. Qed.

Lemma range_contents_deeper (w : World)
    (shallow deep : string -> FileTreeResult
                    -> Prog (option (option error * FileTreeResult))) :
  (forall path r h out t,
     run w h (shallow path r) = (Some out, t) ->
     run w h (deep path r) = (Some out, t)) ->
  forall (contents : list RepositoryContent) (r : FileTreeResult) (h : Trace)
    (r' : FileTreeResult) (t : Trace),
    run w h (range_contents shallow contents r) = (Some r', t) ->
    run w h (range_contents deep contents r) = (Some r', t).
Proof.
  intros Hd. induction contents as [| item rest IH]; intros r h r' t;
    cbn [range_contents]; [tauto |].
  destruct (c_Type item =? "dir")%string.
  - rewrite !run_bind.
    destruct (run w h (shallow (c_Path item) _)) as [[[e r1] |] t1] eqn:E1.
    + rewrite (Hd _ _ _ _ _ E1).
      destruct (run w (h ++ t1) (range_contents shallow rest r1))
        as [[r2 |] t2] eqn:E2; [| discriminate].
      rewrite (IH _ _ _ _ E2). tauto.
    + cbn. discriminate.
  - destruct (c_Type item =? "file")%string; apply IH.
Qed.

Lemma getRepositoryFileTree_deeper (w : World) (token owner repo : string)
    (depth : nat) :
  forall (path : string) (r : FileTreeResult) (h : Trace)
    (out : option error * FileTreeResult) (t : Trace),
    run w h (getRepositoryFileTree depth token owner repo path r)
    = (Some out, t) ->
    run w h (getRepositoryFileTree (S depth) token owner repo path r)
    = (Some out, t).
Proof.
  induction depth as [| depth IH]; intros path r h out t; [discriminate |].
  rewrite (getRepositoryFileTree_S (S depth)), (getRepositoryFileTree_S depth).
  rewrite !run_bind.
  destruct (run w h (makeAuthenticatedRequest _ _ _)) as [[body | err] t1];
    [| tauto].
  destruct (Unmarshal body) as [contents | err]; [| tauto].
  rewrite !run_bind.
  destruct (run w (h ++ t1)
              (range_contents (getRepositoryFileTree depth token owner repo)
                 contents r)) as [[r2 |] t2] eqn:E; [| discriminate].
  rewrite (range_contents_deeper w _ _ IH _ _ _ _ _ E). tauto.
Qed.

Lemma getRepositoryFileTree_depth (w : World) (token owner repo path : string)
    (r : FileTreeResult) (h : Trace) (out : option error * FileTreeResult)
    (t : Trace) (depth depth' : nat) :
  (depth <= depth')%nat ->
  run w h (getRepositoryFileTree depth token owner repo path r) = (Some out, t) ->
  run w h (getRepositoryFileTree depth' token owner repo path r) = (Some out, t).
Proof.
  induction 1 as [| depth' L IH]; [tauto |].
  intros R. apply getRepositoryFileTree_deeper, IH, R.
Qed.

(** X22. What getRepositoryFileTree leaves in the result record, when it
    returns within the depth allowed. The record has only grown: paths were
    appended to AllPaths, and the files and directories appended are among
    them, in order; an item that is neither file nor directory is in AllPaths
    alone. If the two counters were the lengths of the two lists before, they
    are after. It returns an error only when its own listing failed, having
    made at most one request and left the record as it was: a failure in a
    sub-directory is not reported. It makes at most one request for itself
    and one per directory it added. And a larger depth changes neither the
    result nor the calls. *)
Theorem getRepositoryFileTree_result (w : World) (h : Trace) (depth : nat)
    (token owner repo path : string) (r r' : FileTreeResult)
    (e : option error) :
  let t := trace_of w h (getRepositoryFileTree depth token owner repo path r) in
  result_of w h (getRepositoryFileTree depth token owner repo path r)
  = Some (e, r') ->
  grown r r'
  /\ (counted r -> counted r')
  /\ (e <> None -> r' = r /\ (length (http_calls t) <= 1)%nat)
  /\ (length (http_calls t)
      <= 1 + (length (tree_Dirs r') - length (tree_Dirs r)))%nat
  /\ forall depth' : nat,
       (depth <= depth')%nat ->
       run w h (getRepositoryFileTree depth' token owner repo path r)
       = (Some (e, r'), t).
Proof.
  cbv zeta. intros R.
  pose proof (yields_run _ _
                (getRepositoryFileTree_yields depth token owner repo path r)
                w h) as L.
  rewrite R in L. destruct L as (G & C & E & H).
  split; [exact G |]. split; [exact C |]. split; [exact E |].
  split; [exact H |].
  intros depth' D. apply (getRepositoryFileTree_depth w _ _ _ _ _ _ _ _ depth);
    [exact D |].
  unfold result_of, trace_of in *.
  destruct (run w h (getRepositoryFileTree depth token owner repo path r))
    as [out t]. cbn in *. rewrite R. reflexivity.
Qed.

End TreeDepth.

Lemma getRepositoryFileTree_result_witness :
  result_of cases.listing_world []
    (getRepositoryFileTree (JContents := cases.json_contents) 2
       "token" "acme" "app" "" cases.empty_tree)
  = Some (None, cases.listed_tree)
  /\ grown cases.empty_tree cases.listed_tree
  /\ counted cases.listed_tree.
Proof.
  assert (R : result_of cases.listing_world []
                (getRepositoryFileTree (JContents := cases.json_contents) 2
                   "token" "acme" "app" "" cases.empty_tree)
              = Some (None, cases.listed_tree)) by (vm_compute; reflexivity).
  split; [exact R |].
  destruct (getRepositoryFileTree_result (JContents := cases.json_contents)
              _ _ _ _ _ _ _ _ _ _ R) as (G & C & _).
  split; [exact G |]. apply C. split; reflexivity.
Defined.

(** ** The endpoint for the files of a repository *)

Lemma insert_sorted_Permutation (s : string) (l : list string) :
  insert_sorted s l ≡ₚ s :: l.
Proof.
  induction l as [| x l IH]; cbn [insert_sorted]; [reflexivity |].
  destruct (String.leb s x); [reflexivity |].
  rewrite IH. apply Permutation_swap.
Qed.

Lemma sort_Strings_Permutation (l : list string) : sort_Strings l ≡ₚ l.
Proof.
  induction l as [| x l IH]; [reflexivity |].
  cbn [sort_Strings fold_right]. fold (sort_Strings l).
  rewrite insert_sorted_Permutation, IH. reflexivity.
Qed.

Lemma insert_sorted_ascending (s : string) (l : list string) :
  ascending l -> ascending (insert_sorted s l).
Proof.
  induction l as [| x l IH]; cbn [insert_sorted]; [intros _; exact I |].
  intros A. destruct (String.leb s x) eqn:L; [split; assumption |].
  assert (X : String.leb x s = true).
  { destruct (String.leb_total x s) as [T | T]; [exact T | congruence]. }
  destruct l as [| y l]; cbn [insert_sorted] in *.
  - split; [exact X | exact I].
  - destruct A as [XY A]. specialize (IH A).
    destruct (String.leb s y); split; assumption.
Qed.

Lemma sort_Strings_ascending (l : list string) : ascending (sort_Strings l).
Proof.
  induction l as [| x l IH]; [exact I |].
  cbn [sort_Strings fold_right]. apply insert_sorted_ascending, IH.
Qed.

Section Repository.

Context {JContents : JSON (list RepositoryContent)}
  {JSummary : JSON RepositoryFilesSummary}.

Lemma range_contents_requests
    (descend : string -> FileTreeResult
               -> Prog (option (option error * FileTreeResult))) :
  (forall path r, satisfies request_call (fun _ => True) (descend path r)) ->
  forall (contents : list RepositoryContent) (r : FileTreeResult),
    satisfies request_call (fun _ => True) (range_contents descend contents r).
Proof.
  intros Hd. induction contents as [| item rest IH]; intros r;
    cbn [range_contents]; [apply sat_Ret; exact I |].
  destruct (c_Type item =? "dir")%string.
  - eapply satisfies_bind; [apply Hd |].
    intros [[e r1] |] _; [apply IH | apply sat_Ret; exact I].
  - destruct (c_Type item =? "file")%string; apply IH.
Qed.

Lemma getRepositoryFileTree_requests (depth : nat) (token owner repo : string) :
  forall (path : string) (r : FileTreeResult),
    satisfies request_call (fun _ => True)
      (getRepositoryFileTree depth token owner repo path r).
Proof.
  induction depth as [| depth IH]; intros path r;
    [apply sat_Ret; exact I |].
  rewrite getRepositoryFileTree_S.
  eapply satisfies_bind with (P := fun _ => True).
  { unfold makeAuthenticatedRequest. sat_walk; try exact I; split; reflexivity. }
  intros [body | err] _; [| apply sat_Ret; exact I].
  destruct (Unmarshal body) as [contents | err]; [| apply sat_Ret; exact I].
  eapply satisfies_bind; [apply (range_contents_requests _ IH) |].
  intros [r2 |] _; apply sat_Ret; exact I.
Qed.

(** X23. GetRepositoryFilesHandler, when the retrieval of the tree ends
    within the depth allowed, writes exactly one status code. It is 400
    exactly when owner or repo is missing from the query, and then, as when
    a credential is missing, without any outbound call. It is 500 exactly
    when the query is in order and a credential is missing or a step fails:
    the token issuance, or the retrieval of the tree with the token issued.
    It is 200 exactly when the query is in order, both credentials are set,
    the token issuance returns a token and the retrieval with that token,
    from the root of the repository and an empty record, returns a tree
    without error. With a 200 the handler writes the encoding of a summary of
    that tree: its files and its directories, each list in ascending order,
    the two totals, which are the lengths of the two lists, and the total of
    items, which is their sum: an item that is neither file nor directory
    is among the paths of the tree but is not counted. *)
Theorem GetRepositoryFilesHandler_answers (w : World) (h : Trace) (depth : nat)
    (env : Env) (query : url.Values) :
  let t := trace_of w h (GetRepositoryFilesHandler depth env query) in
  let owner := url.Get query "owner" in
  let repo := url.Get query "repo" in
  let issue :=
    GitHubAdapter.token
      {| GitHubAdapter.appID := Getenv env "GITHUB_APP_ID";
         GitHubAdapter.privateKey := Getenv env "GITHUB_PRIVATE_KEY" |}
      owner repo in
  let retrieve (tok : string) :=
    result_of w (h ++ trace_of w h issue)
      (getRepositoryFileTree depth tok owner repo ""
         {| TotalFiles := 0; TotalDirs := 0; tree_Files := [];
            tree_Dirs := []; AllPaths := [] |}) in
  let bad := owner = "" \/ repo = "" in
  let unconfigured :=
    Getenv env "GITHUB_APP_ID" = "" \/ Getenv env "GITHUB_PRIVATE_KEY" = "" in
  result_of w h (GetRepositoryFilesHandler depth env query) = Some tt ->
  exists code : Z,
    statuses t = [code]
    /\ In code [http.StatusOK; http.StatusBadRequest;
                http.StatusInternalServerError]
    /\ (code = http.StatusBadRequest <-> bad)
    /\ (code = http.StatusInternalServerError
        <-> ~ bad
            /\ (unconfigured
                \/ is_ok (result_of w h issue) = false
                \/ exists (tok : string) (err : error) (tree : FileTreeResult),
                     result_of w h issue = Ok tok
                     /\ retrieve tok = Some (Some err, tree)))
    /\ (code = http.StatusOK
        <-> ~ bad /\ ~ unconfigured
            /\ exists (tok : string) (tree : FileTreeResult),
                 result_of w h issue = Ok tok
                 /\ retrieve tok = Some (None, tree))
    /\ (code = http.StatusBadRequest \/ unconfigured ->
        jwts_signed t = [] /\ tokens_issued t = [] /\ http_exchanges t = [])
    /\ (forall (tok : string) (tree : FileTreeResult),
          code = http.StatusOK ->
          result_of w h issue = Ok tok ->
          retrieve tok = Some (None, tree) ->
          exists summary : RepositoryFilesSummary,
            bodies t = match Marshal summary with
                       | inl data => [data ++ to_bytes newline]
                       | inr _ => []
                       end
            /\ rs_status summary = "success"
            /\ rs_owner summary = owner
            /\ rs_repo summary = repo
            /\ rs_files summary ≡ₚ tree_Files tree
            /\ ascending (rs_files summary)
            /\ rs_directories summary ≡ₚ tree_Dirs tree
            /\ ascending (rs_directories summary)
            /\ rs_total_files summary
               = int_wrap (Z.of_nat (length (rs_files summary)))
            /\ rs_total_directories summary
               = int_wrap (Z.of_nat (length (rs_directories summary)))
            /\ rs_total_items summary
               = int_add (rs_total_files summary) (rs_total_directories summary)
            /\ (length (rs_files summary) + length (rs_directories summary)
                <= length (AllPaths tree))%nat
            /\ (length (http_calls t)
                <= 1 + length (rs_directories summary))%nat).
Proof.
  cbv zeta. unfold GetRepositoryFilesHandler.
  destruct (String.eqb_spec (url.Get query "owner") "") as [O | O]; cbn [orb].
  { intros _. rewrite trace_of_bind, http_Error_trace, trace_of_Ret.
    exists http.StatusBadRequest.
    split; [reflexivity |]. split; [cbn; tauto |].
    split; [split; [tauto | reflexivity] |].
    split; [split; [discriminate | tauto] |].
    split; [split; [discriminate | tauto] |].
    split; [intros _; repeat split | intros ? ? C; discriminate C]. }
  destruct (String.eqb_spec (url.Get query "repo") "") as [R | R]; cbn [orb].
  { intros _. rewrite trace_of_bind, http_Error_trace, trace_of_Ret.
    exists http.StatusBadRequest.
    split; [reflexivity |]. split; [cbn; tauto |].
    split; [split; [tauto | reflexivity] |].
    split; [split; [discriminate | tauto] |].
    split; [split; [discriminate | tauto] |].
    split; [intros _; repeat split | intros ? ? C; discriminate C]. }
  assert (NB : ~ (url.Get query "owner" = "" \/ url.Get query "repo" = ""))
    by tauto.
  destruct (String.eqb_spec (Getenv env "GITHUB_APP_ID") "") as [I | I].
  { intros _. rewrite trace_of_bind, http_Error_trace, trace_of_Ret.
    exists http.StatusInternalServerError.
    split; [reflexivity |]. split; [cbn; tauto |].
    split; [split; [discriminate | intros C; contradiction (NB C)] |].
    split; [split; [intros _; split; [exact NB | tauto] | reflexivity] |].
    split; [split; [discriminate | tauto] |].
    split; [intros _; repeat split | intros ? ? C; discriminate C]. }
  destruct (String.eqb_spec (Getenv env "GITHUB_PRIVATE_KEY") "") as [K | K].
  { intros _. rewrite trace_of_bind, http_Error_trace, trace_of_Ret.
    exists http.StatusInternalServerError.
    split; [reflexivity |]. split; [cbn; tauto |].
    split; [split; [discriminate | intros C; contradiction (NB C)] |].
    split; [split; [intros _; split; [exact NB | tauto] | reflexivity] |].
    split; [split; [discriminate | tauto] |].
    split; [intros _; repeat split | intros ? ? C; discriminate C]. }
  assert (NU : ~ (Getenv env "GITHUB_APP_ID" = ""
                  \/ Getenv env "GITHUB_PRIVATE_KEY" = "")) by tauto.
  pose proof (token_run w h (Getenv env "GITHUB_APP_ID")
                (Getenv env "GITHUB_PRIVATE_KEY") (url.Get query "owner")
                (url.Get query "repo")) as TR.
  cbv zeta in TR.
  rewrite result_of_seq, trace_of_seq.
  destruct (w h _ (generateJWT _ _)) as [jwt | err].
  2:{ intros _. rewrite trace_of_bind, http_Error_trace, trace_of_Ret.
      exists http.StatusInternalServerError.
      split; [reflexivity |]. split; [cbn; tauto |].
      split; [split; [discriminate | intros C; contradiction (NB C)] |].
      split; [split; [intros _; split; [exact NB | tauto] | reflexivity] |].
      split.
      { split; [discriminate |].
        intros (_ & _ & tok & tree & C & _). rewrite C in TR. discriminate TR. }
      split; [intros [C | C]; [discriminate C | contradiction (NU C)]
             | intros ? ? C; discriminate C]. }
  rewrite result_of_seq, trace_of_seq.
  destruct (w _ _ (getInstallationToken _ _ _)) as [tok | err].
  2:{ intros _. rewrite trace_of_bind, http_Error_trace, trace_of_Ret.
      exists http.StatusInternalServerError.
      split; [reflexivity |]. split; [cbn; tauto |].
      split; [split; [discriminate | intros C; contradiction (NB C)] |].
      split; [split; [intros _; split; [exact NB | tauto] | reflexivity] |].
      split.
      { split; [discriminate |].
        intros (_ & _ & tok & tree & C & _). rewrite C in TR. discriminate TR. }
      split; [intros [C | C]; [discriminate C | contradiction (NU C)]
             | intros ? ? C; discriminate C]. }
  destruct TR as [RT HT]. rewrite RT, HT. clear RT HT.
  set (h2 := (h ++ _) ++ _).
  set (empty := {| TotalFiles := 0; TotalDirs := 0; tree_Files := [];
                   tree_Dirs := []; AllPaths := [] |}).
  rewrite result_of_bind, trace_of_bind.
  pose proof (yields_run _ _
                (getRepositoryFileTree_yields depth tok (url.Get query "owner")
                   (url.Get query "repo") "" empty) w h2) as L.
  destruct (request_calls_trace
              (trace_of w h2
                 (getRepositoryFileTree depth tok (url.Get query "owner")
                    (url.Get query "repo") "" empty))) as (TS & TB & _).
  { apply (satisfies_run request_call (fun _ => True)),
      getRepositoryFileTree_requests. }
  set (tt_ := trace_of w h2 _) in *.
  destruct (result_of w h2
              (getRepositoryFileTree depth tok (url.Get query "owner")
                 (url.Get query "repo") "" empty))
    as [[[err |] tree] |] eqn:E; [| | discriminate].
  { intros _. rewrite trace_of_bind, http_Error_trace, trace_of_Ret.
    exists http.StatusInternalServerError.
    split.
    { cbn. unfold statuses in *. rewrite omap_app, TS. reflexivity. }
    split; [cbn; tauto |].
    split; [split; [discriminate | intros C; contradiction (NB C)] |].
    split.
    { split; [intros _; split; [exact NB |] | reflexivity].
      right. right. exists tok, err, tree. split; [reflexivity | exact E]. }
    split.
    { split; [discriminate |].
      intros (_ & _ & tok' & tree' & [= <-] & C).
      rewrite E in C. discriminate C. }
    split; [intros [C | C]; [discriminate C | contradiction (NU C)]
           | intros ? ? C; discriminate C]. }
  intros _. destruct L as (G & C & _ & H).
  destruct (C (conj eq_refl eq_refl)) as [CF CD].
  destruct G as (paths & files & dirs & GA & GF & GD & _ & _ & GL).
  cbn [empty tree_Files tree_Dirs AllPaths app length] in *.
  rewrite Nat.sub_0_r in H.
  rewrite trace_of_seq, trace_of_bind, trace_of_Ret, app_nil_r.
  exists http.StatusOK.
  split.
  { cbn. unfold statuses in *. rewrite omap_app, TS. cbn.
    unfold Encode. destruct (Marshal _); cbn; unit_answers w; reflexivity. }
  split; [cbn; tauto |].
  split; [split; [discriminate | intros N; contradiction (NB N)] |].
  split.
  { split; [discriminate |].
    intros (_ & [U | [U | (tok' & err & tree' & [= <-] & U)]]);
      [contradiction (NU U) | discriminate U |].
    rewrite E in U. discriminate U. }
  split.
  { split; [intros _ | reflexivity].
    split; [exact NB |]. split; [exact NU |].
    exists tok, tree. split; [reflexivity | exact E]. }
  split; [intros [N | N]; [discriminate N | contradiction (NU N)] |].
  intros tok' tree' _ [= <-] E'. rewrite E in E'. injection E' as <-.
  exists {| rs_status := "success";
            rs_message := "Repository file tree retrieved successfully";
            rs_owner := url.Get query "owner";
            rs_repo := url.Get query "repo";
            rs_total_files := TotalFiles tree;
            rs_total_directories := TotalDirs tree;
            rs_total_items := int_add (TotalFiles tree) (TotalDirs tree);
            rs_files := sort_Strings (tree_Files tree);
            rs_directories := sort_Strings (tree_Dirs tree) |}.
  split.
  { cbn. unfold bodies in *. rewrite omap_app, TB. cbn.
    unfold Encode. destruct (Marshal _); cbn; unit_answers w; reflexivity. }
  cbn [rs_status rs_owner rs_repo rs_files rs_directories rs_total_files
       rs_total_directories rs_total_items].
  pose proof (sort_Strings_Permutation (tree_Files tree)) as PF.
  pose proof (sort_Strings_Permutation (tree_Dirs tree)) as PD.
  repeat split; try reflexivity; try assumption;
    try apply sort_Strings_ascending.
  - rewrite (Permutation_length PF). exact CF.
  - rewrite (Permutation_length PD). exact CD.
  - rewrite (Permutation_length PF), (Permutation_length PD), GA, GF, GD. lia.
  - rewrite (Permutation_length PD). cbn. unfold http_calls in *.
    rewrite omap_app, length_app. cbn.
    unfold Encode. destruct (Marshal _); cbn; unit_answers w; cbn; lia.
Qed.

End Repository.

(** A repository with a directory, two files and a symbolic link: the tree
    has four paths, and the summary counts three items. *)
Lemma GetRepositoryFilesHandler_answers_witness :
  result_of cases.listing_world []
    (GetRepositoryFilesHandler (JContents := cases.json_contents)
       (JSummary := cases.json_repository) 2 cases.env cases.repo_query)
  = Some tt
  /\ result_of cases.listing_world []
       (GitHubAdapter.token
          {| GitHubAdapter.appID := "12345"; GitHubAdapter.privateKey := "key" |}
          "acme" "app")
     = Ok "token"
  /\ length (AllPaths cases.listed_tree) = 4%nat
  /\ exists summary : RepositoryFilesSummary,
       bodies
         (trace_of cases.listing_world []
            (GetRepositoryFilesHandler (JContents := cases.json_contents)
               (JSummary := cases.json_repository) 2 cases.env
               cases.repo_query))
       = match Marshal (JSON := cases.json_repository) summary with
         | inl data => [data ++ to_bytes newline]
         | inr _ => []
         end
       /\ rs_files summary ≡ₚ ["src/main.go"; "README.md"]
       /\ rs_directories summary ≡ₚ ["src"]
       /\ rs_total_items summary = 3.
Proof.
  assert (R : result_of cases.listing_world []
                (GetRepositoryFilesHandler (JContents := cases.json_contents)
                   (JSummary := cases.json_repository) 2 cases.env
                   cases.repo_query)
              = Some tt) by (vm_compute; reflexivity).
  assert (I : result_of cases.listing_world []
                (GitHubAdapter.token
                   {| GitHubAdapter.appID := Getenv cases.env "GITHUB_APP_ID";
                      GitHubAdapter.privateKey :=
                        Getenv cases.env "GITHUB_PRIVATE_KEY" |}
                   (url.Get cases.repo_query "owner")
                   (url.Get cases.repo_query "repo"))
              = Ok "token") by (vm_compute; reflexivity).
  split; [exact R |]. split; [exact I |]. split; [reflexivity |].
  destruct (GetRepositoryFilesHandler_answers
              (JContents := cases.json_contents)
              (JSummary := cases.json_repository) _ _ _ _ _ R)
    as (code & S & _ & _ & _ & _ & _ & SUM).
  assert (C : code = http.StatusOK).
  { assert (S' : statuses
                   (trace_of cases.listing_world []
                      (GetRepositoryFilesHandler
                         (JContents := cases.json_contents)
                         (JSummary := cases.json_repository) 2 cases.env
                         cases.repo_query))
                 = [http.StatusOK]) by (vm_compute; reflexivity).
    rewrite S' in S. injection S as <-. reflexivity. }
  destruct (SUM "token" cases.listed_tree C I) as
    (summary & B & _ & _ & _ & PF & _ & PD & _ & TF & TD & TI & _).
  { vm_compute. reflexivity. }
  exists summary. split; [exact B |]. split; [exact PF |]. split; [exact PD |].
  rewrite TI, TF, TD, (Permutation_length PF), (Permutation_length PD).
  reflexivity.
Defined.
